(** * robotdictionary.py: scene-to-model projection of Phobos

    A shallow embedding of [phobos/robotdictionary.py] and the properties of
    its dictionary builders.

    Python values are a tagged union [value]; dictionaries are association
    lists in insertion order; a Python exception is the [Raise] branch of
    [result].  Functions of other Phobos modules and of the host application
    that the file calls but does not define are fields of the record
    [Helpers]. *)

From Stdlib Require Import ZArith List String Ascii Bool Lia Floats.
Import ListNotations.

Local Open Scope string_scope.
Local Open Scope Z_scope.

(** ** Exceptions and the error monad *)

Inductive exn : Type :=
| KeyError
| AttributeError
| TypeError
| ValueError
| IndexError
| OverflowError
| NameError (name : string)
| UnboundLocalError (name : string)
| Exception (msg : string).

Inductive result (A : Type) : Type :=
| Ok (a : A)
| Raise (e : exn).

Arguments Ok {A} a.
Arguments Raise {A} e.

Definition bind {A B : Type} (m : result A) (k : A -> result B) : result B :=
  match m with
  | Ok a => k a
  | Raise e => Raise e
  end.

Notation "x <- m ;; k" := (bind m (fun x => k))
  (at level 61, m at next level, right associativity).
Notation "' pat <- m ;; k" := (bind m (fun x => match x with pat => k end))
  (at level 61, pat pattern, m at next level, right associativity).

Definition is_Ok {A : Type} (m : result A) : bool :=
  match m with Ok _ => true | Raise _ => false end.

Definition is_KeyError (e : exn) : bool :=
  match e with KeyError => true | _ => false end.

Definition is_AttributeError (e : exn) : bool :=
  match e with AttributeError => true | _ => false end.

(** [try: body  except <handled>: handler]. *)
Definition try_except {A : Type} (body : result A) (handled : exn -> bool)
    (handler : result A) : result A :=
  match body with
  | Ok a => Ok a
  | Raise e => if handled e then handler else Raise e
  end.

(** A [for] loop whose body may raise: the accumulator is the loop's state. *)
Fixpoint for_each {A S : Type} (xs : list A) (body : S -> A -> result S)
    (s : S) : result S :=
  match xs with
  | [] => Ok s
  | x :: xs' => s' <- body s x ;; for_each xs' body s'
  end.

(** Attribute access through a reference that may be [None]. *)
Definition attr_of {A : Type} (o : option A) : result A :=
  match o with
  | Some a => Ok a
  | None => Raise AttributeError
  end.

(** ** Strings *)

Definition str_startswith (s pre : string) : bool := String.prefix pre s.

(** [sub in s] *)
Fixpoint str_contains (sub s : string) : bool :=
  String.prefix sub s ||
  match s with
  | EmptyString => false
  | String _ s' => str_contains sub s'
  end.

(** [s.split(sep)] for a one-character separator. *)
Fixpoint str_split (sep : ascii) (s : string) : list string :=
  match s with
  | EmptyString => [EmptyString]
  | String c s' =>
      if Ascii.eqb c sep then EmptyString :: str_split sep s'
      else match str_split sep s' with
           | [] => [String c EmptyString]
           | w :: ws => String c w :: ws
           end
  end.

(** [s.count(c)] for a one-character pattern. *)
Fixpoint str_count (c : ascii) (s : string) : nat :=
  match s with
  | EmptyString => O
  | String c' s' => ((if Ascii.eqb c' c then 1 else 0) + str_count c s')%nat
  end.

(** [s.replace(old, new)] for a non-empty [old]: the occurrences are replaced
    from the left and do not overlap; [skip] counts the characters of the
    occurrence just replaced that are still to be passed over. *)
Fixpoint str_replace_from (skip : nat) (old new s : string) : string :=
  match s with
  | EmptyString => EmptyString
  | String c s' =>
      match skip with
      | S k => str_replace_from k old new s'
      | O =>
          if String.prefix old s
          then new ++ str_replace_from (Nat.pred (String.length old)) old new s'
          else String c (str_replace_from O old new s')
      end
  end.

Definition str_replace (old new s : string) : string :=
  str_replace_from O old new s.

(** [s[n:]] *)
Fixpoint str_drop (n : nat) (s : string) : string :=
  match n, s with
  | O, _ => s
  | S _, EmptyString => EmptyString
  | S k, String _ s' => str_drop k s'
  end.

(** [s[::-1]] *)
Fixpoint str_rev (s : string) : string :=
  match s with
  | EmptyString => EmptyString
  | String c s' => str_rev s' ++ String c EmptyString
  end.

(** [''.join(parts)] *)
Definition str_join (parts : list string) : string :=
  fold_right String.append EmptyString parts.

Definition ascii_lower (c : ascii) : ascii :=
  let n := N_of_ascii c in
  if ((65 <=? n) && (n <=? 90))%N then ascii_of_N (n + 32) else c.

(** [s.lower()] on ASCII text. *)
Fixpoint str_lower (s : string) : string :=
  match s with
  | EmptyString => EmptyString
  | String c s' => String (ascii_lower c) (str_lower s')
  end.

Definition bin_digit (c : ascii) : option Z :=
  if Ascii.eqb c "0"%char then Some 0
  else if Ascii.eqb c "1"%char then Some 1
  else None.

Fixpoint int_base2_from (acc : Z) (s : string) : result Z :=
  match s with
  | EmptyString => Ok acc
  | String c s' =>
      match bin_digit c with
      | Some d => int_base2_from (2 * acc + d) s'
      | None => Raise ValueError
      end
  end.

(** [int(s, 2)] on a string of binary digits; the empty string is a
    [ValueError]. *)
Definition int_base2 (s : string) : result Z :=
  match s with
  | EmptyString => Raise ValueError
  | _ => int_base2_from 0 s
  end.

(** ** Python values and dictionaries *)

(** [VArray] is the host's id_array (the only value with a [to_list]
    attribute); the keys of a dictionary are strings. *)
Inductive value : Type :=
| VNone
| VBool (b : bool)
| VInt (z : Z)
| VFloat (f : float)
| VStr (s : string)
| VArray (l : list value)
| VList (l : list value)
| VTuple (l : list value)
| VDict (d : list (string * value)).

Definition dict : Type := list (string * value).

Section AssocList.
Context {V : Type}.

(** [d[k]], [None] standing for the missing key. *)
Fixpoint dict_get (k : string) (d : list (string * V)) : option V :=
  match d with
  | [] => None
  | (k', v) :: d' => if String.eqb k k' then Some v else dict_get k d'
  end.

(** [d[k] = v]: an existing key keeps its position, a new one goes last. *)
Fixpoint dict_set (k : string) (v : V) (d : list (string * V))
    : list (string * V) :=
  match d with
  | [] => [(k, v)]
  | (k', v') :: d' =>
      if String.eqb k k' then (k, v) :: d' else (k', v') :: dict_set k v d'
  end.

(** [del d[k]] for a key that is present. *)
Fixpoint dict_del (k : string) (d : list (string * V)) : list (string * V) :=
  match d with
  | [] => []
  | (k', v') :: d' =>
      if String.eqb k k' then d' else (k', v') :: dict_del k d'
  end.

(** [k in d] *)
Definition dict_has (k : string) (d : list (string * V)) : bool :=
  match dict_get k d with Some _ => true | None => false end.

Definition dict_keys (d : list (string * V)) : list string := map fst d.

(** [d[k]] raising [KeyError]. *)
Definition dict_item (k : string) (d : list (string * V)) : result V :=
  match dict_get k d with
  | Some v => Ok v
  | None => Raise KeyError
  end.
End AssocList.

(** [dict(zip(keys, vals))] *)
Fixpoint dict_zip_into (d : dict) (keys : list string) (vals : list value)
    : dict :=
  match keys, vals with
  | k :: ks, v :: vs => dict_zip_into (dict_set k v d) ks vs
  | _, _ => d
  end.

Definition dict_zip (keys : list string) (vals : list value) : dict :=
  dict_zip_into [] keys vals.

Definition float_is_zero (f : float) : bool := PrimFloat.eqb f 0%float.

(** Truth value of [if v:]. *)
Definition py_truthy (v : value) : bool :=
  match v with
  | VNone => false
  | VBool b => b
  | VInt z => negb (z =? 0)
  | VFloat f => negb (float_is_zero f)
  | VStr s => negb (String.eqb s "")
  | VArray l | VList l | VTuple l => match l with [] => false | _ => true end
  | VDict d => match d with [] => false | _ => true end
  end.

Fixpoint str_chars (s : string) : list string :=
  match s with
  | EmptyString => []
  | String c s' => String c EmptyString :: str_chars s'
  end.

(** The elements [for x in v] visits. *)
Definition py_iter (v : value) : result (list value) :=
  match v with
  | VArray l | VList l | VTuple l => Ok l
  | VStr s => Ok (map VStr (str_chars s))
  | VDict d => Ok (map VStr (dict_keys d))
  | _ => Raise TypeError
  end.

(** [len(v)] *)
Definition py_len (v : value) : result Z :=
  match v with
  | VArray l | VList l | VTuple l => Ok (Z.of_nat (List.length l))
  | VStr s => Ok (Z.of_nat (String.length s))
  | VDict d => Ok (Z.of_nat (List.length d))
  | _ => Raise TypeError
  end.

(** [seq[i]] with Python's negative indices. *)
Definition seq_index {A : Type} (l : list A) (i : Z) : result A :=
  let n := Z.of_nat (List.length l) in
  let j := if i <? 0 then i + n else i in
  if (j <? 0) || (n <=? j) then Raise IndexError
  else match nth_error l (Z.to_nat j) with
       | Some a => Ok a
       | None => Raise IndexError
       end.

Definition is_hashable (v : value) : bool :=
  match v with
  | VArray _ | VList _ | VDict _ => false
  | _ => true
  end.

(** [c[k]] *)
Definition py_getitem (c k : value) : result value :=
  match c with
  | VDict d =>
      match k with
      | VStr s => dict_item s d
      | _ => if is_hashable k then Raise KeyError else Raise TypeError
      end
  | VArray l | VList l | VTuple l =>
      match k with
      | VInt i => seq_index l i
      | VBool b => seq_index l (Z.b2z b)
      | _ => Raise TypeError
      end
  | VStr s =>
      match k with
      | VInt i => c' <- seq_index (str_chars s) i ;; Ok (VStr c')
      | VBool b => c' <- seq_index (str_chars s) (Z.b2z b) ;; Ok (VStr c')
      | _ => Raise TypeError
      end
  | _ => Raise TypeError
  end.

(** [c['k']] *)
Definition py_item (c : value) (k : string) : result value :=
  py_getitem c (VStr k).

(** [c['k'] = v], giving the container afterwards. *)
Definition py_setitem (c : value) (k : string) (v : value) : result value :=
  match c with
  | VDict d => Ok (VDict (dict_set k v d))
  | _ => Raise TypeError
  end.

(** [c['k']<path> = ...]: the entry under ['k'] is changed in place by [f]. *)
Definition py_update (c : value) (k : string) (f : value -> result value)
    : result value :=
  old <- py_item c k ;;
  new <- f old ;;
  py_setitem c k new.

(** The same on a dictionary held in a local variable. *)
Definition dict_update (d : dict) (k : string) (f : value -> result value)
    : result dict :=
  old <- dict_item k d ;;
  new <- f old ;;
  Ok (dict_set k new d).

(** [a | b] on integers (a bool counts as 0 or 1). *)
Definition py_or (a b : value) : result value :=
  match a, b with
  | VInt x, VInt y => Ok (VInt (Z.lor x y))
  | VInt x, VBool y => Ok (VInt (Z.lor x (Z.b2z y)))
  | VBool x, VInt y => Ok (VInt (Z.lor (Z.b2z x) y))
  | VBool x, VBool y => Ok (VBool (orb x y))
  | _, _ => Raise TypeError
  end.

(** [v == 's'] for a string literal. *)
Definition py_eq_str (v : value) (s : string) : bool :=
  match v with
  | VStr s' => String.eqb s' s
  | _ => false
  end.

(** ** Numbers *)

(** [float(z)]: the nearest binary64 number, [OverflowError] beyond range. *)
Definition float_of_Z (z : Z) : result float :=
  let f := SF2Prim (binary_normalize prec emax z 0 false) in
  if PrimFloat.is_infinity f then Raise OverflowError else Ok f.

(** [f == z], compared exactly. *)
Definition float_eq_Z (f : float) (z : Z) : bool :=
  match Prim2SF f with
  | S754_zero _ => z =? 0
  | S754_finite s m e =>
      let sm := if s then Z.neg m else Z.pos m in
      if 0 <=? e then z =? sm * 2 ^ e else z * 2 ^ (- e) =? sm
  | _ => false
  end.

(** [a == b].  Numbers compare by value across bool, int and float; a list
    equals a list and a tuple a tuple, elementwise; dictionaries compare
    key by key whatever the order; an id_array is compared like a list, with
    another id_array only. *)
Fixpoint py_eq (a b : value) {struct a} : bool :=
  let fix all2 (xs ys : list value) {struct xs} : bool :=
    match xs, ys with
    | [], [] => true
    | x :: xs', y :: ys' => py_eq x y && all2 xs' ys'
    | _, _ => false
    end in
  let fix sub (xs : list (string * value)) (ys : dict) {struct xs} : bool :=
    match xs with
    | [] => true
    | (k, x) :: xs' =>
        match dict_get k ys with
        | Some y => py_eq x y && sub xs' ys
        | None => false
        end
    end in
  match a, b with
  | VNone, VNone => true
  | VBool x, VBool y => Bool.eqb x y
  | VBool x, VInt y => Z.b2z x =? y
  | VInt x, VBool y => x =? Z.b2z y
  | VInt x, VInt y => x =? y
  | VBool x, VFloat y => float_eq_Z y (Z.b2z x)
  | VInt x, VFloat y => float_eq_Z y x
  | VFloat x, VBool y => float_eq_Z x (Z.b2z y)
  | VFloat x, VInt y => float_eq_Z x y
  | VFloat x, VFloat y => PrimFloat.eqb x y
  | VStr x, VStr y => String.eqb x y
  | VArray xs, VArray ys => all2 xs ys
  | VList xs, VList ys => all2 xs ys
  | VTuple xs, VTuple ys => all2 xs ys
  | VDict xs, VDict ys =>
      Nat.eqb (List.length xs) (List.length ys) && sub xs ys
  | _, _ => false
  end.

(** [x in c] *)
Definition py_contains (x c : value) : result bool :=
  match c with
  | VArray l | VList l | VTuple l => Ok (existsb (py_eq x) l)
  | VStr s =>
      match x with
      | VStr sub => Ok (str_contains sub s)
      | _ => Raise TypeError
      end
  | VDict d =>
      match x with
      | VStr k => Ok (dict_has k d)
      | _ => if is_hashable x then Ok false else Raise TypeError
      end
  | _ => Raise TypeError
  end.

(** ** The host's object model

    What the module reads of the host's scene graph.  Custom properties (the
    key/value pairs behind [obj.items()], [obj['k']] and ['k' in obj]) and
    pose bones are mutable and shared between all references to a datablock,
    so they live in the [Scene], under the datablock's name, which the host
    keeps unique per datablock kind. *)

Definition vec3 : Type := (float * float * float)%type.

(** [list(v)] of a host vector, colour or Euler triple. *)
Definition vec3_list (v : vec3) : list float :=
  let '(x, y, z) := v in [x; y; z].

Record Image : Type := { filepath : string }.

Record Texture : Type := { image : option Image }.

Record TextureSlot : Type := {
  use_map_color_diffuse : bool;
  use_map_normal : bool;
  use_map_displacement : bool;
  texture : option Texture
}.

Record Material : Type := {
  mat_name : string;
  diffuse_intensity : float;
  diffuse_color : vec3;
  ambient : float;
  specular_intensity : float;
  specular_color : vec3;
  emit : float;
  specular_hardness : Z;
  use_transparency : bool;
  alpha : float;
  texture_slots : list (option TextureSlot)
}.

Record Lamp : Type := {
  use_diffuse : bool;
  use_specular : bool;
  color : vec3;
  lamp_type : string;
  spot_size : option float;
  linear_attenuation : option float;
  quadratic_attenuation : option float;
  energy : float
}.

Record Mesh : Type := {
  mesh_name : string;
  materials : list (option Material)
}.

Inductive ObjData : Type :=
| NoData
| MeshData (m : Mesh)
| LampData (l : Lamp)
| OtherData (data_name : string).

(** A level of detail: its distance and [object.data.name] where the level
    has an object with data. *)
Record LodLevel : Type := {
  distance : float;
  lod_data_name : option string
}.

Record RigidBody : Type := { collision_groups : list bool }.

(** A scene object.  The host keeps the parent relation acyclic, hence the
    inductive type. *)
Inductive BObject : Type := mkObject {
  obj_name : string;
  phobostype : string;
  parent : option BObject;
  select : bool;
  data : ObjData;
  rigid_body : option RigidBody;
  lod_levels : list LodLevel;
  dimensions : vec3;
  matrix_local_translation : vec3;
  matrix_local_euler : vec3
}.

Record Group : Type := {
  group_name : string;
  group_objects : list BObject
}.

Record World : Type := {
  useObj : bool;
  useBobj : bool;
  useStl : bool;
  useDae : bool;
  decimalPlaces : Z
}.

Record Bone : Type := {
  rotation_mode : string;
  rotation_euler : vec3
}.

Record Scene : Type := mkScene {
  object_props : list (string * dict);
  material_props : list (string * dict);
  scene_objects : list BObject;
  pose_bones : list (string * list (string * Bone));
  texts : list (string * string);
  groups : list Group;
  worlds : list World;
  mode : string;
  clock : string
}.

(** What [getObjectName] and [initObjectProperties] are handed. *)
Inductive entity : Type :=
| EObject (o : BObject)
| EMaterial (m : Material)
| EGroup (g : Group)
| ENone.

(** The custom properties of an object: [obj.items()], read by [obj['k']]
    and ['k' in obj]. *)
Definition custom_props (sc : Scene) (o : BObject) : dict :=
  match dict_get (obj_name o) (object_props sc) with
  | Some d => d
  | None => []
  end.

(** [e.items()] *)
Definition items (sc : Scene) (e : entity) : result dict :=
  match e with
  | EObject o => Ok (custom_props sc o)
  | EMaterial m =>
      Ok (match dict_get (mat_name m) (material_props sc) with
          | Some d => d
          | None => []
          end)
  | EGroup _ => Ok []
  | ENone => Raise AttributeError
  end.

(** [scene.objects[n]] *)
Fixpoint find_object (n : string) (objs : list BObject) : result BObject :=
  match objs with
  | [] => Raise KeyError
  | o :: objs' => if String.eqb (obj_name o) n then Ok o else find_object n objs'
  end.

(** [obj.data.materials] *)
Definition data_materials (o : BObject) : result (list (option Material)) :=
  match data o with
  | MeshData m => Ok (materials m)
  | _ => Raise AttributeError
  end.

(** ** Functions defined outside the module

    [getObjectName], [getEffectiveParent], [getChildren] and [getRoots] are
    Phobos' naming and selection utilities, [deriveObjectPose],
    [deriveGeometry] and [epsilonToZero] its general utilities,
    [deriveJointType] and [getJointConstraints] its joints module; the YAML
    codec, [float] on a string, [os.path.join], [10 ** n] and the host's
    rotation-mode setter complete the list.  The optional arguments are
    [None] where the call leaves them out.  [deriveJointType] is called with
    [adjust=True] and may change the scene. *)
Record Helpers : Type := {
  getObjectName : Scene -> entity -> option string -> result string;
  getEffectiveParent : Scene -> BObject -> result (option BObject);
  getChildren :
    Scene -> BObject -> option bool -> option bool -> result (list BObject);
  getRoots : Scene -> result (list BObject);
  deriveObjectPose : Scene -> BObject -> result value;
  deriveGeometry : Scene -> BObject -> result value;
  epsilonToZero : value -> value -> Z -> result value;
  deriveJointType : Scene -> BObject -> bool -> result (value * value * Scene);
  getJointConstraints : Scene -> BObject -> result (value * value);
  yaml_load : string -> result value;
  yaml_dump : value -> result string;
  float_of_str : string -> result float;
  os_path_join : string -> string -> string;
  pow10 : Z -> value;
  set_rotation_mode : Bone -> string -> Bone
}.

(** [a + b] *)
Definition py_add (a b : value) : result value :=
  match a, b with
  | VInt x, VInt y => Ok (VInt (x + y))
  | VInt x, VBool y => Ok (VInt (x + Z.b2z y))
  | VBool x, VInt y => Ok (VInt (Z.b2z x + y))
  | VBool x, VBool y => Ok (VInt (Z.b2z x + Z.b2z y))
  | VFloat x, VFloat y => Ok (VFloat (x + y)%float)
  | VFloat x, VInt y => y' <- float_of_Z y ;; Ok (VFloat (x + y')%float)
  | VInt x, VFloat y => x' <- float_of_Z x ;; Ok (VFloat (x' + y)%float)
  | VFloat x, VBool y => y' <- float_of_Z (Z.b2z y) ;; Ok (VFloat (x + y')%float)
  | VBool x, VFloat y => x' <- float_of_Z (Z.b2z x) ;; Ok (VFloat (x' + y)%float)
  | VStr x, VStr y => Ok (VStr (x ++ y))
  | VList x, VList y => Ok (VList (x ++ y))
  | VTuple x, VTuple y => Ok (VTuple (x ++ y))
  | _, _ => Raise TypeError
  end.

(** * The module *)

(** The [ignoretypes] argument: a tuple or list of names, or, where the
    caller passes a bare string, that string. *)
Inductive ignore_spec : Type :=
| IgnoreList (l : list string)
| IgnoreStr (s : string).

Section RobotDictionary.
Variable h : Helpers.

(** ** initObjectProperties *)

(** [category in ignoretypes] *)
Definition ignored (category : string) (ig : ignore_spec) : bool :=
  match ig with
  | IgnoreList l => existsb (String.eqb category) l
  | IgnoreStr s => str_contains category s
  end.

(** [if '$'+category not in props: props['$'+category] = {}]
    [props['$'+category][specifier] = value] *)
Definition set_category (props : dict) (category specifier : string)
    (v : value) : result dict :=
  let key := "$" ++ category in
  let props :=
    if negb (dict_has key props) then dict_set key (VDict []) props
    else props in
  dict_update props key (fun c => py_setitem c specifier v).

(** The body of the loop over [obj.items()] for a given [phobostype]. *)
Definition init_step (phobostype : string) (ignoretypes : ignore_spec)
    (props : dict) (kv : string * value) : result dict :=
  let '(key, v) := kv in
  let v := match v with VArray l => VList l | _ => v end in
  if str_contains "/" key then
    if str_contains (phobostype ++ "/") key then
      match tl (str_split "/" key) with
      | [_] => Ok (dict_set (str_replace (phobostype ++ "/") "" key) v props)
      | [category; specifier] => set_category props category specifier v
      | _ => Ok props
      end
    else if Nat.eqb (str_count "/" key) 1 then
      match str_split "/" key with
      | [category; specifier] =>
          if negb (ignored category ignoretypes)
          then set_category props category specifier v
          else Ok props
      | _ => Ok props
      end
    else Ok props
  else Ok props.

Definition initObjectProperties (sc : Scene) (obj : entity)
    (phobostype : option string) (ignoretypes : ignore_spec) : result dict :=
  name <- getObjectName h sc obj (Some "material") ;;
  let props := [("name", VStr name)] in
  kvs <- items sc obj ;;
  match phobostype with
  | Some (String c pt) => for_each kvs (init_step (String c pt) ignoretypes) props
  | _ => for_each kvs (fun props kv => Ok (dict_set (fst kv) (snd kv) props)) props
  end.

(** ** deriveMaterial *)

Definition scaled (k : float) (c : vec3) : list value :=
  map (fun num => VFloat (k * num)%float) (vec3_list c).

Definition rgb (vals : list value) : value :=
  VDict (dict_zip ["r"; "g"; "b"] vals).

(** [mat.texture_slots[0].texture.image.filepath.replace('//', '')] *)
Definition first_texture_path (mat : Material) : result string :=
  slot0 <- seq_index (texture_slots mat) 0 ;;
  slot <- attr_of slot0 ;;
  tex <- attr_of (texture slot) ;;
  img <- attr_of (image tex) ;;
  Ok (str_replace "//" "" (filepath img)).

(** The body of the loop over the texture slots.  The three assignments
    evaluate the same path, so the handler is only entered before the
    first of them has taken place. *)
Definition texture_step (sc : Scene) (mat : Material) (material : dict)
    (tex : option TextureSlot) : result dict :=
  match tex with
  | None => Ok material
  | Some tex =>
      try_except
        (material <-
           (if use_map_color_diffuse tex
            then p <- first_texture_path mat ;;
                 Ok (dict_set "diffuseTexture" (VStr p) material)
            else Ok material) ;;
         material <-
           (if use_map_normal tex
            then p <- first_texture_path mat ;;
                 Ok (dict_set "normalTexture" (VStr p) material)
            else Ok material) ;;
         if use_map_displacement tex
         then p <- first_texture_path mat ;;
              Ok (dict_set "displacementTexture" (VStr p) material)
         else Ok material)
        (fun e => is_KeyError e || is_AttributeError e)
        (_ <- getObjectName h sc (EMaterial mat) (Some "material") ;;
         Ok material)
  end.

Definition deriveMaterial (sc : Scene) (mat : Material) : result dict :=
  material <- initObjectProperties sc (EMaterial mat) (Some "material")
                (IgnoreList []) ;;
  let material := dict_set "name" (VStr (mat_name mat)) material in
  let material :=
    dict_set "diffuseColor"
      (rgb (scaled (diffuse_intensity mat) (diffuse_color mat))) material in
  let material :=
    dict_set "ambientColor"
      (rgb (scaled (ambient mat * diffuse_intensity mat)%float
              (diffuse_color mat))) material in
  let material :=
    dict_set "specularColor"
      (rgb (scaled (specular_intensity mat) (specular_color mat))) material in
  let material :=
    if (0 <? emit mat)%float
    then dict_set "emissionColor"
           (rgb (scaled (emit mat * specular_intensity mat)%float
                   (specular_color mat))) material
    else material in
  hardness <- float_of_Z (specular_hardness mat) ;;
  let material := dict_set "shininess" (VFloat (hardness / 2)%float) material in
  let material :=
    if use_transparency mat
    then dict_set "transparency" (VFloat (1 - alpha mat)%float) material
    else material in
  for_each (texture_slots mat) (texture_step sc mat) material.

(** ** collectMaterials *)

(** The body of the loop over [objectlist]. *)
Definition collect_step (sc : Scene) (materials : dict) (obj : BObject)
    : result dict :=
  if String.eqb (phobostype obj) "visual" then
    mats <- data_materials obj ;;
    match mats with
    | [] => Ok materials
    | slot :: _ =>
        mat <- attr_of slot ;;
        if negb (dict_has (mat_name mat) materials) then
          m <- deriveMaterial sc mat ;;
          let materials := dict_set (mat_name mat) (VDict m) materials in
          dict_update materials (mat_name mat)
            (fun e => py_setitem e "users" (VInt 1))
        else
          dict_update materials (mat_name mat)
            (fun e => users <- py_item e "users" ;;
                      users <- py_add users (VInt 1) ;;
                      py_setitem e "users" users)
    end
  else Ok materials.

Definition collectMaterials (sc : Scene) (objectlist : list BObject)
    : result dict :=
  for_each objectlist (collect_step sc) [].

(** ** deriveLink, deriveJoint, deriveMotor, deriveKinematics *)

Definition entity_of (o : option BObject) : entity :=
  match o with
  | Some p => EObject p
  | None => ENone
  end.

Definition deriveLink (sc : Scene) (obj : BObject) : result dict :=
  props <- initObjectProperties sc (EObject obj) (Some "link")
             (IgnoreList ["joint"; "motor"]) ;;
  pose <- deriveObjectPose h sc obj ;;
  let props := dict_set "pose" pose props in
  let props := dict_set "collision" (VDict []) props in
  let props := dict_set "visual" (VDict []) props in
  let props := dict_set "inertial" (VDict []) props in
  let props := dict_set "approxcollision" (VList []) props in
  Ok props.

(** [if key in props: limits[name] = props[key]; del props[key]] *)
Definition move_limit (key name : string) (limits_props : dict * dict)
    : dict * dict :=
  let '(limits, props) := limits_props in
  match dict_get key props with
  | Some v => (dict_set name v limits, dict_del key props)
  | None => (limits, props)
  end.

(** The call of [deriveJointType] is made for its effect on the scene: its
    results are not used, and the properties are read after it. *)
Definition deriveJoint (sc : Scene) (obj : BObject) : result (dict * Scene) :=
  sc <- (if negb (dict_has "joint/type" (custom_props sc obj))
         then '(_, _, sc') <- deriveJointType h sc obj true ;; Ok sc'
         else Ok sc) ;;
  props <- initObjectProperties sc (EObject obj) (Some "joint")
             (IgnoreList ["link"; "motor"]) ;;
  par <- getEffectiveParent h sc obj ;;
  parent_name <- getObjectName h sc (entity_of par) None ;;
  let props := dict_set "parent" (VStr parent_name) props in
  child_name <- getObjectName h sc (EObject obj) None ;;
  let props := dict_set "child" (VStr child_name) props in
  '(axis, minmax) <- getJointConstraints h sc obj ;;
  props <- (if py_truthy axis
            then l <- py_iter axis ;; Ok (dict_set "axis" (VList l) props)
            else Ok props) ;;
  limits <- match minmax with
            | VNone => Ok []
            | _ =>
                n <- py_len minmax ;;
                if n =? 2 then
                  lower <- py_getitem minmax (VInt 0) ;;
                  upper <- py_getitem minmax (VInt 1) ;;
                  Ok (dict_set "upper" upper (dict_set "lower" lower []))
                else Ok []
            end ;;
  let '(limits, props) := move_limit "maxvelocity" "velocity" (limits, props) in
  let '(limits, props) := move_limit "maxeffort" "effort" (limits, props) in
  let props :=
    match limits with
    | [] => props
    | _ => dict_set "limits" (VDict limits) props
    end in
  Ok (props, sc).

Definition deriveMotor (sc : Scene) (obj : BObject) (joint : dict)
    : result (option dict) :=
  props <- initObjectProperties sc (EObject obj) (Some "motor")
             (IgnoreList ["link"; "joint"]) ;;
  if (1 <? List.length props)%nat then
    let props :=
      dict_set "joint"
        (match dict_get "joint/name" (custom_props sc obj) with
         | Some v => v
         | None => VStr (obj_name obj)
         end) props in
    try_except
      (ty <- dict_item "type" props ;;
       if py_eq_str ty "PID" then
         if dict_has "limits" joint then
           limits <- dict_item "limits" joint ;;
           lower <- py_item limits "lower" ;;
           let props := dict_set "minValue" lower props in
           limits <- dict_item "limits" joint ;;
           upper <- py_item limits "upper" ;;
           Ok (Some (dict_set "maxValue" upper props))
         else Ok (Some props)
       else if py_eq_str ty "DC" then
         let props := dict_set "minValue" (VInt 0) props in
         speed <- dict_item "maxSpeed" props ;;
         Ok (Some (dict_set "maxValue" speed props))
       else Ok (Some props))
      is_KeyError
      (Ok None)
  else Ok None.

Definition deriveKinematics (sc : Scene) (obj : BObject)
    : result (dict * option dict * option dict * Scene) :=
  link <- deriveLink sc obj ;;
  match parent obj with
  | Some _ =>
      '(joint, sc) <- deriveJoint sc obj ;;
      motor <- deriveMotor sc obj joint ;;
      Ok (link, Some joint, motor, sc)
  | None => Ok (link, None, None, sc)
  end.

(** ** deriveInertial, deriveVisual, deriveCollision *)

(** [float(v)] *)
Definition py_float (v : value) : result value :=
  match v with
  | VFloat f => Ok (VFloat f)
  | VInt z => f <- float_of_Z z ;; Ok (VFloat f)
  | VBool b => f <- float_of_Z (Z.b2z b) ;; Ok (VFloat f)
  | VStr s => f <- float_of_str h s ;; Ok (VFloat f)
  | _ => Raise TypeError
  end.

(** [list(map(f, xs))] *)
Fixpoint map_result {A B : Type} (f : A -> result B) (xs : list A)
    : result (list B) :=
  match xs with
  | [] => Ok []
  | x :: xs' => y <- f x ;; ys <- map_result f xs' ;; Ok (y :: ys)
  end.

Definition deriveInertial (sc : Scene) (obj : BObject) : result dict :=
  props <- initObjectProperties sc (EObject obj) (Some "inertial")
             (IgnoreList []) ;;
  inertia <- dict_item "inertial/inertia" (custom_props sc obj) ;;
  elems <- py_iter inertia ;;
  floats <- map_result py_float elems ;;
  let props := dict_set "inertia" (VList floats) props in
  pose <- deriveObjectPose h sc obj ;;
  Ok (dict_set "pose" pose props).

(** The extension chosen from the export flags of [bpy.data.worlds[0]]. *)
Definition mesh_extension (w : World) : string :=
  if useObj w then ".obj"
  else if useBobj w then ".bobj"
  else if useStl w then ".stl"
  else if useDae w then ".dae"
  else ".obj".

(** The body of the loop over [range(len(obj.lod_levels))]. *)
Definition lod_entry (sc : Scene) (maxdlist : value) (lodlist : list value)
    (il : nat * LodLevel) : result (list value) :=
  let '(i, lod) := il in
  filename <- attr_of (lod_data_name lod) ;;
  w <- seq_index (worlds sc) 0 ;;
  let filename := filename ++ mesh_extension w in
  end_ <- py_getitem maxdlist (VInt (Z.of_nat i)) ;;
  Ok (lodlist ++
      [VDict [("start", VFloat (distance lod)); ("end", end_);
              ("filename", VStr (os_path_join h "meshes" filename))]])%list.

(** [enumerate(xs)] *)
Definition enumerate {A : Type} (xs : list A) : list (nat * A) :=
  combine (seq 0 (List.length xs)) xs.

Definition deriveVisual (sc : Scene) (obj : BObject) : result dict :=
  visual <- initObjectProperties sc (EObject obj) (Some "visual")
              (IgnoreStr "geometry") ;;
  geometry <- deriveGeometry h sc obj ;;
  let visual := dict_set "geometry" geometry visual in
  pose <- deriveObjectPose h sc obj ;;
  let visual := dict_set "pose" pose visual in
  match lod_levels obj with
  | [] => Ok visual
  | _ :: rest =>
      let maxdlist :=
        match dict_get "lodmaxdistances" (custom_props sc obj) with
        | Some v => v
        | None =>
            VList (map (fun l => VFloat (distance l)) rest ++ [VFloat 100%float])
        end in
      lodlist <- for_each (enumerate (lod_levels obj)) (lod_entry sc maxdlist) [] ;;
      Ok (dict_set "lod" (VList lodlist) visual)
  end.

(** [''.join(['1' if group else '0' for group in groups[:16]])[::-1]] *)
Definition bitmask_string (groups : list bool) : string :=
  str_rev (str_join (map (fun group : bool => if group then "1" else "0")
                       (firstn 16 groups))).

Definition deriveCollision (sc : Scene) (obj : BObject) : result dict :=
  collision <- initObjectProperties sc (EObject obj) (Some "collision")
                 (IgnoreStr "geometry") ;;
  geometry <- deriveGeometry h sc obj ;;
  let collision := dict_set "geometry" geometry collision in
  pose <- deriveObjectPose h sc obj ;;
  let collision := dict_set "pose" pose collision in
  try_except
    (body <- attr_of (rigid_body obj) ;;
     bitmask <- int_base2 (bitmask_string (collision_groups body)) ;;
     Ok (dict_set "bitmask" (VInt bitmask) collision))
    is_AttributeError
    (Ok collision).

(** ** deriveApproxsphere, deriveSensor, deriveController, deriveLight *)

Definition float_list (v : vec3) : value := VList (map VFloat (vec3_list v)).

Definition deriveApproxsphere (sc : Scene) (obj : BObject) : result dict :=
  sphere <- initObjectProperties sc (EObject obj) None (IgnoreList []) ;;
  let '(width, _, _) := dimensions obj in
  let sphere := dict_set "radius" (VFloat (width / 2)%float) sphere in
  Ok (dict_set "center" (float_list (matrix_local_translation obj)) sphere).

Definition deriveSensor (sc : Scene) (obj : BObject) : result dict :=
  props <- initObjectProperties sc (EObject obj) (Some "sensor")
             (IgnoreList []) ;;
  link <- getObjectName h sc (entity_of (parent obj)) None ;;
  Ok (dict_set "link" (VStr link) props).

Definition deriveController (sc : Scene) (obj : BObject) : result dict :=
  initObjectProperties sc (EObject obj) (Some "controller") (IgnoreList []).

(** [obj.data] read as a lamp. *)
Definition lamp_data (obj : BObject) : result Lamp :=
  match data obj with
  | LampData l => Ok l
  | _ => Raise AttributeError
  end.

Definition deriveLight (sc : Scene) (obj : BObject) : result dict :=
  light <- initObjectProperties sc (EObject obj) (Some "light")
             (IgnoreList []) ;;
  light_data <- lamp_data obj ;;
  let light :=
    if use_diffuse light_data
    then dict_set "color_diffuse" (float_list (color light_data)) light
    else light in
  light <- (if use_specular light_data
            then diffuse <- dict_item "color_diffuse" light ;;
                 Ok (dict_set "color_specular" diffuse light)
            else Ok light) ;;
  let light := dict_set "type" (VStr (str_lower (lamp_type light_data))) light in
  type_ <- dict_item "type" light ;;
  light <- (if py_eq_str type_ "SPOT"
            then size <- attr_of (spot_size light_data) ;;
                 Ok (dict_set "size" (VFloat size) light)
            else Ok light) ;;
  let light :=
    dict_set "position" (float_list (matrix_local_translation obj)) light in
  let light :=
    dict_set "rotation" (float_list (matrix_local_euler obj)) light in
  light <- try_except
             (a <- attr_of (linear_attenuation light_data) ;;
              Ok (dict_set "attenuation_linear" (VFloat a) light))
             is_AttributeError
             (Ok light) ;;
  light <- try_except
             (a <- attr_of (quadratic_attenuation light_data) ;;
              Ok (dict_set "attenuation_quadratic" (VFloat a) light))
             is_AttributeError
             (Ok light) ;;
  let light :=
    if py_truthy (VFloat (energy light_data))
    then dict_set "attenuation_constant" (VFloat (energy light_data)) light
    else light in
  match parent obj with
  | Some p =>
      parent_name <- getObjectName h sc (EObject p) (Some "link") ;;
      Ok (dict_set "parent" (VStr parent_name) light)
  | None => Ok light
  end.

(** ** deriveDictEntry *)

(** The [KeyError] handler returns the pair [None, None]; an object of a
    type without a branch leaves [props] unbound. *)
Definition deriveDictEntry (sc : Scene) (obj : BObject) : result value :=
  try_except
    (if String.eqb (phobostype obj) "inertial" then
       props <- deriveInertial sc obj ;; Ok (VDict props)
     else if String.eqb (phobostype obj) "visual" then
       props <- deriveVisual sc obj ;; Ok (VDict props)
     else if String.eqb (phobostype obj) "collision" then
       props <- deriveCollision sc obj ;; Ok (VDict props)
     else if String.eqb (phobostype obj) "approxsphere" then
       props <- deriveApproxsphere sc obj ;; Ok (VDict props)
     else if String.eqb (phobostype obj) "sensor" then
       props <- deriveSensor sc obj ;; Ok (VDict props)
     else if String.eqb (phobostype obj) "controller" then
       props <- deriveController sc obj ;; Ok (VDict props)
     else if String.eqb (phobostype obj) "light" then
       props <- deriveLight sc obj ;; Ok (VDict props)
     else Raise (UnboundLocalError "props"))
    is_KeyError
    (Ok (VTuple [VNone; VNone])).

(** ** deriveGroupEntry *)

Definition deriveGroupEntry (sc : Scene) (group : Group)
    : result (list value) :=
  for_each (group_objects group)
    (fun links obj =>
       if String.eqb (phobostype obj) "link" then
         n <- getObjectName h sc (EObject obj) None ;;
         Ok (links ++ [VDict [("type", VStr "link"); ("name", VStr n)]])%list
       else
         _ <- getObjectName h sc (EGroup group) None ;;
         _ <- getObjectName h sc (EObject obj) None ;;
         Ok links)
    [].

(** ** deriveChainEntry *)

(** [chain['elements'].append(v)] *)
Definition append_element (chain : dict) (v : value) : result dict :=
  dict_update chain "elements"
    (fun elements =>
       match elements with
       | VList l => Ok (VList (l ++ [v]))
       | _ => Raise AttributeError
       end).

(** ['startChain' in parent] and [chainName in parent['startChain']] *)
Definition starts_chain (sc : Scene) (chainName : value) (p : BObject)
    : result bool :=
  match dict_get "startChain" (custom_props sc p) with
  | Some startchain => py_contains chainName startchain
  | None => Ok false
  end.

(** The [while not chainclosed] loop, entered with [parent = par]; [None]
    is the chain given up at an object without parent. *)
Fixpoint close_chain (sc : Scene) (chainName : value) (par : BObject)
    (chain : dict) {struct par} : result (option dict) :=
  match parent par with
  | None => Ok None
  | Some p =>
      chain <- append_element chain (VStr (obj_name par)) ;;
      closes <- starts_chain sc chainName p ;;
      if closes then
        start <- getObjectName h sc (EObject p) None ;;
        let chain := dict_set "start" (VStr start) chain in
        last <- getObjectName h sc (EObject p) None ;;
        chain <- append_element chain (VStr last) ;;
        Ok (Some chain)
      else close_chain sc chainName p chain
  end.

(** The body of the loop over [chainlist]. *)
Definition chain_step (sc : Scene) (obj : BObject) (returnchains : list value)
    (chainName : value) : result (list value) :=
  end_ <- getObjectName h sc (EObject obj) None ;;
  let chain := [("name", chainName); ("start", VStr ""); ("end", VStr end_);
                ("elements", VList [])] in
  closed <- close_chain sc chainName obj chain ;;
  match closed with
  | Some chain => Ok (returnchains ++ [VDict chain])%list
  | None => Ok returnchains
  end.

Definition deriveChainEntry (sc : Scene) (obj : BObject)
    : result (list value) :=
  chainlist <- match dict_get "endChain" (custom_props sc obj) with
               | Some v => Ok v
               | None => Raise (UnboundLocalError "chainlist")
               end ;;
  names <- py_iter chainlist ;;
  for_each names (chain_step sc obj) [].

(** ** Stored poses: storePose, get_poses, deriveStoredPoses *)

Definition with_texts (sc : Scene) (t : list (string * string)) : Scene :=
  mkScene (object_props sc) (material_props sc) (scene_objects sc)
    (pose_bones sc) t (groups sc) (worlds sc) (mode sc) (clock sc).

Definition with_pose_bones (sc : Scene)
    (b : list (string * list (string * Bone))) : Scene :=
  mkScene (object_props sc) (material_props sc) (scene_objects sc)
    b (texts sc) (groups sc) (worlds sc) (mode sc) (clock sc).

(** [bpy.ops.object.mode_set(mode=m)] *)
Definition mode_set (sc : Scene) (m : string) : Scene :=
  mkScene (object_props sc) (material_props sc) (scene_objects sc)
    (pose_bones sc) (texts sc) (groups sc) (worlds sc) m (clock sc).

(** Modelled from the spec: [bUtils.readTextFile], of Phobos' host
    utilities, is not part of the module.  The spec has the poses kept as
    flat text blobs that are stored and reloaded; the module compares what
    it reads with [''] to tell that nothing is stored. *)
Definition readTextFile (sc : Scene) (file_name : string) : string :=
  match dict_get file_name (texts sc) with
  | Some content => content
  | None => ""
  end.

(** Modelled from the spec: [bUtils.updateTextFile], the storing half of the
    same store-and-reload. *)
Definition updateTextFile (sc : Scene) (file_name content : string) : Scene :=
  with_texts sc (dict_set file_name content (texts sc)).

(** A name used as a dictionary key.  The dictionaries of this embedding are
    keyed by strings, which is what Phobos' names are; another value in the
    place of a name is a [TypeError] here. *)
Definition as_key (v : value) : result string :=
  match v with
  | VStr s => Ok s
  | _ => Raise TypeError
  end.

(** The text of a robot's poses file, parsed: [{}] for an empty file. *)
Definition load_poses (sc : Scene) (file_name : string) : result value :=
  let load_file := readTextFile sc file_name in
  if String.eqb load_file "" then Ok (VDict []) else yaml_load h load_file.

(** The body of the loop over a root's children. *)
Definition store_link (st : dict * Scene) (link : BObject)
    : result (dict * Scene) :=
  let '(new_pose, sc) := st in
  if select link && String.eqb (phobostype link) "link" then
    bones <- attr_of (dict_get (obj_name link) (pose_bones sc)) ;;
    bone <- dict_item "Bone" bones ;;
    let bone := set_rotation_mode h bone "XYZ" in
    let sc :=
      with_pose_bones sc
        (dict_set (obj_name link) (dict_set "Bone" bone bones) (pose_bones sc)) in
    let '(_, y, _) := rotation_euler bone in
    joint_name <- getObjectName h sc (EObject link) (Some "joint") ;;
    Ok (dict_set joint_name (VFloat y) new_pose, sc)
  else Ok (new_pose, sc).

(** The body of the loop over [sUtils.getRoots()]. *)
Definition store_root (robot_name : string) (st : dict * Scene)
    (root : BObject) : result (dict * Scene) :=
  modelname <- dict_item "modelname" (custom_props (snd st) root) ;;
  if py_eq_str modelname robot_name then
    links <- getChildren h (snd st) root None None ;;
    for_each links store_link st
  else Ok st.

(** The scene after the call. *)
Definition storePose (sc : Scene) (robot_name pose_name : string)
    : result Scene :=
  let file_name := "robot_poses_" ++ robot_name in
  poses <- load_poses sc file_name ;;
  let prev_mode := mode sc in
  let sc := mode_set sc "POSE" in
  roots <- getRoots h sc ;;
  '(new_pose, sc) <- for_each roots (store_root robot_name) ([], sc) ;;
  let sc := mode_set sc prev_mode in
  poses <- py_setitem poses pose_name (VDict new_pose) ;;
  text <- yaml_dump h poses ;;
  Ok (updateTextFile sc file_name text).

Definition get_poses (sc : Scene) (robot_name : string)
    : result (list string) :=
  let load_file := readTextFile sc ("robot_poses_" ++ robot_name) in
  if String.eqb load_file "" then Ok []
  else
    poses <- yaml_load h load_file ;;
    match poses with
    | VDict d => Ok (dict_keys d)
    | _ => Raise AttributeError
    end.

(** The body of the loop over the poses of one file. *)
Definition stored_pose (poses : value) (posedict : dict) (pose : value)
    : result dict :=
  joints <- py_getitem poses pose ;;
  let newpose := [("name", pose); ("joints", joints)] in
  key <- as_key pose ;;
  Ok (dict_set key (VDict newpose) posedict).

(** The loop over [bpy.data.texts]; the [break] of the empty file leaves it. *)
Fixpoint stored_poses_from (sc : Scene) (blocks : list (string * string))
    (poses_dict : dict) : result dict :=
  match blocks with
  | [] => Ok poses_dict
  | (file_name, _) :: rest =>
      if str_startswith file_name "robot_poses_" then
        let robot_name := str_drop (String.length "robot_poses_") file_name in
        let poses_file := readTextFile sc file_name in
        if String.eqb poses_file "" then
          Ok (dict_set robot_name (VDict []) poses_dict)
        else
          poses <- yaml_load h poses_file ;;
          names <- py_iter poses ;;
          posedict <- for_each names (stored_pose poses) [] ;;
          stored_poses_from sc rest
            (dict_set robot_name (VDict posedict) poses_dict)
      else stored_poses_from sc rest poses_dict
  end.

Definition deriveStoredPoses (sc : Scene) : result dict :=
  stored_poses_from sc (texts sc) [].

(** ** buildModelDictionary *)

(** [c[k1][k2]...] *)
Fixpoint py_path (c : value) (ks : list string) : result value :=
  match ks with
  | [] => Ok c
  | k :: ks' => c' <- py_item c k ;; py_path c' ks'
  end.

(** The container [c] after the object at [c[k1][k2]...] has been changed
    in place into [new]. *)
Fixpoint py_store (c : value) (ks : list string) (new : value)
    : result value :=
  match ks with
  | [] => Ok new
  | k :: ks' =>
      c' <- py_item c k ;;
      new' <- py_store c' ks' new ;;
      py_setitem c k new'
  end.

Definition empty_robot : value :=
  VDict [("links", VDict []); ("joints", VDict []); ("poses", VDict []);
         ("sensors", VDict []); ("motors", VDict []);
         ("controllers", VDict []); ("materials", VDict []);
         ("lights", VDict []); ("groups", VDict []); ("chains", VDict [])].

(** [robot[section][entry['name']] = entry] for an entry that is there. *)
Definition add_named (robot : value) (section : string) (entry : option dict)
    : result value :=
  match entry with
  | Some (kv :: d) =>
      target <- py_item robot section ;;
      name <- dict_item "name" (kv :: d) ;;
      key <- as_key name ;;
      target <- py_setitem target key (VDict (kv :: d)) ;;
      py_store robot [section] target
  | _ => Ok robot
  end.

(** The body of the loop over [linklist]. *)
Definition link_step (st : value * Scene) (link : BObject)
    : result (value * Scene) :=
  let '(robot, sc) := st in
  '(linkdict, jointdict, motordict, sc) <- deriveKinematics sc link ;;
  links <- py_item robot "links" ;;
  name <- dict_item "name" linkdict ;;
  linkname <- as_key name ;;
  links <- py_setitem links linkname (VDict linkdict) ;;
  robot <- py_store robot ["links"] links ;;
  robot <- add_named robot "joints" jointdict ;;
  robot <- add_named robot "motors" motordict ;;
  robot <- try_except
             (inertial <- find_object ("inertial_" ++ linkname)
                            (scene_objects sc) ;;
              props <- deriveDictEntry sc inertial ;;
              match props with
              | VNone => Ok robot
              | _ =>
                  linkdict' <- py_path robot ["links"; linkname] ;;
                  linkdict' <- py_setitem linkdict' "inertial" props ;;
                  py_store robot ["links"; linkname] linkdict'
              end)
             is_KeyError
             (Ok robot) ;;
  Ok (robot, sc).

(** The body of the loop over the visual, collision and approxsphere
    objects; the [print] reads [getEffectiveParent(obj).name]. *)
Definition geometry_step (sc : Scene) (robot : value) (obj : BObject)
    : result value :=
  if String.eqb (phobostype obj) "visual"
     || String.eqb (phobostype obj) "collision" then
    props <- deriveDictEntry sc obj ;;
    par <- getEffectiveParent h sc obj ;;
    parentname <- getObjectName h sc (entity_of par) None ;;
    par' <- getEffectiveParent h sc obj ;;
    _ <- attr_of par' ;;
    entries <- py_path robot ["links"; parentname; phobostype obj] ;;
    name <- getObjectName h sc (EObject obj) None ;;
    entries <- py_setitem entries name props ;;
    py_store robot ["links"; parentname; phobostype obj] entries
  else if String.eqb (phobostype obj) "approxsphere" then
    props <- deriveDictEntry sc obj ;;
    par <- getEffectiveParent h sc obj ;;
    parentname <- getObjectName h sc (entity_of par) None ;;
    spheres <- py_path robot ["links"; parentname; "approxcollision"] ;;
    match spheres with
    | VList l =>
        py_store robot ["links"; parentname; "approxcollision"]
          (VList (l ++ [props]))
    | _ => Raise AttributeError
    end
  else Ok robot.

(** [try: bitmask = bitmask | link['collision'][collname]['bitmask']]
    [except KeyError: pass] *)
Definition or_bitmask (link : value) (bitmask collname : value)
    : result value :=
  try_except
    (collision <- py_item link "collision" ;;
     entry <- py_getitem collision collname ;;
     mask <- py_item entry "bitmask" ;;
     py_or bitmask mask)
    is_KeyError
    (Ok bitmask).

(** The body of the loop over [robot['links']]; the link is changed in
    place. *)
Definition bitmask_step (robot : value) (linkname : value) : result value :=
  links <- py_item robot "links" ;;
  link <- py_getitem links linkname ;;
  collision <- py_item link "collision" ;;
  collnames <- py_iter collision ;;
  bitmask <- for_each collnames (or_bitmask link) (VInt 0) ;;
  link <- py_setitem link "collision_bitmask" bitmask ;;
  key <- as_key linkname ;;
  py_store robot ["links"; key] link.

(** The body of the loop over the sensors and controllers. *)
Definition device_step (sc : Scene) (robot : value) (obj : BObject)
    : result value :=
  if String.eqb (phobostype obj) "sensor"
     || String.eqb (phobostype obj) "controller" then
    props <- deriveDictEntry sc obj ;;
    target <- py_item robot (phobostype obj ++ "s") ;;
    name <- getObjectName h sc (EObject obj) None ;;
    target <- py_setitem target name props ;;
    py_store robot [phobostype obj ++ "s"] target
  else Ok robot.

Definition entity_of_slot (slot : option Material) : entity :=
  match slot with
  | Some m => EMaterial m
  | None => ENone
  end.

(** The body of the loop that names each visual's material. *)
Definition material_step (sc : Scene) (robot : value) (obj : BObject)
    : result value :=
  if String.eqb (phobostype obj) "visual" then
    mats <- data_materials obj ;;
    match mats with
    | [] => Ok robot
    | mat :: _ =>
        matname <- getObjectName h sc (entity_of_slot mat) (Some "material") ;;
        materials <- py_item robot "materials" ;;
        known <- py_contains (VStr matname) materials ;;
        robot <- (if negb known then
                    m <- attr_of mat ;;
                    derived <- deriveMaterial sc m ;;
                    materials <- py_item robot "materials" ;;
                    materials <- py_setitem materials matname (VDict derived) ;;
                    py_store robot ["materials"] materials
                  else Ok robot) ;;
        links <- py_item robot "links" ;;
        parentname <- getObjectName h sc (entity_of (parent obj)) None ;;
        visuals <- py_path links [parentname; "visual"] ;;
        name <- getObjectName h sc (EObject obj) None ;;
        visual <- py_item visuals name ;;
        visual <- py_setitem visual "material" (VStr matname) ;;
        py_store robot ["links"; parentname; "visual"; name] visual
    end
  else Ok robot.

(** The body of the loop over [bpy.data.groups]. *)
Definition group_step (sc : Scene) (robot : value) (group : Group)
    : result value :=
  match group_objects group with
  | [] => Ok robot
  | _ =>
      name <- getObjectName h sc (EGroup group) (Some "group") ;;
      if negb (String.eqb name "RigidBodyWorld") then
        entry <- deriveGroupEntry sc group ;;
        target <- py_item robot "groups" ;;
        name <- getObjectName h sc (EGroup group) (Some "group") ;;
        target <- py_setitem target name (VList entry) ;;
        py_store robot ["groups"] target
      else Ok robot
  end.

(** [chains.extend(deriveChainEntry(obj))] for the links that end a chain. *)
Definition gather_chains (sc : Scene) (chains : list value) (obj : BObject)
    : result (list value) :=
  if String.eqb (phobostype obj) "link"
     && dict_has "endChain" (custom_props sc obj) then
    found <- deriveChainEntry sc obj ;;
    Ok (chains ++ found)%list
  else Ok chains.

(** [robot['chains'][chain['name']] = chain] *)
Definition chain_entry (robot : value) (chain : value) : result value :=
  target <- py_item robot "chains" ;;
  name <- py_item chain "name" ;;
  key <- as_key name ;;
  target <- py_setitem target key chain ;;
  py_store robot ["chains"] target.

(** The body of the loop over the lights. *)
Definition light_step (sc : Scene) (robot : value) (obj : BObject)
    : result value :=
  if String.eqb (phobostype obj) "light" then
    light <- deriveLight sc obj ;;
    target <- py_item robot "lights" ;;
    name <- getObjectName h sc (EObject obj) None ;;
    target <- py_setitem target name (VDict light) ;;
    py_store robot ["lights"] target
  else Ok robot.

(** The names bound in the module's namespace: its imports and its
    functions. *)
Definition module_globals : list string :=
  ["os"; "copy"; "sys"; "datetime"; "yaml"; "bpy"; "joints"; "nUtils";
   "sUtils"; "bUtils"; "log"; "epsilonToZero"; "deriveObjectPose";
   "deriveGeometry"; "register"; "collectMaterials"; "deriveMaterial";
   "deriveLink"; "deriveJoint"; "deriveJointState"; "deriveMotor";
   "deriveKinematics"; "deriveInertial"; "deriveVisual"; "deriveCollision";
   "deriveApproxsphere"; "deriveSensor"; "deriveController"; "deriveLight";
   "initObjectProperties"; "deriveDictEntry"; "deriveGroupEntry";
   "deriveChainEntry"; "storePose"; "loadPose"; "get_poses";
   "deriveStoredPoses"; "buildModelDictionary"].

(** A global name, looked up when the expression that mentions it runs. *)
Definition global (name : string) : result unit :=
  if existsb (String.eqb name) module_globals then Ok tt
  else Raise (NameError name).

(** The statements of [buildModelDictionary] before the rounding: the
    dictionary [robot] and [objectlist] as the [return] statement finds
    them, and the scene. *)
Definition build_robot (sc : Scene) (root : BObject)
    : result (value * list BObject * Scene) :=
  let robot := empty_robot in
  robot <- py_setitem robot "date" (VStr (clock sc)) ;;
  if negb (String.eqb (phobostype root) "link") then
    Raise (Exception "Found no 'link' object as root of the robot model.")
  else
    robot <- py_setitem robot "modelname"
               (match dict_get "modelname" (custom_props sc root) with
                | Some modelname => modelname
                | None => VStr "unnamed_robot"
                end) ;;
    objectlist <- getChildren h sc root (Some true) (Some false) ;;
    let linklist :=
      filter (fun link => String.eqb (phobostype link) "link") objectlist in
    '(robot, sc) <- for_each linklist link_step (robot, sc) ;;
    robot <- for_each objectlist (geometry_step sc) robot ;;
    links <- py_item robot "links" ;;
    linknames <- py_iter links ;;
    robot <- for_each linknames bitmask_step robot ;;
    robot <- for_each objectlist (device_step sc) robot ;;
    materials <- collectMaterials sc objectlist ;;
    robot <- py_setitem robot "materials" (VDict materials) ;;
    robot <- for_each objectlist (material_step sc) robot ;;
    robot <- for_each (groups sc) (group_step sc) robot ;;
    chains <- for_each objectlist (gather_chains sc) [] ;;
    robot <- for_each chains chain_entry robot ;;
    robot <- for_each objectlist (light_step sc) robot ;;
    poses <- deriveStoredPoses sc ;;
    robot <- py_setitem robot "poses" (VDict poses) ;;
    Ok (robot, objectlist, sc).

(** The function returns the pair of the rounded dictionary and
    [objectlist]; [gUtils] is looked up before its attribute is called. *)
Definition buildModelDictionary (sc : Scene) (root : BObject)
    : result (value * list BObject * Scene) :=
  '(robot, objectlist, sc) <- build_robot sc root ;;
  world <- seq_index (worlds sc) 0 ;;
  let epsilon := pow10 h (- decimalPlaces world) in
  _ <- global "gUtils" ;;
  world <- seq_index (worlds sc) 0 ;;
  rounded <- epsilonToZero h robot epsilon (decimalPlaces world) ;;
  Ok (rounded, objectlist, sc).

End RobotDictionary.

(** ** loadPose *)

Section LoadPose.
Variable h : Helpers.

(** [sUtils.getObjectsByPhobostypes], of Phobos' selection utilities. *)
Variable getObjectsByPhobostypes :
  Scene -> list string -> result (list BObject).

(** A value assigned to a float property of the host: a Python number. *)
Definition float_property (v : value) : result float :=
  match v with
  | VFloat f => Ok f
  | VInt z => float_of_Z z
  | VBool b => float_of_Z (Z.b2z b)
  | _ => Raise TypeError
  end.

(** [obj.pose.bones['Bone']] *)
Definition the_bone (sc : Scene) (obj : BObject) : result Bone :=
  bones <- attr_of (dict_get (obj_name obj) (pose_bones sc)) ;;
  dict_item "Bone" bones.

(** [obj.pose.bones['Bone'] := bone], for an object that has the bone. *)
Definition with_bone (sc : Scene) (obj : BObject) (bone : Bone) : Scene :=
  match dict_get (obj_name obj) (pose_bones sc) with
  | Some bones =>
      with_pose_bones sc
        (dict_set (obj_name obj) (dict_set "Bone" bone bones) (pose_bones sc))
  | None => sc
  end.

(** The body of the loop over the links. *)
Definition load_link (poses : value) (pose_name : string) (sc : Scene)
    (obj : BObject) : result Scene :=
  joint_name <- getObjectName h sc (EObject obj) (Some "joint") ;;
  pose <- py_item poses pose_name ;;
  known <- py_contains (VStr joint_name) pose ;;
  if known then
    bone <- the_bone sc obj ;;
    let sc := with_bone sc obj (set_rotation_mode h bone "XYZ") in
    pose <- py_item poses pose_name ;;
    joint_name <- getObjectName h sc (EObject obj) (Some "joint") ;;
    angle <- py_item pose joint_name ;;
    bone <- the_bone sc obj ;;
    y <- float_property angle ;;
    let '(x, _, z) := rotation_euler bone in
    Ok (with_bone sc obj
          {| rotation_mode := rotation_mode bone; rotation_euler := (x, y, z) |})
  else Ok sc.

(** The scene after the call.  Without stored poses the function logs an
    error and returns; a pose name that is not stored is passed over. *)
Definition loadPose (sc : Scene) (robot_name pose_name : string)
    : result Scene :=
  let load_file := readTextFile sc ("robot_poses_" ++ robot_name) in
  if String.eqb load_file "" then Ok sc
  else
    poses <- yaml_load h load_file ;;
    known <- py_contains (VStr pose_name) poses ;;
    if known then
      let prev_mode := mode sc in
      let sc := mode_set sc "POSE" in
      objs <- getObjectsByPhobostypes sc ["link"] ;;
      sc <- for_each objs (load_link poses pose_name) sc ;;
      Ok (mode_set sc prev_mode)
    else Ok sc.

End LoadPose.

(** * A sample scene

    A three-link arm with collision and visual objects, to evaluate the
    module on.  The sample helpers stand in for the functions the module
    imports: a datablock is named by its own name, the effective parent is
    the parent, the children of a root are the scene objects below it, poses
    and geometries are empty, and the YAML codec knows a single document. *)

Definition zero3 : vec3 := (0%float, 0%float, 0%float).

Definition sample_object (n t : string) (p : option BObject) (d : ObjData)
    (rb : option RigidBody) : BObject :=
  mkObject n t p true d rb [] zero3 zero3 zero3.

Fixpoint descends (root : string) (o : BObject) : bool :=
  String.eqb (obj_name o) root ||
  match parent o with
  | Some p => descends root p
  | None => false
  end.

Definition sample_dump (v : value) : result string :=
  match v with
  | VDict [(k, VDict [])] =>
      if String.eqb k "stand" then Ok "stand: {}" else Raise ValueError
  | _ => Raise ValueError
  end.

Definition sample_load (s : string) : result value :=
  if String.eqb s "stand: {}" then Ok (VDict [("stand", VDict [])])
  else Raise ValueError.

Definition sample_name (e : entity) : result string :=
  match e with
  | EObject o => Ok (obj_name o)
  | EMaterial m => Ok (mat_name m)
  | EGroup g => Ok (group_name g)
  | ENone => Raise AttributeError
  end.

Definition sample_helpers : Helpers := {|
  getObjectName := fun _ e _ => sample_name e;
  getEffectiveParent := fun _ o => Ok (parent o);
  getChildren := fun sc root _ _ =>
    Ok (filter (descends (obj_name root)) (scene_objects sc));
  getRoots := fun sc =>
    Ok (filter (fun o => match parent o with None => true | _ => false end)
          (scene_objects sc));
  deriveObjectPose := fun _ _ => Ok (VDict []);
  deriveGeometry := fun _ _ => Ok (VDict []);
  epsilonToZero := fun v _ _ => Ok v;
  deriveJointType := fun sc _ _ => Ok (VStr "fixed", VNone, sc);
  getJointConstraints := fun _ _ => Ok (VNone, VNone);
  yaml_load := sample_load;
  yaml_dump := sample_dump;
  float_of_str := fun _ => Raise ValueError;
  os_path_join := fun a b => a ++ "/" ++ b;
  pow10 := fun _ => VInt 1;
  set_rotation_mode := fun b m =>
    {| rotation_mode := m; rotation_euler := rotation_euler b |}
|}.

Definition red : Material := {|
  mat_name := "red";
  diffuse_intensity := 0.5%float;
  diffuse_color := (1%float, 0%float, 0%float);
  ambient := 1%float;
  specular_intensity := 0.5%float;
  specular_color := (1%float, 1%float, 1%float);
  emit := 0%float;
  specular_hardness := 50;
  use_transparency := false;
  alpha := 1%float;
  texture_slots := [None; None]
|}.

Definition no_mesh : ObjData := MeshData {| mesh_name := "box"; materials := [] |}.

Definition red_mesh : ObjData :=
  MeshData {| mesh_name := "shell"; materials := [Some red] |}.

(** Twenty collision groups, the first of them as given. *)
Definition groups20 (l : list bool) : option RigidBody :=
  Some {| collision_groups := l ++ repeat false (20 - List.length l) |}.

Definition base : BObject :=
  sample_object "base" "link" None (OtherData "armature") None.

Definition arm : BObject :=
  sample_object "arm" "link" (Some base) (OtherData "armature") None.

Definition hand : BObject :=
  sample_object "hand" "link" (Some arm) (OtherData "armature") None.

Definition col1 : BObject :=
  sample_object "col1" "collision" (Some arm) no_mesh
    (groups20 [true; false; true]).

Definition col2 : BObject :=
  sample_object "col2" "collision" (Some arm) no_mesh
    (groups20 [false; false; false; true]).

Definition col3 : BObject :=
  sample_object "col3" "collision" (Some arm) no_mesh None.

Definition vis1 : BObject :=
  sample_object "vis1" "visual" (Some arm) red_mesh None.

Definition vis2 : BObject :=
  sample_object "vis2" "visual" (Some hand) red_mesh None.

Definition rest_bone : list (string * Bone) :=
  [("Bone", {| rotation_mode := "QUATERNION"; rotation_euler := zero3 |})].

Definition sample_scene : Scene := {|
  object_props :=
    [("base", [("modelname", VStr "robbie");
               ("startChain", VList [VStr "reach"])]);
     ("hand", [("endChain", VList [VStr "reach"; VStr "grasp"])]);
     ("col3", [("collision/bitmask", VInt 5)])];
  material_props := [];
  scene_objects := [base; arm; hand; col1; col2; col3; vis1; vis2];
  pose_bones := [("base", rest_bone); ("arm", rest_bone); ("hand", rest_bone)];
  texts := [];
  groups := [];
  worlds := [{| useObj := true; useBobj := false; useStl := false;
                useDae := false; decimalPlaces := 3 |}];
  mode := "OBJECT";
  clock := "20141212_10:00"
|}.

(** The sample scene with two poses files, the first of them empty. *)
Definition two_robots : Scene :=
  with_texts sample_scene
    [("robot_poses_anna", ""); ("robot_poses_robbie", "stand: {}")].

(** The materials of the sample scene, as [collectMaterials] gives them. *)
Definition sample_materials : dict :=
  Eval vm_compute in
    match collectMaterials sample_helpers sample_scene
            (scene_objects sample_scene) with
    | Ok collected => collected
    | Raise _ => []
    end.


(** The dictionary built for the sample scene, as the [return] statement of
    [buildModelDictionary] finds it. *)
Definition sample_robot : value :=
  Eval vm_compute in
    match build_robot sample_helpers sample_scene base with
    | Ok (robot, _, _) => robot
    | Raise _ => VNone
    end.

(** The sample helpers with a [deriveJointType] that writes the joint type
    it derives into the properties of the object, as a call with
    [adjust=True] may do. *)
Definition adjusting_helpers : Helpers := {|
  getObjectName := getObjectName sample_helpers;
  getEffectiveParent := getEffectiveParent sample_helpers;
  getChildren := getChildren sample_helpers;
  getRoots := getRoots sample_helpers;
  deriveObjectPose := deriveObjectPose sample_helpers;
  deriveGeometry := deriveGeometry sample_helpers;
  epsilonToZero := epsilonToZero sample_helpers;
  deriveJointType := fun sc obj _ =>
    Ok (VStr "fixed", VNone,
        mkScene
          (dict_set (obj_name obj)
             (dict_set "joint/type" (VStr "fixed") (custom_props sc obj))
             (object_props sc))
          (material_props sc) (scene_objects sc) (pose_bones sc) (texts sc)
          (groups sc) (worlds sc) (mode sc) (clock sc));
  getJointConstraints := getJointConstraints sample_helpers;
  yaml_load := yaml_load sample_helpers;
  yaml_dump := yaml_dump sample_helpers;
  float_of_str := float_of_str sample_helpers;
  os_path_join := os_path_join sample_helpers;
  pow10 := pow10 sample_helpers;
  set_rotation_mode := set_rotation_mode sample_helpers
|}.

(** ** A robot with stored poses

    A store of poses gives the angle of each joint by pose name.  The codec
    of [sorting_helpers] knows the stores below; like PyYAML it writes the
    keys of a mapping sorted, so that the pose collected in the order of the
    links is reloaded in the order of the names. *)
Definition pose_store : Type := list (string * list (string * float)).

Definition store_value (st : pose_store) : dict :=
  map (fun pose =>
         (fst pose,
          VDict (map (fun joint => (fst joint, VFloat (snd joint)))
                   (snd pose))))
    st.

Fixpoint joints_eqb (js : dict) (ref : list (string * float)) : bool :=
  match js, ref with
  | [], [] => true
  | (j, VFloat a) :: js', (j', a') :: ref' =>
      String.eqb j j' && PrimFloat.Leibniz.eqb a a' && joints_eqb js' ref'
  | _, _ => false
  end.

Fixpoint store_eqb (d : dict) (ref : pose_store) : bool :=
  match d, ref with
  | [], [] => true
  | (p, VDict js) :: d', (p', js') :: ref' =>
      String.eqb p p' && joints_eqb js js' && store_eqb d' ref'
  | _, _ => false
  end.

(** What is stored for the robot at first. *)
Definition old_store : pose_store :=
  [("rest", [("arm", 0.25%float)]); ("stand", [("arm", 0.5%float)])].

Definition old_text : string := "{rest: {arm: 0.25}, stand: {arm: 0.5}}".

(** The store after the pose 'stand' is collected from the links 'base',
    'arm' and 'hand', and the same as it is read back. *)
Definition collected_store : pose_store :=
  [("rest", [("arm", 0.25%float)]);
   ("stand", [("base", 0%float); ("arm", 0.75%float);
              ("hand", (-0.5)%float)])].

Definition sorted_store : pose_store :=
  [("rest", [("arm", 0.25%float)]);
   ("stand", [("arm", 0.75%float); ("base", 0%float);
              ("hand", (-0.5)%float)])].

Definition new_text : string :=
  "{rest: {arm: 0.25}, stand: {arm: 0.75, base: 0.0, hand: -0.5}}".

Definition sorting_dump (v : value) : result string :=
  match v with
  | VDict d =>
      if store_eqb d old_store then Ok old_text
      else if store_eqb d collected_store then Ok new_text
      else if store_eqb d sorted_store then Ok new_text
      else Raise ValueError
  | _ => Raise ValueError
  end.

Definition sorting_load (s : string) : result value :=
  if String.eqb s old_text then Ok (VDict (store_value old_store))
  else if String.eqb s new_text then Ok (VDict (store_value sorted_store))
  else Raise ValueError.

Definition sorting_helpers : Helpers := {|
  getObjectName := getObjectName sample_helpers;
  getEffectiveParent := getEffectiveParent sample_helpers;
  getChildren := getChildren sample_helpers;
  getRoots := getRoots sample_helpers;
  deriveObjectPose := deriveObjectPose sample_helpers;
  deriveGeometry := deriveGeometry sample_helpers;
  epsilonToZero := epsilonToZero sample_helpers;
  deriveJointType := deriveJointType sample_helpers;
  getJointConstraints := getJointConstraints sample_helpers;
  yaml_load := sorting_load;
  yaml_dump := sorting_dump;
  float_of_str := float_of_str sample_helpers;
  os_path_join := os_path_join sample_helpers;
  pow10 := pow10 sample_helpers;
  set_rotation_mode := set_rotation_mode sample_helpers
|}.

Definition bone_at (x y z : float) : list (string * Bone) :=
  [("Bone", {| rotation_mode := "QUATERNION"; rotation_euler := (x, y, z) |})].

(** The robot 'robbie' with its arm and hand turned, two stored poses and a
    text block of notes. *)
Definition studio : Scene := {|
  object_props := [("base", [("modelname", VStr "robbie")])];
  material_props := [];
  scene_objects := [base; arm; hand; col1];
  pose_bones := [("base", rest_bone);
                 ("arm", bone_at 0%float 0.75%float 0%float);
                 ("hand", bone_at 0.125%float (-0.5)%float 0%float)];
  texts := [("notes", "remember the oil"); ("robot_poses_robbie", old_text)];
  groups := [];
  worlds := [];
  mode := "OBJECT";
  clock := "20141212_13:00"
|}.

(** * Vocabulary of the properties *)

(** The integer whose bit [i] is the [i]-th flag of the list. *)
Fixpoint pack_bits (flags : list bool) : Z :=
  match flags with
  | [] => 0
  | b :: bs => 2 * pack_bits bs + Z.b2z b
  end.

(** The digit of a collision group in the bitmask string. *)
Definition flag_digit (group : bool) : string := if group then "1" else "0".

(** The name of the material that [collectMaterials] counts for an object:
    that of the first material slot of a visual. *)
Definition counted_material (obj : BObject) : option string :=
  if String.eqb (phobostype obj) "visual" then
    match data obj with
    | MeshData m =>
        match materials m with
        | Some mat :: _ => Some (mat_name mat)
        | _ => None
        end
    | _ => None
    end
  else None.

Definition counts_for (name : string) (obj : BObject) : bool :=
  match counted_material obj with
  | Some n => String.eqb n name
  | None => false
  end.

(** The number of objects of the list that use the material [name]. *)
Definition users_of (name : string) (objectlist : list BObject) : Z :=
  Z.of_nat (List.length (filter (counts_for name) objectlist)).

(** What [collectMaterials] has to say about the material [name]: an entry
    whose ['users'] is the number of its users, or no entry without users. *)
Definition users_counted (collected : dict) (objectlist : list BObject)
    (name : string) : Prop :=
  match dict_get name collected with
  | Some entry =>
      exists e, entry = VDict e /\
                dict_get "users" e = Some (VInt (users_of name objectlist)) /\
                0 < users_of name objectlist
  | None => users_of name objectlist = 0
  end.

(** The objects met when walking up the parent links of an object, nearest
    first. *)
Fixpoint ancestors (obj : BObject) : list BObject :=
  match parent obj with
  | Some p => p :: ancestors p
  | None => []
  end.

(** A chain as [deriveChainEntry] writes it. *)
Definition chain_dict (name : value) (start end_ : string)
    (elements : list string) : value :=
  VDict [("name", name); ("start", VStr start); ("end", VStr end_);
         ("elements", VList (map VStr elements))].

(** The chain while it is being walked. *)
Definition open_chain (name : value) (start end_ : value)
    (elements : list value) : dict :=
  [("name", name); ("start", start); ("end", end_);
   ("elements", VList elements)].

(** Two values that are the same but for the order in which their
    dictionaries list their keys: a mapping that is written out and read
    back comes with its keys in the order of the writer, which for PyYAML is
    the sorted one. *)
Inductive same_value : value -> value -> Prop :=
  | same_refl (v : value) : same_value v v
  | same_list (l l' : list value) :
      Forall2 same_value l l' -> same_value (VList l) (VList l')
  | same_tuple (l l' : list value) :
      Forall2 same_value l l' -> same_value (VTuple l) (VTuple l')
  | same_dict (d d' : dict) :
      (forall k v, dict_get k d = Some v ->
         exists v', dict_get k d' = Some v' /\ same_value v v') ->
      (forall k, dict_get k d = None -> dict_get k d' = None) ->
      same_value (VDict d) (VDict d').

(** The YAML codec reloads the dictionaries it stores, as the same mappings
    whatever the order of their keys, and the text of a stored dictionary is
    not empty. *)
Definition yaml_roundtrip (h : Helpers) : Prop :=
  forall (d : dict) (s : string),
    yaml_dump h (VDict d) = Ok s ->
    s <> "" /\
    exists d', yaml_load h s = Ok (VDict d') /\ same_value (VDict d) (VDict d').

(** The name of a robot's poses file. *)
Definition poses_file (robot_name : string) : string :=
  "robot_poses_" ++ robot_name.

(** The bitmask of a collision entry that has one. *)
Definition entry_bitmask (entry : value) : list Z :=
  match entry with
  | VDict e =>
      match dict_get "bitmask" e with
      | Some (VInt z) => [z]
      | Some (VBool b) => [Z.b2z b]
      | _ => []
      end
  | _ => []
  end.

(** The bitmasks of the entries of a link's collision dictionary, entry by
    entry; an entry without ['bitmask'] has none. *)
Definition bitmasks_at (collision : dict) (names : list string) : list Z :=
  flat_map (fun name => match dict_get name collision with
                        | Some entry => entry_bitmask entry
                        | None => []
                        end) names.

Definition bitmasks (collision : dict) : list Z :=
  bitmasks_at collision (dict_keys collision).

(** The bitwise OR of a list of integers, 0 for the empty list. *)
Definition or_all (zs : list Z) : Z := fold_left Z.lor zs 0.

(** A collision entry whose ['bitmask'], where there is one, is an integer. *)
Definition entry_ready (entry : value) : Prop :=
  exists e, entry = VDict e /\
            match dict_get "bitmask" e with
            | Some (VInt _) | Some (VBool _) | None => True
            | Some _ => False
            end.

(** A link with its collision dictionary. *)
Definition link_shaped (link : value) : Prop :=
  exists l collision,
    link = VDict l /\ dict_get "collision" l = Some (VDict collision).

(** A link whose ['collision_bitmask'] combines the bitmasks of its
    collision entries. *)
Definition link_masked (link : value) : Prop :=
  exists l collision,
    link = VDict l /\
    dict_get "collision" l = Some (VDict collision) /\
    dict_get "collision_bitmask" l = Some (VInt (or_all (bitmasks collision))) /\
    forall name, In name (dict_keys collision) ->
      exists entry, dict_get name collision = Some entry /\ entry_ready entry.

(** Every link of the dictionary [robot], with its name, satisfies [good]. *)
Definition all_links (good : string -> value -> Prop) (robot : value) : Prop :=
  exists r links,
    robot = VDict r /\ dict_get "links" r = Some (VDict links) /\
    forall name link, dict_get name links = Some link -> good name link.

(** The links while the loop over [robot['links']] runs: all of them have
    their collision dictionary and a name of [names]; those of [done] have
    their bitmask. *)
Definition masked_so_far (names done : list string) (name : string)
    (link : value) : Prop :=
  In name names /\ link_shaped link /\ (In name done -> link_masked link).

(** A property of links that does not look at their names. *)
Definition any_name (good : value -> Prop) : string -> value -> Prop :=
  fun _ => good.

(** An object that [collectMaterials] can handle: a visual has mesh data,
    and the material in its first slot, where it has slots, is one that
    [deriveMaterial] succeeds on. *)
Definition material_ready (h : Helpers) (sc : Scene) (obj : BObject) : Prop :=
  phobostype obj = "visual" ->
  exists m, data obj = MeshData m /\
            match materials m with
            | [] => True
            | Some mat :: _ => is_Ok (deriveMaterial h sc mat) = true
            | None :: _ => False
            end.

(** * A second sample scene

    A motor-driven arm with a lamp, a sensor, an inertial object, levels of
    detail and groups, for the functions that the first scene does not
    exercise. *)

Definition lens : BObject :=
  mkObject "lens" "visual" (Some base) true red_mesh None
    [{| distance := 0%float; lod_data_name := Some "lens_fine" |};
     {| distance := 5%float; lod_data_name := Some "lens_mid" |};
     {| distance := 20%float; lod_data_name := Some "lens_coarse" |}]
    zero3 zero3 zero3.

(** A visual with two levels of detail and one distance only. *)
Definition visor : BObject :=
  mkObject "visor" "visual" (Some base) true red_mesh None
    [{| distance := 0%float; lod_data_name := Some "visor_fine" |};
     {| distance := 4%float; lod_data_name := Some "visor_coarse" |}]
    zero3 zero3 zero3.

Definition spot : Lamp := {|
  use_diffuse := true;
  use_specular := true;
  color := (1%float, 1%float, 0.5%float);
  lamp_type := "SPOT";
  spot_size := Some 0.75%float;
  linear_attenuation := Some 0.25%float;
  quadratic_attenuation := None;
  energy := 2%float
|}.

Definition headlight : BObject :=
  sample_object "headlight" "light" (Some base) (LampData spot) None.

(** A lamp with specular light only. *)
Definition gleam : BObject :=
  sample_object "gleam" "light" (Some base)
    (LampData {| use_diffuse := false; use_specular := true;
                 color := (1%float, 1%float, 1%float); lamp_type := "POINT";
                 spot_size := None; linear_attenuation := None;
                 quadratic_attenuation := None; energy := 1%float |})
    None.

Definition camera : BObject :=
  sample_object "camera" "sensor" (Some arm) NoData None.

Definition inertial_arm : BObject :=
  sample_object "inertial_arm" "inertial" (Some arm) NoData None.

Definition inertial_hand : BObject :=
  sample_object "inertial_hand" "inertial" (Some hand) NoData None.

Definition marker : BObject :=
  sample_object "marker" "frame" (Some base) NoData None.

Definition ball : BObject :=
  mkObject "ball" "approxsphere" (Some arm) true NoData None []
    (2%float, 2%float, 2%float) (1%float, 0%float, 0%float) zero3.

Definition pane : BObject :=
  sample_object "pane" "visual" (Some base) no_mesh None.

Definition wheel : BObject :=
  sample_object "wheel" "link" (Some base) (OtherData "armature") None.

Definition arm_group : Group :=
  {| group_name := "arm_parts"; group_objects := [arm; col1; hand] |}.

Definition workshop : Scene := {|
  object_props :=
    [("base", [("modelname", VStr "robbie")]);
     ("arm", [("joint/maxvelocity", VFloat 2%float);
              ("joint/maxeffort", VFloat 10%float);
              ("motor/type", VStr "PID");
              ("motor/p", VFloat 5%float);
              ("color", VStr "blue")]);
     ("hand", [("motor/type", VStr "DC"); ("joint/type", VStr "hinge")]);
     ("lens", [("try/level", VInt 1); ("visual/shade", VStr "flat");
               ("note", VStr "polish")]);
     ("inertial_arm", [("inertial/inertia",
                        VArray [VInt 1; VFloat 0.5%float; VBool true]);
                       ("inertial/mass", VFloat 3%float)]);
     ("ball", [("tag", VStr "soft"); ("sphere/kind", VArray [VInt 1])]);
     ("wheel", [("motor/type", VStr "DC"); ("motor/maxSpeed", VFloat 3%float);
                ("joint/name", VStr "axle")]);
     ("pane", [("try/level", VInt 1); ("geo/size", VInt 2);
               ("mesh/file", VStr "pane")]);
     ("visor", [("lodmaxdistances", VArray [VFloat 4%float])])];
  material_props := [];
  scene_objects := [base; arm; hand; lens; headlight; camera; inertial_arm;
                    inertial_hand; ball];
  pose_bones := [("base", rest_bone); ("arm", rest_bone); ("hand", rest_bone)];
  texts := [("notes", "remember the oil");
            ("robot_poses_robbie", "stand: {}")];
  groups := [arm_group];
  worlds := [{| useObj := false; useBobj := false; useStl := true;
                useDae := true; decimalPlaces := 3 |}];
  mode := "OBJECT";
  clock := "20141212_11:00"
|}.

(** * Vocabulary of the further properties *)

(** The keys of the properties of a datablock, as [items] gives them. *)
Definition keys_without (pattern : string) (kvs : dict) : Prop :=
  forall k, In k (dict_keys kvs) -> str_contains pattern k = false.

(** The motor properties that make [deriveMotor] give the motor up: no
    property besides the name, no 'type', a 'PID' motor on a joint whose
    limits lack 'lower' or 'upper', or a 'DC' motor without 'maxSpeed'. *)
Definition motor_given_up (props joint : dict) : Prop :=
  (List.length props <= 1)%nat \/
  dict_get "type" props = None \/
  (dict_get "type" props = Some (VStr "PID") /\
   exists limits, dict_get "limits" joint = Some (VDict limits) /\
                  (dict_get "lower" limits = None \/
                   dict_get "upper" limits = None)) \/
  (dict_get "type" props = Some (VStr "DC") /\
   dict_get "maxSpeed" props = None).

(** The phobostypes that [deriveDictEntry] has a branch for. *)
Definition entry_types : list string :=
  ["inertial"; "visual"; "collision"; "approxsphere"; "sensor"; "controller";
   "light"].

Definition is_float (v : value) : Prop := exists f, v = VFloat f.

(** An entry of the list of levels of detail: a dictionary that starts at
    the distance of its level and ends at the element of [maxdlist] with the
    index of the level. *)
Definition lod_entry_of (maxd : list value) (il : nat * LodLevel)
    (entry : value) : Prop :=
  exists e end_,
    entry = VDict e /\
    dict_get "start" e = Some (VFloat (distance (snd il))) /\
    dict_get "end" e = Some end_ /\
    nth_error maxd (fst il) = Some end_.

(** Where the range of the level [i] ends when the object has no property
    'lodmaxdistances': at the distance of the next level, the last one at
    100. *)
Definition lod_end (levels : list LodLevel) (i : nat) : float :=
  match nth_error levels (S i) with
  | Some next => distance next
  | None => 100%float
  end.

(** The visual of the sample object 'lens', as [deriveVisual] gives it. *)
Definition lens_visual : dict :=
  Eval vm_compute in
    match deriveVisual sample_helpers workshop lens with
    | Ok visual => visual
    | Raise _ => []
    end.

(** The objects that [deriveGroupEntry] lists. *)
Definition is_link (obj : BObject) : bool := String.eqb (phobostype obj) "link".

(** The entry of a link in a group. *)
Definition link_skeleton (h : Helpers) (sc : Scene) (obj : BObject)
    (entry : value) : Prop :=
  exists n, getObjectName h sc (EObject obj) None = Ok n /\
            entry = VDict [("type", VStr "link"); ("name", VStr n)].

(** A link without parent and without 'modelname', and a scene that holds
    it beside the robot. *)
Definition stray : BObject :=
  sample_object "stray" "link" None (OtherData "armature") None.

Definition yard : Scene := {|
  object_props := [("base", [("modelname", VStr "robbie")])];
  material_props := [];
  scene_objects := [base; arm; stray];
  pose_bones := [("base", rest_bone); ("arm", rest_bone);
                 ("stray", rest_bone)];
  texts := [];
  groups := [];
  worlds := [];
  mode := "OBJECT";
  clock := "20141212_12:00"
|}.

(** The second scene differs from the first in its pose bones only. *)
Definition only_bones_changed (sc sc' : Scene) : Prop :=
  sc' = with_pose_bones sc (pose_bones sc').

(** The entry of the pose [k] in what [deriveStoredPoses] returns for a
    robot. *)
Definition pose_entry (k : string) (entry : value) : Prop :=
  exists joints, entry = VDict [("name", VStr k); ("joints", joints)].

(** The text blocks that hold the poses of a robot. *)
Definition is_poses_file (file_name : string) : bool :=
  str_startswith file_name "robot_poses_".

(** ** A stored pose to load *)

(** The objects of the scene with one of the phobostypes. *)
Definition sample_by_types (sc : Scene) (types : list string)
    : result (list BObject) :=
  Ok (filter (fun o => existsb (String.eqb (phobostype o)) types)
        (scene_objects sc)).

(** The sample helpers with a YAML codec that knows a pose of the arm. *)
Definition posing_helpers : Helpers := {|
  getObjectName := getObjectName sample_helpers;
  getEffectiveParent := getEffectiveParent sample_helpers;
  getChildren := getChildren sample_helpers;
  getRoots := getRoots sample_helpers;
  deriveObjectPose := deriveObjectPose sample_helpers;
  deriveGeometry := deriveGeometry sample_helpers;
  epsilonToZero := epsilonToZero sample_helpers;
  deriveJointType := deriveJointType sample_helpers;
  getJointConstraints := getJointConstraints sample_helpers;
  yaml_load := fun s =>
    if String.eqb s "stand: {arm: 0.5}"
    then Ok (VDict [("stand", VDict [("arm", VFloat 0.5%float)])])
    else Raise ValueError;
  yaml_dump := yaml_dump sample_helpers;
  float_of_str := float_of_str sample_helpers;
  os_path_join := os_path_join sample_helpers;
  pow10 := pow10 sample_helpers;
  set_rotation_mode := set_rotation_mode sample_helpers
|}.

Definition posed_scene : Scene :=
  with_texts sample_scene [("robot_poses_robbie", "stand: {arm: 0.5}")].

(** The names that [getObjectName] gives depend neither on the mode nor on
    the pose bones. *)
Definition name_stable (h : Helpers) : Prop :=
  forall sc m b e t,
    getObjectName h (with_pose_bones (mode_set sc m) b) e t =
    getObjectName h sc e t.

(** The bone turned to the angle [y] about its second axis. *)
Definition with_angle (bone : Bone) (y : float) : Bone :=
  let '(x, _, z) := rotation_euler bone in
  {| rotation_mode := rotation_mode bone; rotation_euler := (x, y, z) |}.

(** ** Materials with textures *)

Definition wood_slot : TextureSlot := {|
  use_map_color_diffuse := true;
  use_map_normal := false;
  use_map_displacement := false;
  texture := Some {| image := Some {| filepath := "//tex/wood.png" |} |}
|}.


(** A slot whose texture has no image. *)
Definition blank_slot : TextureSlot := {|
  use_map_color_diffuse := true;
  use_map_normal := true;
  use_map_displacement := true;
  texture := Some {| image := None |}
|}.

Definition with_slots (mat : Material) (n : string)
    (slots : list (option TextureSlot)) : Material := {|
  mat_name := n;
  diffuse_intensity := diffuse_intensity mat;
  diffuse_color := diffuse_color mat;
  ambient := ambient mat;
  specular_intensity := specular_intensity mat;
  specular_color := specular_color mat;
  emit := emit mat;
  specular_hardness := specular_hardness mat;
  use_transparency := use_transparency mat;
  alpha := alpha mat;
  texture_slots := slots
|}.


(** A material whose first texture has no image. *)
Definition blank : Material :=
  with_slots red "blank" [Some blank_slot; Some wood_slot].


(** ** The sections of the model dictionary *)

(** An entry of [robot['lights']]: what [deriveLight] returns for a light
    of the object list with that name. *)
Definition light_entry (h : Helpers) (sc : Scene) (objectlist : list BObject)
    (name : string) (entry : value) : Prop :=
  exists obj light,
    In obj objectlist /\ phobostype obj = "light" /\
    getObjectName h sc (EObject obj) None = Ok name /\
    deriveLight h sc obj = Ok light /\ entry = VDict light.

(** An entry of [robot['groups']]: what [deriveGroupEntry] returns for a
    group of the scene with that name, which has objects and is not the
    group of the rigid body world. *)
Definition group_entry (h : Helpers) (sc : Scene) (name : string)
    (entry : value) : Prop :=
  exists group links,
    In group (groups sc) /\ group_objects group <> [] /\
    name <> "RigidBodyWorld" /\
    getObjectName h sc (EGroup group) (Some "group") = Ok name /\
    deriveGroupEntry h sc group = Ok links /\ entry = VList links.

(** A group that [buildModelDictionary] enters into the dictionary. *)
Definition group_listed (h : Helpers) (sc : Scene) (group : Group)
    (name : string) : Prop :=
  group_objects group <> [] /\
  getObjectName h sc (EGroup group) (Some "group") = Ok name /\
  name <> "RigidBodyWorld".

(** An entry of [robot['sensors']] or [robot['controllers']]: what
    [deriveDictEntry] returns for an object of that type with that name. *)
Definition device_entry (h : Helpers) (sc : Scene) (objectlist : list BObject)
    (type_ name : string) (entry : value) : Prop :=
  exists obj,
    In obj objectlist /\ phobostype obj = type_ /\
    getObjectName h sc (EObject obj) None = Ok name /\
    deriveDictEntry h sc obj = Ok entry.

(** An entry of [robot['chains']]: a chain of that name that
    [deriveChainEntry] returns for a link of the object list with the
    property 'endChain'. *)
Definition chain_of (h : Helpers) (sc : Scene) (objectlist : list BObject)
    (name : string) (chain : value) : Prop :=
  py_item chain "name" = Ok (VStr name) /\
  exists obj found,
    In obj objectlist /\ phobostype obj = "link" /\
    dict_has "endChain" (custom_props sc obj) = true /\
    deriveChainEntry h sc obj = Ok found /\ In chain found.

(** The dictionary built for the second sample scene. *)
Definition workshop_robot : value :=
  Eval vm_compute in
    match build_robot sample_helpers workshop base with
    | Ok (robot, _, _) => robot
    | Raise _ => VNone
    end.

(** The chain names that the links of the list give in 'endChain' are
    strings, as the keys of the dictionaries of this model are. *)
Definition chain_names_are_strings (sc : Scene) (objectlist : list BObject)
    : Prop :=
  forall obj chainlist names name,
    In obj objectlist ->
    dict_get "endChain" (custom_props sc obj) = Some chainlist ->
    py_iter chainlist = Ok names ->
    In name names ->
    exists s, name = VStr s.

(** * Properties *)

Local Open Scope list_scope.

(** ** The error monad and dictionaries *)

Lemma bind_Ok {A B : Type} (m : result A) (k : A -> result B) (b : B) :
  bind m k = Ok b -> exists a, m = Ok a /\ k a = Ok b.
Proof.
  destruct m as [a|e]; simpl; intros H; [eauto | discriminate].
Qed.

(** An invariant of the loop state holds after the loop. *)
Lemma for_each_invariant {A S : Type} (P : S -> Prop) (xs : list A)
    (body : S -> A -> result S) :
  (forall s x s', In x xs -> P s -> body s x = Ok s' -> P s') ->
  forall s s', P s -> for_each xs body s = Ok s' -> P s'.
Proof.
  induction xs as [|x xs IH]; simpl; intros Hstep s s' Hs Hrun.
  - injection Hrun as <-; exact Hs.
  - apply bind_Ok in Hrun as (s1 & H1 & H2).
    apply (IH (fun s0 y s0' Hy => Hstep s0 y s0' (or_intror Hy)) s1 s');
      [|exact H2].
    exact (Hstep s x s1 (or_introl eq_refl) Hs H1).
Qed.

Section DictFacts.
Context {V : Type}.
Implicit Types (d : list (string * V)) (k : string) (v : V).

Lemma dict_get_set_eq d k v : dict_get k (dict_set k v d) = Some v.
Proof.
  induction d as [|[k' v'] d IH]; simpl.
  - now rewrite String.eqb_refl.
  - destruct (String.eqb k k') eqn:E; simpl; rewrite ?String.eqb_refl, ?E; auto.
Qed.

Lemma dict_get_set_neq d k k' v :
  k' <> k -> dict_get k' (dict_set k v d) = dict_get k' d.
Proof.
  intros Hne; induction d as [|[k0 v0] d IH]; simpl.
  - apply String.eqb_neq in Hne; now rewrite Hne.
  - destruct (String.eqb k k0) eqn:E; simpl.
    + apply String.eqb_eq in E; subst k0.
      apply String.eqb_neq in Hne; now rewrite Hne.
    + destruct (String.eqb k' k0); auto.
Qed.

Lemma dict_keys_set_In d k v : In k (dict_keys (dict_set k v d)).
Proof.
  unfold dict_keys; induction d as [|[k0 v0] d IH]; simpl; [auto|].
  destruct (String.eqb k k0); simpl; auto.
Qed.

Lemma dict_keys_set_incl d k v k' :
  In k' (dict_keys d) -> In k' (dict_keys (dict_set k v d)).
Proof.
  unfold dict_keys; induction d as [|[k0 v0] d IH]; simpl; [tauto|].
  destruct (String.eqb k k0) eqn:E; simpl.
  - apply String.eqb_eq in E; subst; auto.
  - intros [->|H]; auto.
Qed.

Lemma dict_has_keys d k : dict_has k d = true <-> In k (dict_keys d).
Proof.
  unfold dict_has, dict_keys; induction d as [|[k' v'] d IH]; simpl.
  - split; [discriminate | tauto].
  - destruct (String.eqb k k') eqn:E.
    + apply String.eqb_eq in E; subst; tauto.
    + apply String.eqb_neq in E; rewrite IH; split; [tauto|].
      intros [H|H]; [congruence | exact H].
Qed.
End DictFacts.

Lemma dict_update_Ok (d d' : dict) (k : string) (f : value -> result value) :
  dict_update d k f = Ok d' ->
  exists old new, dict_get k d = Some old /\ f old = Ok new /\
                  d' = dict_set k new d.
Proof.
  unfold dict_update, dict_item. intros H.
  destruct (dict_get k d) as [old|]; simpl in H; [|discriminate].
  destruct (f old) as [new|] eqn:E; simpl in H; [|discriminate].
  injection H as <-. eauto.
Qed.

(** ** buildModelDictionary: the root check and the return statement *)

(** C9: a root object whose phobostype is not 'link' makes
    buildModelDictionary raise the exception "Found no 'link' object as
    root of the robot model."; no dictionary is returned. *)
Theorem buildModelDictionary_rejects_root (h : Helpers) (sc : Scene)
    (root : BObject) :
  phobostype root <> "link" ->
  buildModelDictionary h sc root =
  Raise (Exception "Found no 'link' object as root of the robot model.").
Proof.
  intros Hne. apply String.eqb_neq in Hne.
  unfold buildModelDictionary, build_robot; simpl.
  now rewrite Hne.
Qed.

(** The collision object 'col1' of the sample scene as root. *)
Lemma buildModelDictionary_rejects_root_witness :
  phobostype col1 <> "link" /\
  buildModelDictionary sample_helpers sample_scene col1 =
  Raise (Exception "Found no 'link' object as root of the robot model.").
Proof.
  split.
  - discriminate.
  - apply (buildModelDictionary_rejects_root sample_helpers sample_scene col1).
    discriminate.
Defined.

(** C1: buildModelDictionary does not return the dictionary: whatever the
    scene and the root, the call ends in an exception, since the name
    [gUtils] of its return statement is not bound in the module. *)
Theorem buildModelDictionary_never_returns (h : Helpers) (sc : Scene)
    (root : BObject) :
  is_Ok (buildModelDictionary h sc root) = false.
Proof.
  unfold buildModelDictionary.
  destruct (build_robot h sc root) as [[[robot objectlist] sc']|e]; simpl;
    [|reflexivity].
  destruct (seq_index (worlds sc') 0); simpl; [|reflexivity].
  reflexivity.
Qed.

(** On the sample scene the dictionary is built up to the return statement,
    which raises [NameError]. *)
Example buildModelDictionary_sample :
  is_Ok (build_robot sample_helpers sample_scene base) = true /\
  buildModelDictionary sample_helpers sample_scene base =
  Raise (NameError "gUtils").
Proof. split; vm_compute; reflexivity. Qed.

(** ** deriveCollision: the bitmask of the collision groups *)

Lemma pack_bits_testbit (flags : list bool) (i : nat) :
  Z.testbit (pack_bits flags) (Z.of_nat i) = nth i flags false.
Proof.
  revert i; induction flags as [|b bs IH]; intros i; cbn [pack_bits].
  - rewrite Z.testbit_0_l; now destruct i.
  - destruct i as [|i].
    + apply Z.testbit_0_r.
    + rewrite Nat2Z.inj_succ, Z.testbit_succ_r by lia. simpl; apply IH.
Qed.

Lemma nth_firstn_false (n i : nat) (flags : list bool) :
  nth i (firstn n flags) false = (i <? n)%nat && nth i flags false.
Proof.
  revert i flags; induction n as [|n IH]; intros i flags.
  - now destruct i.
  - destruct flags as [|b bs]; simpl firstn.
    + destruct i; simpl; now rewrite ?andb_false_r.
    + destruct i as [|i]; [reflexivity|]. simpl nth. rewrite IH. reflexivity.
Qed.

Lemma int_base2_from_app (s t : string) (acc : Z) :
  int_base2_from acc (s ++ t)%string =
  (a <- int_base2_from acc s ;; int_base2_from a t).
Proof.
  revert acc; induction s as [|c s IH]; intros acc; simpl; [reflexivity|].
  destruct (bin_digit c); simpl; auto.
Qed.

Lemma int_base2_from_flags (flags : list bool) :
  int_base2_from 0 (str_rev (str_join (map flag_digit flags))) =
  Ok (pack_bits flags).
Proof.
  induction flags as [|b bs IH]; [reflexivity|].
  assert (E : str_rev (str_join (map flag_digit (b :: bs))) =
              (str_rev (str_join (map flag_digit bs)) ++ flag_digit b)%string)
    by (now destruct b).
  rewrite E, int_base2_from_app, IH. now destruct b.
Qed.

Lemma str_rev_empty (s : string) : str_rev s = "" -> s = "".
Proof.
  destruct s as [|c s]; [reflexivity|]. simpl.
  destruct (str_rev s); discriminate.
Qed.

(** [int(s, 2)] of the string built from a non-empty list of groups. *)
Lemma int_base2_bitmask_string (groups : list bool) :
  groups <> [] ->
  int_base2 (bitmask_string groups) = Ok (pack_bits (firstn 16 groups)).
Proof.
  intros Hne. unfold bitmask_string, int_base2.
  change (fun group : bool => if group then "1" else "0") with flag_digit.
  destruct (str_rev (str_join (map flag_digit (firstn 16 groups)))) eqn:E.
  - apply str_rev_empty in E.
    destruct groups as [|b bs]; [contradiction|]. now destruct b.
  - rewrite <- E. apply int_base2_from_flags.
Qed.

Lemma bitmask_bits (groups : list bool) (i : Z) :
  0 <= i ->
  Z.testbit (pack_bits (firstn 16 groups)) i =
  (i <? 16) && nth (Z.to_nat i) groups false.
Proof.
  intros Hi. rewrite <- (Z2Nat.id i Hi) at 1.
  rewrite pack_bits_testbit, nth_firstn_false. f_equal.
  destruct (Z.ltb_spec i 16), (Nat.ltb_spec (Z.to_nat i) 16); auto; lia.
Qed.

(** [set_category] only touches the key of the category. *)
Lemma set_category_other (props props' : dict) (category specifier : string)
    (v : value) (k : string) :
  set_category props category specifier v = Ok props' ->
  k <> ("$" ++ category)%string ->
  dict_get k props' = dict_get k props.
Proof.
  unfold set_category. intros H Hk.
  apply dict_update_Ok in H as (old & new & _ & _ & ->).
  rewrite dict_get_set_neq by exact Hk.
  destruct (negb _); [now rewrite dict_get_set_neq | reflexivity].
Qed.

(** Without a custom property whose key contains ['collision/'], the
    properties collected for a collision object have no ['bitmask']. *)
Lemma initObjectProperties_no_bitmask (h : Helpers) (sc : Scene)
    (obj : BObject) (ig : ignore_spec) (props : dict) :
  (forall k, In k (dict_keys (custom_props sc obj)) ->
             str_contains "collision/" k = false) ->
  initObjectProperties h sc (EObject obj) (Some "collision") ig = Ok props ->
  dict_get "bitmask" props = None.
Proof.
  intros Hkeys H. unfold initObjectProperties in H.
  apply bind_Ok in H as (name & _ & H). simpl in H.
  apply (for_each_invariant (fun s => dict_get "bitmask" s = None)) in H;
    [exact H| |reflexivity].
  intros s [k v] s' Hin Hs Hstep.
  assert (Hk : str_contains "collision/" k = false).
  { apply Hkeys. unfold dict_keys. change k with (fst (k, v)). now apply in_map. }
  unfold init_step in Hstep. change ("collision" ++ "/")%string with "collision/" in Hstep.
  rewrite Hk in Hstep.
  destruct (str_contains "/" k); [|now injection Hstep as <-].
  destruct (Nat.eqb (str_count "/" k) 1); [|now injection Hstep as <-].
  destruct (str_split "/" k) as [|category [|specifier [|? ?]]];
    try (now injection Hstep as <-).
  destruct (negb (ignored category ig)); [|now injection Hstep as <-].
  rewrite (set_category_other _ _ _ _ _ "bitmask" Hstep); [exact Hs|].
  discriminate.
Qed.

(** C2, amended: for a collision object with rigid-body settings (and a
    non-empty array of collision groups, as the host's array of twenty
    always is) deriveCollision sets 'bitmask' to the integer whose bit i,
    for 0 <= i < 16, is 1 exactly when collision group i is enabled, the
    groups beyond the first 16 being ignored.  For an object without
    rigid-body settings deriveCollision adds no 'bitmask' of its own: the
    result has the key exactly when the object's custom properties supply
    one, and so has none when no property key contains 'collision/'. *)
Theorem deriveCollision_bitmask (h : Helpers) (sc : Scene) (obj : BObject)
    (props : dict) (geometry pose : value) :
  initObjectProperties h sc (EObject obj) (Some "collision")
    (IgnoreStr "geometry") = Ok props ->
  deriveGeometry h sc obj = Ok geometry ->
  deriveObjectPose h sc obj = Ok pose ->
  (forall body, rigid_body obj = Some body -> collision_groups body <> [] ->
     exists collision bitmask,
       deriveCollision h sc obj = Ok collision /\
       dict_get "bitmask" collision = Some (VInt bitmask) /\
       forall i, 0 <= i ->
         Z.testbit bitmask i =
         (i <? 16) && nth (Z.to_nat i) (collision_groups body) false) /\
  (rigid_body obj = None ->
     exists collision,
       deriveCollision h sc obj = Ok collision /\
       dict_get "bitmask" collision = dict_get "bitmask" props /\
       ((forall k, In k (dict_keys (custom_props sc obj)) ->
                   str_contains "collision/" k = false) ->
        dict_get "bitmask" collision = None)).
Proof.
  intros Hprops Hgeo Hpose. unfold deriveCollision.
  rewrite Hprops, Hgeo, Hpose; simpl. split.
  - intros body -> Hne; simpl.
    rewrite (int_base2_bitmask_string _ Hne); simpl.
    eexists _, _. split; [reflexivity|]. split.
    + apply dict_get_set_eq.
    + intros i Hi. now apply bitmask_bits.
  - intros ->; simpl. eexists. split; [reflexivity|].
    assert (E : dict_get "bitmask"
                  (dict_set "pose" pose (dict_set "geometry" geometry props)) =
                dict_get "bitmask" props)
      by (rewrite !dict_get_set_neq by discriminate; reflexivity).
    split; [exact E|].
    intros Hkeys. rewrite E.
    now apply (initObjectProperties_no_bitmask h sc obj (IgnoreStr "geometry")).
Qed.

(** The sample object 'col1', with the groups 0 and 2 enabled. *)
Lemma deriveCollision_bitmask_witness :
  initObjectProperties sample_helpers sample_scene (EObject col1)
    (Some "collision") (IgnoreStr "geometry") = Ok [("name", VStr "col1")] /\
  deriveGeometry sample_helpers sample_scene col1 = Ok (VDict []) /\
  deriveObjectPose sample_helpers sample_scene col1 = Ok (VDict []) /\
  exists collision bitmask,
    deriveCollision sample_helpers sample_scene col1 = Ok collision /\
    dict_get "bitmask" collision = Some (VInt bitmask) /\
    Z.testbit bitmask 2 = true.
Proof.
  split; [reflexivity|]. split; [reflexivity|]. split; [reflexivity|].
  destruct (deriveCollision_bitmask sample_helpers sample_scene col1
              [("name", VStr "col1")] (VDict []) (VDict [])
              eq_refl eq_refl eq_refl) as [Hbody _].
  destruct (Hbody {| collision_groups :=
                       [true; false; true] ++ repeat false (20 - 3) |}
              eq_refl ltac:(discriminate))
    as (collision & bitmask & Hc & Hb & Hbits).
  exists collision, bitmask. split; [exact Hc|]. split; [exact Hb|].
  rewrite Hbits by lia. reflexivity.
Defined.

(** C2 as stated fails on an object without rigid-body settings that
    carries the custom property 'collision/bitmask': the property is copied
    into the result under the key 'bitmask'. *)
Lemma deriveCollision_bitmask_from_property :
  rigid_body col3 = None /\
  deriveCollision sample_helpers sample_scene col3 =
  Ok [("name", VStr "col3"); ("bitmask", VInt 5); ("geometry", VDict []);
      ("pose", VDict [])].
Proof. split; reflexivity. Qed.

(** ** collectMaterials: the users of a material *)

Lemma users_of_snoc (name : string) (seen : list BObject) (obj : BObject) :
  users_of name (seen ++ [obj]) =
  users_of name seen + (if counts_for name obj then 1 else 0).
Proof.
  unfold users_of. rewrite filter_app, length_app; simpl.
  destruct (counts_for name obj); simpl; lia.
Qed.

(** One turn of the loop keeps the count of every material right. *)
Lemma collect_step_counts (h : Helpers) (sc : Scene) (seen : list BObject)
    (collected collected' : dict) (obj : BObject) :
  (forall name, users_counted collected seen name) ->
  collect_step h sc collected obj = Ok collected' ->
  forall name, users_counted collected' (seen ++ [obj]) name.
Proof.
  intros Hinv Hstep name. specialize (Hinv name) as Hname.
  unfold users_counted in *. rewrite users_of_snoc.
  unfold collect_step in Hstep. unfold counts_for, counted_material.
  destruct (String.eqb (phobostype obj) "visual");
    [|injection Hstep as <-; now rewrite Z.add_0_r].
  unfold data_materials in Hstep.
  destruct (data obj) as [|m| |]; simpl in Hstep; try discriminate.
  destruct (materials m) as [|[mat|] rest]; simpl in Hstep; try discriminate.
  { injection Hstep as <-; now rewrite Z.add_0_r. }
  destruct (dict_has (mat_name mat) collected) eqn:Hhas; simpl in Hstep.
  - (* a material met before *)
    apply dict_update_Ok in Hstep as (old & new & Hold & Hnew & ->).
    destruct (String.eqb (mat_name mat) name) eqn:E.
    + apply String.eqb_eq in E; subst name.
      rewrite dict_get_set_eq. rewrite Hold in Hname.
      destruct Hname as (e & -> & Husers & Hpos).
      unfold py_item in Hnew; simpl in Hnew. unfold dict_item in Hnew.
      rewrite Husers in Hnew; simpl in Hnew. injection Hnew as <-.
      eexists; split; [reflexivity|]. rewrite dict_get_set_eq.
      split; [reflexivity | lia].
    + apply String.eqb_neq in E.
      rewrite dict_get_set_neq by congruence. now rewrite Z.add_0_r.
  - (* a new material *)
    apply bind_Ok in Hstep as (derived & _ & Hstep).
    apply dict_update_Ok in Hstep as (old & new & Hold & Hnew & ->).
    rewrite dict_get_set_eq in Hold. injection Hold as <-.
    simpl in Hnew. injection Hnew as <-.
    destruct (String.eqb (mat_name mat) name) eqn:E.
    + apply String.eqb_eq in E; subst name.
      rewrite dict_get_set_eq.
      unfold dict_has in Hhas.
      destruct (dict_get (mat_name mat) collected); [discriminate|].
      rewrite Hname.
      eexists; split; [reflexivity|]. rewrite dict_get_set_eq.
      split; [reflexivity | lia].
    + apply String.eqb_neq in E.
      rewrite !dict_get_set_neq by congruence. now rewrite Z.add_0_r.
Qed.

Lemma collect_loop_counts (h : Helpers) (sc : Scene) (objs seen : list BObject)
    (collected collected' : dict) :
  (forall name, users_counted collected seen name) ->
  for_each objs (collect_step h sc) collected = Ok collected' ->
  forall name, users_counted collected' (seen ++ objs) name.
Proof.
  revert seen collected; induction objs as [|obj objs IH];
    intros seen collected Hinv Hrun; simpl in Hrun.
  - injection Hrun as <-. now rewrite app_nil_r.
  - apply bind_Ok in Hrun as (m1 & Hstep & Hrun).
    change (obj :: objs) with ([obj] ++ objs)%list. rewrite app_assoc.
    eapply IH; [|exact Hrun].
    eapply collect_step_counts; eauto.
Qed.

(** C10: collectMaterials returns a dictionary keyed by material name in
    which the 'users' of an entry is the number of objects of the list that
    are visuals and hold a material of that name in their first material
    slot; a name that no such object uses has no entry.  Objects that are
    not visuals or have no materials are not counted, and of a visual only
    the first material is. *)
Theorem collectMaterials_users (h : Helpers) (sc : Scene)
    (objectlist : list BObject) (collected : dict) :
  collectMaterials h sc objectlist = Ok collected ->
  forall name,
    match dict_get name collected with
    | Some entry =>
        exists e, entry = VDict e /\
                  dict_get "users" e = Some (VInt (users_of name objectlist)) /\
                  0 < users_of name objectlist
    | None => users_of name objectlist = 0
    end.
Proof.
  intros Hrun name.
  apply (collect_loop_counts h sc objectlist [] [] collected); [|exact Hrun].
  intros n; reflexivity.
Qed.

(** The material 'red' of the sample scene has two users. *)
Lemma collectMaterials_users_witness :
  collectMaterials sample_helpers sample_scene (scene_objects sample_scene) =
  Ok sample_materials /\
  exists e, dict_get "red" sample_materials = Some (VDict e) /\
            dict_get "users" e = Some (VInt 2).
Proof.
  assert (H : collectMaterials sample_helpers sample_scene
                (scene_objects sample_scene) = Ok sample_materials)
    by (vm_compute; reflexivity).
  split; [exact H|].
  pose proof (collectMaterials_users sample_helpers sample_scene
                (scene_objects sample_scene) sample_materials H "red") as Hred.
  destruct (dict_get "red" sample_materials) as [entry|];
    [|discriminate Hred].
  destruct Hred as (e & -> & Hu & _).
  exists e. split; [reflexivity | exact Hu].
Defined.

(** One turn of the loop succeeds on an object that is ready, once the
    counts so far are right. *)
Lemma collect_step_returns (h : Helpers) (sc : Scene) (seen : list BObject)
    (collected : dict) (obj : BObject) :
  (forall name, users_counted collected seen name) ->
  material_ready h sc obj ->
  exists collected', collect_step h sc collected obj = Ok collected'.
Proof.
  intros Hinv Hready. unfold collect_step.
  destruct (String.eqb_spec (phobostype obj) "visual") as [Hv|_]; [|eauto].
  destruct (Hready Hv) as (m & Hdata & Hslot).
  unfold data_materials. rewrite Hdata; simpl.
  destruct (materials m) as [|[mat|] rest]; [eauto| |contradiction]. simpl.
  destruct (dict_has (mat_name mat) collected) eqn:Hhas; simpl.
  - specialize (Hinv (mat_name mat)). unfold users_counted in Hinv.
    unfold dict_has in Hhas. unfold dict_update, dict_item.
    destruct (dict_get (mat_name mat) collected) as [entry|]; [|discriminate].
    destruct Hinv as (e & -> & Husers & _). simpl.
    unfold py_item; simpl. unfold dict_item. rewrite Husers; simpl. eauto.
  - destruct (deriveMaterial h sc mat) as [derived|]; [|discriminate]. simpl.
    unfold dict_update, dict_item. rewrite dict_get_set_eq; simpl. eauto.
Qed.

(** collectMaterials returns a dictionary for a list of objects that are
    ready. *)
Lemma collectMaterials_returns (h : Helpers) (sc : Scene)
    (objectlist : list BObject) :
  (forall obj, In obj objectlist -> material_ready h sc obj) ->
  exists collected, collectMaterials h sc objectlist = Ok collected.
Proof.
  unfold collectMaterials.
  assert (Hgen : forall objs seen collected,
            (forall name, users_counted collected seen name) ->
            (forall obj, In obj objs -> material_ready h sc obj) ->
            exists collected',
              for_each objs (collect_step h sc) collected = Ok collected').
  { induction objs as [|obj objs IH]; intros seen collected Hinv Hready.
    - simpl; eauto.
    - destruct (collect_step_returns h sc seen collected obj Hinv
                  (Hready obj (or_introl eq_refl))) as (c1 & Hstep).
      simpl. rewrite Hstep; simpl.
      apply (IH (seen ++ [obj])).
      + eapply collect_step_counts; eauto.
      + intros o Ho; apply Hready; now right. }
  intros Hready. apply (Hgen objectlist [] []); [|exact Hready].
  intros name; reflexivity.
Qed.

(** ** deriveChainEntry: closing a chain along the parent links *)

Lemma ancestors_cons (obj p : BObject) (rest : list BObject) :
  ancestors obj = p :: rest -> parent obj = Some p /\ ancestors p = rest.
Proof.
  destruct obj as [n t [q|] s d rb lod dim tr eu]; simpl; [|discriminate].
  intros [= -> <-]; auto.
Qed.

Lemma ancestors_nil (obj : BObject) : ancestors obj = [] -> parent obj = None.
Proof.
  destruct obj as [n t [q|] s d rb lod dim tr eu]; simpl;
    [discriminate | reflexivity].
Qed.

(** One turn of the [while] loop. *)
Lemma close_chain_step (h : Helpers) (sc : Scene) (chainName : value)
    (par : BObject) (chain : dict) :
  close_chain h sc chainName par chain =
  match parent par with
  | None => Ok None
  | Some p =>
      chain <- append_element chain (VStr (obj_name par)) ;;
      closes <- starts_chain sc chainName p ;;
      if closes then
        start <- getObjectName h sc (EObject p) None ;;
        let chain := dict_set "start" (VStr start) chain in
        last <- getObjectName h sc (EObject p) None ;;
        chain <- append_element chain (VStr last) ;;
        Ok (Some chain)
      else close_chain h sc chainName p chain
  end.
Proof. destruct par; reflexivity. Qed.

Lemma append_element_open (name start end_ : value) (elements : list value)
    (v : value) :
  append_element (open_chain name start end_ elements) v =
  Ok (open_chain name start end_ (elements ++ [v])).
Proof. reflexivity. Qed.

(** The walk closes the chain at the first ancestor that starts it. *)
Lemma close_chain_closes (h : Helpers) (sc : Scene) (chainName : value)
    (pre : list BObject) :
  forall (par anc : BObject) (post : list BObject) (start : string)
         (s0 e0 : value) (elements : list value),
    ancestors par = pre ++ anc :: post ->
    (forall p, In p pre -> starts_chain sc chainName p = Ok false) ->
    starts_chain sc chainName anc = Ok true ->
    getObjectName h sc (EObject anc) None = Ok start ->
    close_chain h sc chainName par (open_chain chainName s0 e0 elements) =
    Ok (Some (open_chain chainName (VStr start) e0
                (elements ++ map (fun o => VStr (obj_name o)) (par :: pre)
                 ++ [VStr start]))).
Proof.
  induction pre as [|p pre IH];
    intros par anc post start s0 e0 elements Hanc Hpre Hstart Hname;
    rewrite close_chain_step; simpl in Hanc;
    apply ancestors_cons in Hanc as [-> Hrest];
    rewrite append_element_open; simpl bind.
  - rewrite Hstart; simpl. rewrite Hname; simpl.
    unfold open_chain; simpl. now rewrite <- app_assoc.
  - rewrite (Hpre p (or_introl eq_refl)); simpl.
    rewrite (IH p anc post start s0 e0 _ Hrest
               (fun q Hq => Hpre q (or_intror Hq)) Hstart Hname).
    simpl. now rewrite <- app_assoc.
Qed.

(** The walk gives the chain up when no ancestor starts it. *)
Lemma close_chain_unclosed (h : Helpers) (sc : Scene) (chainName : value)
    (ancs : list BObject) :
  forall (par : BObject) (s0 e0 : value) (elements : list value),
    ancestors par = ancs ->
    (forall p, In p ancs -> starts_chain sc chainName p = Ok false) ->
    close_chain h sc chainName par (open_chain chainName s0 e0 elements) =
    Ok None.
Proof.
  induction ancs as [|p ancs IH]; intros par s0 e0 elements Hanc Hnone;
    rewrite close_chain_step.
  - now rewrite (ancestors_nil _ Hanc).
  - apply ancestors_cons in Hanc as [-> Hrest].
    rewrite append_element_open; simpl bind.
    rewrite (Hnone p (or_introl eq_refl)); simpl.
    apply IH; [exact Hrest|]. intros q Hq; apply Hnone; now right.
Qed.

(** A chain that the walk closes keeps its name. *)
Lemma close_chain_name (h : Helpers) (sc : Scene) (chainName : value)
    (ancs : list BObject) :
  forall (par : BObject) (s0 e0 : value) (elements : list value) (chain : dict),
    ancestors par = ancs ->
    close_chain h sc chainName par (open_chain chainName s0 e0 elements) =
    Ok (Some chain) ->
    dict_get "name" chain = Some chainName /\
    exists p, In p ancs /\ starts_chain sc chainName p = Ok true.
Proof.
  induction ancs as [|p ancs IH]; intros par s0 e0 elements chain Hanc Hrun;
    rewrite close_chain_step in Hrun.
  - rewrite (ancestors_nil _ Hanc) in Hrun; discriminate.
  - apply ancestors_cons in Hanc as [Hpar Hrest]. rewrite Hpar in Hrun.
    rewrite append_element_open in Hrun; simpl bind in Hrun.
    apply bind_Ok in Hrun as ([|] & Hcloses & Hrun).
    + apply bind_Ok in Hrun as (start & _ & Hrun). simpl in Hrun.
      apply bind_Ok in Hrun as (last & _ & Hrun). simpl in Hrun.
      injection Hrun as <-. split; [reflexivity|].
      exists p; split; [now left | exact Hcloses].
    + apply IH in Hrun as [Hn (q & Hq & Hs)]; [|exact Hrest].
      split; [exact Hn|]. exists q; split; [now right | exact Hs].
Qed.

(** The loop over the chain names only adds chains. *)
Lemma chain_step_incl (h : Helpers) (sc : Scene) (obj : BObject)
    (acc acc' : list value) (chainName : value) :
  chain_step h sc obj acc chainName = Ok acc' -> incl acc acc'.
Proof.
  unfold chain_step. intros H.
  apply bind_Ok in H as (end_ & _ & H).
  apply bind_Ok in H as ([chain|] & _ & H); injection H as <-.
  - apply incl_appl, incl_refl.
  - apply incl_refl.
Qed.

Lemma chain_loop_incl (h : Helpers) (sc : Scene) (obj : BObject)
    (names : list value) :
  forall acc chains,
    for_each names (chain_step h sc obj) acc = Ok chains -> incl acc chains.
Proof.
  induction names as [|n names IH]; intros acc chains H; simpl in H.
  - injection H as <-; apply incl_refl.
  - apply bind_Ok in H as (acc1 & H1 & H2).
    eapply incl_tran; [eapply chain_step_incl; exact H1 | eapply IH; exact H2].
Qed.

Lemma chain_loop_In (h : Helpers) (sc : Scene) (obj : BObject)
    (chainName chain : value) (names : list value) :
  (forall acc, chain_step h sc obj acc chainName = Ok (acc ++ [chain])) ->
  In chainName names ->
  forall acc chains,
    for_each names (chain_step h sc obj) acc = Ok chains -> In chain chains.
Proof.
  intros Hstep. induction names as [|n names IH]; intros Hin acc chains H;
    [contradiction|]. simpl in H.
  apply bind_Ok in H as (acc1 & H1 & H2).
  destruct Hin as [->|Hin].
  - rewrite Hstep in H1. injection H1 as <-.
    apply (chain_loop_incl _ _ _ _ _ _ H2), in_or_app. right; now left.
  - eapply IH; eauto.
Qed.

(** C4: for an object whose 'endChain' list holds a chain name, and whose
    first ancestor with that name in its 'startChain' is [anc],
    deriveChainEntry produces a chain of that name whose 'end' is the
    object's name, whose 'elements' are the names met while walking up the
    parent links from the object to [anc], in that order, and whose 'start'
    is the name of [anc], which is also the last of the elements. *)
Theorem deriveChainEntry_closed_chain (h : Helpers) (sc : Scene)
    (obj anc : BObject) (pre post : list BObject) (names chains : list value)
    (chainName : value) (start end_ : string) :
  dict_get "endChain" (custom_props sc obj) = Some (VList names) ->
  In chainName names ->
  ancestors obj = pre ++ anc :: post ->
  (forall p, In p pre -> starts_chain sc chainName p = Ok false) ->
  starts_chain sc chainName anc = Ok true ->
  getObjectName h sc (EObject obj) None = Ok end_ ->
  getObjectName h sc (EObject anc) None = Ok start ->
  deriveChainEntry h sc obj = Ok chains ->
  In (chain_dict chainName start end_ (map obj_name (obj :: pre) ++ [start]))
     chains.
Proof.
  intros Hend Hin Hanc Hpre Hstart Hobj Hname Hrun.
  unfold deriveChainEntry in Hrun. rewrite Hend in Hrun; simpl in Hrun.
  apply (chain_loop_In h sc obj chainName _ names) with (acc := []);
    [|exact Hin|exact Hrun].
  intros acc. unfold chain_step. rewrite Hobj; simpl bind.
  change [("name", chainName); ("start", VStr ""); ("end", VStr end_);
          ("elements", VList [])]
    with (open_chain chainName (VStr "") (VStr end_) []).
  rewrite (close_chain_closes h sc chainName pre obj anc post start
             _ _ _ Hanc Hpre Hstart Hname).
  simpl bind. unfold chain_dict, open_chain.
  rewrite map_app, map_map. reflexivity.
Qed.

(** The chain 'reach' of the sample scene, from 'hand' up to 'base'. *)
Lemma deriveChainEntry_closed_chain_witness :
  deriveChainEntry sample_helpers sample_scene hand =
  Ok [chain_dict (VStr "reach") "base" "hand" ["hand"; "arm"; "base"]] /\
  In (chain_dict (VStr "reach") "base" "hand" ["hand"; "arm"; "base"])
     [chain_dict (VStr "reach") "base" "hand" ["hand"; "arm"; "base"]].
Proof.
  split; [reflexivity|].
  apply (deriveChainEntry_closed_chain sample_helpers sample_scene hand base
           [arm] [] [VStr "reach"; VStr "grasp"] _ (VStr "reach")
           "base" "hand").
  - reflexivity.
  - now left.
  - reflexivity.
  - intros p [<-|[]]. reflexivity.
  - reflexivity.
  - reflexivity.
  - reflexivity.
  - reflexivity.
Defined.

(** C5: when no ancestor of the object has the chain name in its
    'startChain', so that the walk up the parent links ends at an object
    without parent, the list that deriveChainEntry returns holds no chain of
    that name, complete or partial. *)
Theorem deriveChainEntry_unclosed_chain (h : Helpers) (sc : Scene)
    (obj : BObject) (names chains : list value) (chainName : value) :
  dict_get "endChain" (custom_props sc obj) = Some (VList names) ->
  In chainName names ->
  (forall p, In p (ancestors obj) -> starts_chain sc chainName p = Ok false) ->
  deriveChainEntry h sc obj = Ok chains ->
  forall chain, In chain chains -> py_item chain "name" <> Ok chainName.
Proof.
  intros Hend _ Hnone Hrun chain Hin Hname.
  unfold deriveChainEntry in Hrun. rewrite Hend in Hrun; simpl in Hrun.
  assert (Hinv : forall c, In c chains ->
            exists d cn, c = VDict d /\ dict_get "name" d = Some cn /\
              exists p, In p (ancestors obj) /\
                        starts_chain sc cn p = Ok true).
  { revert Hrun.
    apply (for_each_invariant
             (fun acc => forall c, In c acc ->
                exists d cn, c = VDict d /\ dict_get "name" d = Some cn /\
                  exists p, In p (ancestors obj) /\
                            starts_chain sc cn p = Ok true));
      [|intros c []].
    intros acc cn acc' _ Hacc Hstep c Hc. unfold chain_step in Hstep.
    apply bind_Ok in Hstep as (end_ & _ & Hstep).
    apply bind_Ok in Hstep as ([closed|] & Hclose & Hstep);
      injection Hstep as <-; [|now apply Hacc].
    apply in_app_or in Hc as [Hc|[<-|[]]]; [now apply Hacc|].
    apply (close_chain_name h sc cn (ancestors obj) obj (VStr "") (VStr end_)
             [] closed eq_refl) in Hclose as [Hn Hp].
    eauto. }
  destruct (Hinv chain Hin) as (d & cn & -> & Hd & p & Hp & Hs).
  unfold py_item in Hname; simpl in Hname. unfold dict_item in Hname.
  rewrite Hd in Hname. injection Hname as ->.
  rewrite (Hnone p Hp) in Hs. discriminate.
Qed.

(** The chain 'grasp' of the sample scene, which no ancestor starts. *)
Lemma deriveChainEntry_unclosed_chain_witness :
  deriveChainEntry sample_helpers sample_scene hand =
  Ok [chain_dict (VStr "reach") "base" "hand" ["hand"; "arm"; "base"]] /\
  forall chain,
    In chain [chain_dict (VStr "reach") "base" "hand" ["hand"; "arm"; "base"]] ->
    py_item chain "name" <> Ok (VStr "grasp").
Proof.
  split; [reflexivity|].
  apply (deriveChainEntry_unclosed_chain sample_helpers sample_scene hand
           [VStr "reach"; VStr "grasp"] _ (VStr "grasp")).
  - reflexivity.
  - right; now left.
  - intros p [<-|[<-|[]]]; reflexivity.
  - reflexivity.
Defined.

(** ** Stored poses *)

Lemma readTextFile_update (sc : Scene) (file_name content : string) :
  readTextFile (updateTextFile sc file_name content) file_name = content.
Proof.
  unfold readTextFile, updateTextFile; simpl. now rewrite dict_get_set_eq.
Qed.

Lemma load_poses_get_poses (h : Helpers) (sc : Scene) (robot_name : string)
    (d : dict) :
  load_poses h sc (poses_file robot_name) = Ok (VDict d) ->
  get_poses h sc robot_name = Ok (dict_keys d).
Proof.
  unfold load_poses, get_poses, poses_file.
  destruct (String.eqb _ ""); [now intros [= <-]|].
  now intros ->.
Qed.

(** What the codec's reloading says about two dictionaries. *)
Lemma same_value_dict (d d' : dict) :
  same_value (VDict d) (VDict d') ->
  (forall k v, dict_get k d = Some v ->
     exists v', dict_get k d' = Some v' /\ same_value v v') /\
  (forall k, dict_get k d = None -> dict_get k d' = None).
Proof.
  intros H. inversion H; subst.
  - split; [|auto]. intros k v Hk. exists v. split; [exact Hk | constructor].
  - split; assumption.
Qed.

(** C7: after storePose(r, p) the names that get_poses(r) returns are p and
    the names stored for r before; the poses stored under the other names
    are the same as before, and the pose stored under p is the one that this
    call has collected, whatever was stored under p before.  The YAML codec
    is taken to reload what it stores; the order of the keys is its own. *)
Theorem storePose_get_poses (h : Helpers) (sc sc' : Scene)
    (robot_name pose_name : string) :
  yaml_roundtrip h ->
  storePose h sc robot_name pose_name = Ok sc' ->
  exists (old new_pose stored : dict) (roots : list BObject) (posed : Scene),
    load_poses h sc (poses_file robot_name) = Ok (VDict old) /\
    get_poses h sc robot_name = Ok (dict_keys old) /\
    getRoots h (mode_set sc "POSE") = Ok roots /\
    for_each roots (store_root h robot_name) ([], mode_set sc "POSE") =
      Ok (new_pose, posed) /\
    load_poses h sc' (poses_file robot_name) = Ok (VDict stored) /\
    get_poses h sc' robot_name = Ok (dict_keys stored) /\
    In pose_name (dict_keys stored) /\
    (forall q, In q (dict_keys old) -> In q (dict_keys stored)) /\
    (forall q, In q (dict_keys stored) ->
       q = pose_name \/ In q (dict_keys old)) /\
    (exists pose,
       dict_get pose_name stored = Some pose /\
       same_value (VDict new_pose) pose) /\
    (forall q pose, q <> pose_name -> dict_get q old = Some pose ->
       exists pose',
         dict_get q stored = Some pose' /\ same_value pose pose').
Proof.
  intros Hyaml Hrun. unfold storePose in Hrun.
  fold (poses_file robot_name) in Hrun.
  apply bind_Ok in Hrun as (poses & Hload & Hrun).
  apply bind_Ok in Hrun as (roots & Hroots & Hrun).
  apply bind_Ok in Hrun as ([new_pose posed] & Hloop & Hrun).
  apply bind_Ok in Hrun as (poses' & Hset & Hrun).
  apply bind_Ok in Hrun as (text & Hdump & Hrun).
  injection Hrun as <-.
  destruct poses as [| | | | | | | |old]; try discriminate.
  simpl in Hset. injection Hset as <-.
  destruct (Hyaml _ _ Hdump) as (Hne & stored & Hreload & Hsame).
  apply same_value_dict in Hsame as [Hkept Hnone].
  assert (Hload' : load_poses h
            (updateTextFile (mode_set posed (mode sc)) (poses_file robot_name)
               text) (poses_file robot_name) = Ok (VDict stored)).
  { unfold load_poses. rewrite readTextFile_update.
    apply String.eqb_neq in Hne. now rewrite Hne. }
  assert (Hkeys : forall q,
            In q (dict_keys (dict_set pose_name (VDict new_pose) old)) ->
            In q (dict_keys stored)).
  { intros q Hq. apply dict_has_keys in Hq. unfold dict_has in Hq.
    destruct (dict_get q (dict_set pose_name (VDict new_pose) old))
      as [v|] eqn:Ev; [|discriminate].
    destruct (Hkept q v Ev) as (v' & Hv' & _).
    apply dict_has_keys. unfold dict_has. now rewrite Hv'. }
  exists old, new_pose, stored, roots, posed.
  split; [exact Hload|].
  split; [now apply load_poses_get_poses|].
  split; [exact Hroots|].
  split; [exact Hloop|].
  split; [exact Hload'|].
  split; [now apply load_poses_get_poses|].
  split; [apply Hkeys, dict_keys_set_In|].
  split; [intros q Hq; now apply Hkeys, dict_keys_set_incl|].
  split.
  { intros q Hq.
    destruct (String.eqb_spec q pose_name) as [->|Hother]; [now left|right].
    apply dict_has_keys in Hq. apply dict_has_keys. unfold dict_has in *.
    destruct (dict_get q old) as [v|] eqn:Ev; [reflexivity|].
    rewrite (Hnone q) in Hq; [discriminate|].
    now rewrite dict_get_set_neq. }
  split.
  { apply Hkept. apply dict_get_set_eq. }
  intros q pose Hq Hpose. apply Hkept. now rewrite dict_get_set_neq.
Qed.

Lemma joints_eqb_eq (js : dict) (ref : list (string * float)) :
  joints_eqb js ref = true ->
  js = map (fun joint => (fst joint, VFloat (snd joint))) ref.
Proof.
  revert ref. induction js as [|[j v] js IH]; intros [|[j' a'] ref]; simpl;
    try discriminate; [reflexivity | destruct v; discriminate|].
  destruct v; try discriminate. intros H.
  apply andb_true_iff in H as [H Hrest].
  apply andb_true_iff in H as [Hj Ha].
  apply String.eqb_eq in Hj as ->.
  apply FloatAxioms.Leibniz.eqb_spec in Ha as ->.
  now rewrite (IH ref Hrest).
Qed.

Lemma store_eqb_eq (d : dict) (ref : pose_store) :
  store_eqb d ref = true -> d = store_value ref.
Proof.
  revert ref. induction d as [|[p v] d IH]; intros [|[p' js'] ref]; simpl;
    try discriminate; [reflexivity | destruct v; discriminate|].
  destruct v; try discriminate. intros H.
  apply andb_true_iff in H as [H Hrest].
  apply andb_true_iff in H as [Hp Hjs].
  apply String.eqb_eq in Hp as ->.
  apply joints_eqb_eq in Hjs as ->.
  now rewrite (IH ref Hrest).
Qed.

(** The pose collected in the order of the links, and read back in the
    order of the names. *)
Lemma sorted_store_same :
  same_value (VDict (store_value collected_store))
    (VDict (store_value sorted_store)).
Proof.
  apply same_dict.
  - intros k v Hk. simpl in Hk. simpl.
    destruct (String.eqb k "rest");
      [injection Hk as <-; eexists; split; [reflexivity | constructor]|].
    destruct (String.eqb k "stand"); [|discriminate].
    injection Hk as <-.
    eexists. split; [reflexivity|]. apply same_dict.
    + intros j a Hj. simpl in Hj. simpl.
      destruct (String.eqb_spec j "base") as [->|_];
        [injection Hj as <-; eexists; split; [reflexivity | constructor]|].
      destruct (String.eqb_spec j "arm") as [->|_];
        [injection Hj as <-; eexists; split; [reflexivity | constructor]|].
      destruct (String.eqb_spec j "hand") as [->|_]; [|discriminate].
      injection Hj as <-. eexists. split; [reflexivity | constructor].
    + intros j Hj. simpl in Hj. simpl.
      destruct (String.eqb j "base"); [discriminate|].
      destruct (String.eqb j "arm"); [discriminate|].
      destruct (String.eqb j "hand"); [discriminate | reflexivity].
  - intros k Hk. simpl in Hk. simpl.
    destruct (String.eqb k "rest"); [discriminate|].
    destruct (String.eqb k "stand"); [discriminate | reflexivity].
Qed.

Lemma sorting_yaml_roundtrip : yaml_roundtrip sorting_helpers.
Proof.
  intros d s. simpl. unfold sorting_dump.
  destruct (store_eqb d old_store) eqn:Eold.
  { apply store_eqb_eq in Eold as ->. intros [= <-].
    split; [discriminate|]. eexists. split; [reflexivity | constructor]. }
  destruct (store_eqb d collected_store) eqn:Ecollected.
  { apply store_eqb_eq in Ecollected as ->. intros [= <-].
    split; [discriminate|]. eexists. split; [reflexivity|].
    exact sorted_store_same. }
  destruct (store_eqb d sorted_store) eqn:Esorted; [|discriminate].
  apply store_eqb_eq in Esorted as ->. intros [= <-].
  split; [discriminate|]. eexists. split; [reflexivity | constructor].
Qed.

(** The robot 'robbie' has the poses 'rest' and 'stand' stored; 'stand' is
    stored again from the links as they are.  The pose 'rest' is kept, the
    pose 'stand' is replaced by the one collected, which is read back with
    its joints in the order of their names. *)
Lemma storePose_get_poses_witness :
  yaml_roundtrip sorting_helpers /\
  load_poses sorting_helpers studio (poses_file "robbie") =
    Ok (VDict (store_value old_store)) /\
  exists sc' stored,
    storePose sorting_helpers studio "robbie" "stand" = Ok sc' /\
    load_poses sorting_helpers sc' (poses_file "robbie") = Ok (VDict stored) /\
    get_poses sorting_helpers sc' "robbie" = Ok (dict_keys stored) /\
    dict_keys stored = ["rest"; "stand"] /\
    dict_get "rest" stored = Some (VDict [("arm", VFloat 0.25%float)]) /\
    exists pose,
      dict_get "stand" stored = Some pose /\
      same_value
        (VDict [("base", VFloat 0%float); ("arm", VFloat 0.75%float);
                ("hand", VFloat (-0.5)%float)])
        pose /\
      pose = VDict [("arm", VFloat 0.75%float); ("base", VFloat 0%float);
                    ("hand", VFloat (-0.5)%float)].
Proof.
  split; [exact sorting_yaml_roundtrip|]. split; [reflexivity|].
  destruct (storePose sorting_helpers studio "robbie" "stand")
    as [sc'|e] eqn:E; [|vm_compute in E; discriminate].
  destruct (storePose_get_poses sorting_helpers studio sc' "robbie" "stand"
              sorting_yaml_roundtrip E)
    as (old & new_pose & stored & roots & posed & Hold & _ & Hroots & Hloop
        & Hload & Hget & _ & _ & _ & (pose & Hpose & Hsame) & _).
  vm_compute in Hroots. injection Hroots as <-.
  vm_compute in Hloop. injection Hloop as <- _.
  assert (Hstored : stored = store_value sorted_store).
  { vm_compute in E. injection E as <-. vm_compute in Hload.
    now injection Hload as <-. }
  exists sc', stored. split; [reflexivity|]. split; [exact Hload|].
  split; [exact Hget|]. subst stored.
  split; [reflexivity|]. split; [reflexivity|].
  exists pose. split; [exact Hpose|]. split; [exact Hsame|].
  vm_compute in Hpose. now injection Hpose as <-.
Defined.

(** C8: deriveStoredPoses leaves the loop over the text blocks at the first
    robot whose poses file is empty.  With the empty file of 'anna' before
    the file of 'robbie', the result has no entry for 'robbie'; with the two
    files in the other order it has both. *)
Example deriveStoredPoses_stops_at_empty_file :
  dict_keys (texts two_robots) = ["robot_poses_anna"; "robot_poses_robbie"] /\
  deriveStoredPoses sample_helpers two_robots = Ok [("anna", VDict [])] /\
  deriveStoredPoses sample_helpers
    (with_texts sample_scene
       [("robot_poses_robbie", "stand: {}"); ("robot_poses_anna", "")]) =
  Ok [("robbie",
       VDict [("stand",
               VDict [("name", VStr "stand"); ("joints", VDict [])])]);
      ("anna", VDict [])].
Proof. repeat split. Qed.

(** ** buildModelDictionary: the collision bitmask of a link *)

Lemma py_item_Ok (c v : value) (k : string) :
  py_item c k = Ok v -> exists d, c = VDict d /\ dict_get k d = Some v.
Proof.
  unfold py_item, py_getitem, dict_item.
  destruct c as [| | | | | | | |d]; simpl; try discriminate.
  destruct (dict_get k d) as [v'|] eqn:E; [|discriminate].
  intros [= <-]; eauto.
Qed.

Lemma py_setitem_Ok (c c' v : value) (k : string) :
  py_setitem c k v = Ok c' ->
  exists d, c = VDict d /\ c' = VDict (dict_set k v d).
Proof.
  destruct c as [| | | | | | | |d]; try discriminate.
  intros [= <-]; eauto.
Qed.

Lemma py_store_cons (c c' new : value) (k : string) (ks : list string) :
  py_store c (k :: ks) new = Ok c' ->
  exists d inner inner',
    c = VDict d /\ dict_get k d = Some inner /\
    py_store inner ks new = Ok inner' /\
    c' = VDict (dict_set k inner' d).
Proof.
  simpl. intros H.
  apply bind_Ok in H as (inner & Hitem & H).
  apply bind_Ok in H as (inner' & Hstore & H).
  apply py_item_Ok in Hitem as (d & -> & Hget).
  simpl in H. injection H as <-. eauto 8.
Qed.

Lemma py_store_nil (c new c' : value) : py_store c [] new = Ok c' -> c' = new.
Proof. now intros [= <-]. Qed.

Lemma py_path_cons (c v : value) (k : string) (ks : list string) :
  py_path c (k :: ks) = Ok v ->
  exists d inner, c = VDict d /\ dict_get k d = Some inner /\
                  py_path inner ks = Ok v.
Proof.
  simpl. intros H. apply bind_Ok in H as (inner & Hitem & H).
  apply py_item_Ok in Hitem as (d & -> & Hget). eauto.
Qed.

Lemma dict_get_set_cases {V : Type} (d : list (string * V)) (k k' : string)
    (v v' : V) :
  dict_get k' (dict_set k v d) = Some v' ->
  (k' = k /\ v' = v) \/ (k' <> k /\ dict_get k' d = Some v').
Proof.
  destruct (String.eqb_spec k' k) as [->|Hne].
  - rewrite dict_get_set_eq. intros [= <-]; auto.
  - rewrite dict_get_set_neq by exact Hne. auto.
Qed.

Lemma try_except_Ok {A : Type} (body handler : result A)
    (handled : exn -> bool) (a : A) :
  try_except body handled handler = Ok a ->
  body = Ok a \/ (exists e, body = Raise e /\ handler = Ok a).
Proof.
  destruct body as [a'|e]; simpl; [intros [= <-]; auto|].
  destruct (handled e); [eauto | discriminate].
Qed.

Lemma dict_get_keys {V : Type} (d : list (string * V)) (k : string) (v : V) :
  dict_get k d = Some v -> In k (dict_keys d).
Proof.
  intros H. apply dict_has_keys. unfold dict_has. now rewrite H.
Qed.

Lemma dict_keys_get {V : Type} (d : list (string * V)) (k : string) :
  In k (dict_keys d) -> exists v, dict_get k d = Some v.
Proof.
  intros H. apply dict_has_keys in H. unfold dict_has in H.
  destruct (dict_get k d) as [v|]; [eauto | discriminate].
Qed.

Section AllLinks.
Variables good good' : string -> value -> Prop.

(** Writing another section of the dictionary leaves the links alone. *)
Lemma all_links_section (robot robot' target : value) (section : string) :
  section <> "links" ->
  py_store robot [section] target = Ok robot' ->
  all_links good robot -> all_links good robot'.
Proof.
  intros Hne Hstore (r & links & -> & Hlinks & Hall).
  apply py_store_cons in Hstore as (d & inner & inner' & [= <-] & _ & Hnil & ->).
  apply py_store_nil in Hnil as ->.
  exists (dict_set section target r), links. split; [reflexivity|].
  split; [|exact Hall].
  rewrite dict_get_set_neq; [exact Hlinks | congruence].
Qed.

Lemma all_links_setitem (robot robot' v : value) (k : string) :
  k <> "links" ->
  py_setitem robot k v = Ok robot' ->
  all_links good robot -> all_links good robot'.
Proof.
  intros Hne Hset (r & links & -> & Hlinks & Hall).
  injection Hset as <-.
  exists (dict_set k v r), links. split; [reflexivity|].
  split; [|exact Hall].
  rewrite dict_get_set_neq; [exact Hlinks | congruence].
Qed.

(** A link of the dictionary is good. *)
Lemma all_links_path (robot link : value) (name : string) :
  all_links good robot ->
  py_path robot ["links"; name] = Ok link -> good name link.
Proof.
  intros (r & links & -> & Hlinks & Hall) Hpath.
  apply py_path_cons in Hpath as (d & inner & [= <-] & Hget & Hpath).
  rewrite Hlinks in Hget; injection Hget as <-.
  apply py_path_cons in Hpath as (d & link' & [= <-] & Hget & [= <-]).
  eapply Hall; exact Hget.
Qed.

(** Changing one link in place, or replacing it: the others stay as they
    are. *)
Lemma all_links_store (robot robot' new : value) (name : string)
    (ks : list string) :
  py_store robot ("links" :: name :: ks) new = Ok robot' ->
  all_links good robot ->
  (forall n link, n <> name -> good n link -> good' n link) ->
  (forall link link',
     good name link -> py_store link ks new = Ok link' -> good' name link') ->
  all_links good' robot'.
Proof.
  intros Hstore (r & links & -> & Hlinks & Hall) Hothers Hkeep.
  apply py_store_cons in Hstore
    as (d & inner & inner' & [= <-] & Hget & Hstore & ->).
  rewrite Hlinks in Hget; injection Hget as <-.
  apply py_store_cons in Hstore
    as (d & link & link' & [= <-] & Hlink & Hstore & ->).
  eexists _, _. split; [reflexivity|].
  split; [apply dict_get_set_eq|].
  intros n l Hl. apply dict_get_set_cases in Hl as [[-> ->]|[Hn Hl]].
  - eapply Hkeep; [eapply Hall; exact Hlink | exact Hstore].
  - apply Hothers; [exact Hn | eapply Hall; exact Hl].
Qed.

(** A link that is put into the dictionary has to be good. *)
Lemma all_links_insert (robot robot' links links' link : value)
    (name : string) :
  py_item robot "links" = Ok links ->
  py_setitem links name link = Ok links' ->
  py_store robot ["links"] links' = Ok robot' ->
  all_links good robot -> good name link -> all_links good robot'.
Proof.
  intros Hitem Hset Hstore (r & ls & -> & Hlinks & Hall) Hgood.
  apply py_item_Ok in Hitem as (d & [= <-] & Hget).
  rewrite Hlinks in Hget; injection Hget as <-.
  injection Hset as <-.
  apply py_store_cons in Hstore as (d & inner & inner' & [= <-] & _ & Hnil & ->).
  apply py_store_nil in Hnil as ->.
  eexists _, _. split; [reflexivity|].
  split; [apply dict_get_set_eq|].
  intros n l Hl. apply dict_get_set_cases in Hl as [[-> ->]|[_ Hl]].
  - exact Hgood.
  - eapply Hall; exact Hl.
Qed.
End AllLinks.

Lemma all_links_weaken (good good' : string -> value -> Prop) (robot : value) :
  (forall n link, good n link -> good' n link) ->
  all_links good robot -> all_links good' robot.
Proof.
  intros Himp (r & links & -> & Hlinks & Hall).
  exists r, links. split; [reflexivity|]. split; [exact Hlinks|].
  intros n l Hl. apply Himp. eapply Hall; exact Hl.
Qed.

(** *** The links and their collision entries are put in place *)

Lemma link_shaped_set (l : dict) (k : string) (v : value) :
  k <> "collision" ->
  link_shaped (VDict l) -> link_shaped (VDict (dict_set k v l)).
Proof.
  intros Hk (l' & c & [= <-] & Hc).
  exists (dict_set k v l), c. split; [reflexivity|].
  rewrite dict_get_set_neq; [exact Hc | congruence].
Qed.

Lemma deriveLink_shaped (h : Helpers) (sc : Scene) (obj : BObject)
    (link : dict) :
  deriveLink h sc obj = Ok link -> link_shaped (VDict link).
Proof.
  unfold deriveLink. intros H.
  apply bind_Ok in H as (props & _ & H).
  apply bind_Ok in H as (pose & _ & H).
  injection H as <-.
  do 3 (apply link_shaped_set; [discriminate|]).
  eexists _, []. split; [reflexivity | apply dict_get_set_eq].
Qed.

Lemma deriveKinematics_link (h : Helpers) (sc sc' : Scene) (obj : BObject)
    (link : dict) (joint motor : option dict) :
  deriveKinematics h sc obj = Ok (link, joint, motor, sc') ->
  deriveLink h sc obj = Ok link.
Proof.
  unfold deriveKinematics. intros H.
  apply bind_Ok in H as (link' & Hlink & H).
  destruct (parent obj).
  - apply bind_Ok in H as ([j s] & _ & H).
    apply bind_Ok in H as (m & _ & H). now injection H as <- _ _ _.
  - now injection H as <- _ _ _.
Qed.

Lemma add_named_links (good : string -> value -> Prop)
    (robot robot' : value) (section : string) (entry : option dict) :
  section <> "links" ->
  add_named robot section entry = Ok robot' ->
  all_links good robot -> all_links good robot'.
Proof.
  intros Hne H Hall. unfold add_named in H.
  destruct entry as [[|kv d]|]; try (now injection H as <-).
  apply bind_Ok in H as (target & _ & H).
  apply bind_Ok in H as (name & _ & H).
  apply bind_Ok in H as (key & _ & H).
  apply bind_Ok in H as (target' & _ & H).
  eapply all_links_section; eauto.
Qed.

(** One turn of the loop over the links. *)
Lemma link_step_shaped (h : Helpers) (robot robot' : value) (sc sc' : Scene)
    (link : BObject) :
  link_step h (robot, sc) link = Ok (robot', sc') ->
  all_links (any_name link_shaped) robot -> all_links (any_name link_shaped) robot'.
Proof.
  unfold link_step. intros H Hall.
  apply bind_Ok in H as ([[[linkdict jointdict] motordict] sc1] & Hkin & H).
  apply deriveKinematics_link, deriveLink_shaped in Hkin.
  apply bind_Ok in H as (links & Hlinks & H).
  apply bind_Ok in H as (name & _ & H).
  apply bind_Ok in H as (linkname & _ & H).
  apply bind_Ok in H as (links' & Hset & H).
  apply bind_Ok in H as (robot1 & Hstore & H).
  apply bind_Ok in H as (robot2 & Hjoint & H).
  apply bind_Ok in H as (robot3 & Hmotor & H).
  apply bind_Ok in H as (robot4 & Hinertial & H).
  injection H as <- _.
  assert (H3 : all_links (any_name link_shaped) robot3).
  { apply (add_named_links _ robot2 robot3 "motors" motordict);
      [discriminate | exact Hmotor|].
    apply (add_named_links _ robot1 robot2 "joints" jointdict);
      [discriminate | exact Hjoint|].
    eapply all_links_insert; eauto. }
  apply try_except_Ok in Hinertial as [Hbody|(e & _ & [= <-])]; [|exact H3].
  apply bind_Ok in Hbody as (inertial & _ & Hbody).
  apply bind_Ok in Hbody as (props & _ & Hbody).
  assert (Hupd : (linkdict' <- py_path robot3 ["links"; linkname] ;;
                  linkdict'0 <- py_setitem linkdict' "inertial" props ;;
                  py_store robot3 ["links"; linkname] linkdict'0) = Ok robot4
                 -> all_links (any_name link_shaped) robot4).
  { intros Hupd.
    apply bind_Ok in Hupd as (old & Hold & Hupd).
    apply bind_Ok in Hupd as (new & Hnew & Hupd).
    apply (all_links_path _ _ _ _ H3) in Hold.
    apply py_setitem_Ok in Hnew as (d & -> & ->).
    eapply all_links_store; [exact Hupd | exact H3 | auto |].
    intros l l' _ [= <-]. apply link_shaped_set; [discriminate | exact Hold]. }
  destruct props; try (now apply Hupd). now injection Hbody as <-.
Qed.

(** One turn of the loop over the visual and collision objects. *)
Lemma geometry_step_shaped (h : Helpers) (sc : Scene) (robot robot' : value)
    (obj : BObject) :
  geometry_step h sc robot obj = Ok robot' ->
  all_links (any_name link_shaped) robot -> all_links (any_name link_shaped) robot'.
Proof.
  unfold geometry_step. intros H Hall.
  destruct (_ || _).
  - apply bind_Ok in H as (props & _ & H).
    apply bind_Ok in H as (par & _ & H).
    apply bind_Ok in H as (parentname & _ & H).
    apply bind_Ok in H as (par' & _ & H).
    apply bind_Ok in H as (_p & _ & H).
    apply bind_Ok in H as (entries & _ & H).
    apply bind_Ok in H as (name & _ & H).
    apply bind_Ok in H as (entries' & Hset & H).
    apply py_setitem_Ok in Hset as (d & -> & ->).
    eapply all_links_store; [exact H | exact Hall | auto |].
    intros l l' (ld & c & -> & Hc) Hstore.
    apply py_store_cons in Hstore as (d0 & i & i' & [= <-] & _ & [= <-] & ->).
    destruct (String.eqb_spec (phobostype obj) "collision") as [->|Hne].
    + eexists _, _. split; [reflexivity | apply dict_get_set_eq].
    + apply link_shaped_set; [congruence|]. now exists ld, c.
  - destruct (String.eqb _ "approxsphere"); [|now injection H as <-].
    apply bind_Ok in H as (props & _ & H).
    apply bind_Ok in H as (par & _ & H).
    apply bind_Ok in H as (parentname & _ & H).
    apply bind_Ok in H as (spheres & _ & H).
    destruct spheres; try discriminate.
    eapply all_links_store; [exact H | exact Hall | auto |].
    intros lk lk' Hlk Hstore.
    apply py_store_cons in Hstore as (d0 & i & i' & -> & _ & _ & ->).
    apply link_shaped_set; [discriminate | exact Hlk].
Qed.

(** *** The bitmasks are combined *)

(** The loop over the collision entries of a link: the bitmasks of the
    entries are combined into the accumulator, and every entry met has an
    integer bitmask or none. *)
Lemma or_bitmask_loop (l collision : dict) (names : list string) :
  dict_get "collision" l = Some (VDict collision) ->
  (forall n, In n names -> In n (dict_keys collision)) ->
  forall (acc : Z) (result : value),
    for_each (map VStr names) (or_bitmask (VDict l)) (VInt acc) = Ok result ->
    result = VInt (fold_left Z.lor (bitmasks_at collision names) acc) /\
    forall n, In n names ->
      exists entry, dict_get n collision = Some entry /\ entry_ready entry.
Proof.
  intros Hc. induction names as [|n names IH]; intros Hkeys acc result Hrun.
  - injection Hrun as <-. split; [reflexivity | intros n []].
  - simpl in Hrun. apply bind_Ok in Hrun as (acc1 & Hstep & Hrun).
    destruct (dict_keys_get collision n (Hkeys n (or_introl eq_refl)))
      as (entry & Hentry).
    assert (Hone : exists z, acc1 = VInt z /\
                     entry_ready entry /\
                     z = fold_left Z.lor (entry_bitmask entry) acc).
    { unfold or_bitmask, py_item in Hstep. simpl in Hstep.
      unfold dict_item in Hstep. rewrite Hc in Hstep. simpl in Hstep.
      unfold dict_item in Hstep. rewrite Hentry in Hstep. simpl in Hstep.
      destruct entry as [| | | | | | | |e]; simpl in Hstep; try discriminate.
      unfold dict_item in Hstep. unfold entry_ready, entry_bitmask.
      destruct (dict_get "bitmask" e) as [[| b | z | | | | | |]|] eqn:Eb;
        simpl in Hstep; try discriminate; injection Hstep as <-;
        (eexists; split; [reflexivity|]; split;
         [exists e; split; [reflexivity | rewrite Eb; exact I] | reflexivity]). }
    destruct Hone as (z & -> & Hready & ->).
    apply IH in Hrun as [-> Hrest];
      [|intros m Hm; apply Hkeys; now right].
    split.
    + unfold bitmasks_at; simpl. rewrite Hentry, fold_left_app. reflexivity.
    + intros m [<-|Hm]; [eauto | now apply Hrest].
Qed.

Lemma link_masked_shaped (link : value) : link_masked link -> link_shaped link.
Proof. intros (l & c & -> & Hc & _). now exists l, c. Qed.

(** One turn of the loop over the links: the link of the turn gets its
    bitmask. *)
Lemma bitmask_step_masked (names done : list string) (robot robot' : value)
    (name : string) :
  bitmask_step robot (VStr name) = Ok robot' ->
  all_links (masked_so_far names done) robot ->
  all_links (masked_so_far names (name :: done)) robot'.
Proof.
  unfold bitmask_step. intros H Hall.
  apply bind_Ok in H as (links & Hlinks & H).
  apply bind_Ok in H as (link & Hlink & H).
  apply bind_Ok in H as (collision & Hcoll & H).
  apply bind_Ok in H as (collnames & Hiter & H).
  apply bind_Ok in H as (bitmask & Hor & H).
  apply bind_Ok in H as (link' & Hset & H).
  change (py_store robot ["links"; name] link' = Ok robot') in H.
  assert (Hpath : py_path robot ["links"; name] = Ok link).
  { simpl. rewrite Hlinks; simpl. unfold py_item. rewrite Hlink. reflexivity. }
  pose proof (all_links_path _ _ _ _ Hall Hpath) as (Hname & Hshape & _).
  destruct Hshape as (l & c & -> & Hc).
  unfold py_item in Hcoll; simpl in Hcoll. unfold dict_item in Hcoll.
  rewrite Hc in Hcoll. injection Hcoll as <-.
  simpl in Hiter. injection Hiter as <-.
  apply (or_bitmask_loop l c (dict_keys c) Hc (fun n Hn => Hn)) in Hor
    as [-> Hready].
  simpl in Hset. injection Hset as <-.
  eapply all_links_store; [exact H | exact Hall | |].
  - intros n lk Hn (Hin & Hsh & Hdone). repeat split; auto.
    intros [Heq|Hd]; [congruence | auto].
  - intros lk lk' _ [= <-]. split; [exact Hname|].
    assert (Hm : link_masked
                   (VDict (dict_set "collision_bitmask"
                             (VInt (fold_left Z.lor (bitmasks_at c (dict_keys c)) 0))
                             l))).
    { exists (dict_set "collision_bitmask"
                (VInt (fold_left Z.lor (bitmasks_at c (dict_keys c)) 0)) l), c.
      split; [reflexivity|]. split.
      - rewrite dict_get_set_neq; [exact Hc | discriminate].
      - split; [apply dict_get_set_eq | exact Hready]. }
    split; [now apply link_masked_shaped | intros _; exact Hm].
Qed.

Lemma bitmask_loop_masked (names : list string) (todo : list string) :
  forall (done : list string) (robot robot' : value),
    for_each (map VStr todo) bitmask_step robot = Ok robot' ->
    all_links (masked_so_far names done) robot ->
    all_links (masked_so_far names (rev todo ++ done)) robot'.
Proof.
  induction todo as [|n todo IH]; intros done robot robot' Hrun Hall.
  - now injection Hrun as <-.
  - simpl in Hrun. apply bind_Ok in Hrun as (robot1 & Hstep & Hrun).
    simpl. rewrite <- app_assoc. simpl.
    eapply IH; [exact Hrun|].
    eapply bitmask_step_masked; eauto.
Qed.

(** The whole loop, from links that have their collision dictionaries. *)
Lemma bitmask_loop_all (robot robot' links : value) (linknames : list value) :
  all_links (any_name link_shaped) robot ->
  py_item robot "links" = Ok links ->
  py_iter links = Ok linknames ->
  for_each linknames bitmask_step robot = Ok robot' ->
  all_links (any_name link_masked) robot'.
Proof.
  intros Hall Hitem Hiter Hrun.
  destruct Hall as (r & ls & -> & Hlinks & Hall).
  apply py_item_Ok in Hitem as (d & [= <-] & Hget).
  rewrite Hlinks in Hget; injection Hget as <-.
  simpl in Hiter. injection Hiter as <-.
  apply (bitmask_loop_masked (dict_keys ls) (dict_keys ls) []) in Hrun.
  - eapply all_links_weaken; [|exact Hrun].
    intros n link (Hin & _ & Hdone). apply Hdone.
    rewrite app_nil_r. now apply in_rev in Hin.
  - exists r, ls. split; [reflexivity|]. split; [exact Hlinks|].
    intros n link Hn. split; [eapply dict_get_keys; exact Hn|].
    split; [eapply Hall; exact Hn | intros []].
Qed.

(** *** The later loops keep the bitmasks *)

Lemma link_masked_set (l : dict) (k : string) (v : value) :
  k <> "collision" -> k <> "collision_bitmask" ->
  link_masked (VDict l) -> link_masked (VDict (dict_set k v l)).
Proof.
  intros Hk1 Hk2 (l' & c & [= <-] & Hc & Hm & Hready).
  exists (dict_set k v l), c. split; [reflexivity|].
  rewrite !dict_get_set_neq by congruence. auto.
Qed.

Lemma device_step_masked (h : Helpers) (sc : Scene) (robot robot' : value)
    (obj : BObject) :
  device_step h sc robot obj = Ok robot' ->
  all_links (any_name link_masked) robot ->
  all_links (any_name link_masked) robot'.
Proof.
  unfold device_step. intros H Hall.
  destruct (_ || _) eqn:E; [|now injection H as <-].
  apply bind_Ok in H as (props & _ & H).
  apply bind_Ok in H as (target & _ & H).
  apply bind_Ok in H as (name & _ & H).
  apply bind_Ok in H as (target' & _ & H).
  eapply all_links_section; [|exact H|exact Hall].
  apply orb_true_iff in E as [E|E]; apply String.eqb_eq in E; rewrite E;
    discriminate.
Qed.

Lemma material_step_masked (h : Helpers) (sc : Scene) (robot robot' : value)
    (obj : BObject) :
  material_step h sc robot obj = Ok robot' ->
  all_links (any_name link_masked) robot ->
  all_links (any_name link_masked) robot'.
Proof.
  unfold material_step. intros H Hall.
  destruct (String.eqb _ _); [|now injection H as <-].
  apply bind_Ok in H as (mats & _ & H).
  destruct mats as [|mat rest]; [now injection H as <-|].
  apply bind_Ok in H as (matname & _ & H).
  apply bind_Ok in H as (known_in & _ & H).
  apply bind_Ok in H as (known & _ & H).
  apply bind_Ok in H as (robot1 & Hmat & H).
  assert (H1 : all_links (any_name link_masked) robot1).
  { destruct (negb known); [|now injection Hmat as <-].
    apply bind_Ok in Hmat as (m & _ & Hmat).
    apply bind_Ok in Hmat as (derived & _ & Hmat).
    apply bind_Ok in Hmat as (ms & _ & Hmat).
    apply bind_Ok in Hmat as (ms' & _ & Hmat).
    eapply all_links_section; [|exact Hmat|exact Hall]. discriminate. }
  apply bind_Ok in H as (links & _ & H).
  apply bind_Ok in H as (parentname & _ & H).
  apply bind_Ok in H as (visuals & _ & H).
  apply bind_Ok in H as (name & _ & H).
  apply bind_Ok in H as (visual & _ & H).
  apply bind_Ok in H as (visual' & _ & H).
  eapply all_links_store; [exact H | exact H1 | auto |].
  intros lk lk' Hlk Hstore.
  apply py_store_cons in Hstore as (d0 & i & i' & -> & _ & _ & ->).
  apply link_masked_set; [discriminate | discriminate | exact Hlk].
Qed.

Lemma group_step_masked (h : Helpers) (sc : Scene) (robot robot' : value)
    (group : Group) :
  group_step h sc robot group = Ok robot' ->
  all_links (any_name link_masked) robot ->
  all_links (any_name link_masked) robot'.
Proof.
  unfold group_step. intros H Hall.
  destruct (group_objects group); [now injection H as <-|].
  apply bind_Ok in H as (name & _ & H).
  destruct (negb _); [|now injection H as <-].
  apply bind_Ok in H as (entry & _ & H).
  apply bind_Ok in H as (target & _ & H).
  apply bind_Ok in H as (name' & _ & H).
  apply bind_Ok in H as (target' & _ & H).
  eapply all_links_section; [|exact H|exact Hall]. discriminate.
Qed.

Lemma chain_entry_masked (robot robot' chain : value) :
  chain_entry robot chain = Ok robot' ->
  all_links (any_name link_masked) robot ->
  all_links (any_name link_masked) robot'.
Proof.
  unfold chain_entry. intros H Hall.
  apply bind_Ok in H as (target & _ & H).
  apply bind_Ok in H as (name & _ & H).
  apply bind_Ok in H as (key & _ & H).
  apply bind_Ok in H as (target' & _ & H).
  eapply all_links_section; [|exact H|exact Hall]. discriminate.
Qed.

Lemma light_step_masked (h : Helpers) (sc : Scene) (robot robot' : value)
    (obj : BObject) :
  light_step h sc robot obj = Ok robot' ->
  all_links (any_name link_masked) robot ->
  all_links (any_name link_masked) robot'.
Proof.
  unfold light_step. intros H Hall.
  destruct (String.eqb _ _); [|now injection H as <-].
  apply bind_Ok in H as (light & _ & H).
  apply bind_Ok in H as (target & _ & H).
  apply bind_Ok in H as (name & _ & H).
  apply bind_Ok in H as (target' & _ & H).
  eapply all_links_section; [|exact H|exact Hall]. discriminate.
Qed.

(** The dictionary at the [return] statement. *)
Lemma build_robot_masked (h : Helpers) (sc sc' : Scene) (root : BObject)
    (robot : value) (objectlist : list BObject) :
  build_robot h sc root = Ok (robot, objectlist, sc') ->
  all_links (any_name link_masked) robot.
Proof.
  unfold build_robot. intros H.
  apply bind_Ok in H as (robot0 & Hdate & H).
  destruct (negb _); [discriminate|].
  apply bind_Ok in H as (robot1 & Hname & H).
  apply bind_Ok in H as (objs & _ & H).
  apply bind_Ok in H as ([robot2 sc2] & Hlinks & H).
  apply bind_Ok in H as (robot3 & Hgeo & H).
  apply bind_Ok in H as (links & Hitem & H).
  apply bind_Ok in H as (linknames & Hiter & H).
  apply bind_Ok in H as (robot4 & Hmask & H).
  apply bind_Ok in H as (robot5 & Hdev & H).
  apply bind_Ok in H as (materials & _ & H).
  apply bind_Ok in H as (robot6 & Hmats & H).
  apply bind_Ok in H as (robot7 & Hmat & H).
  apply bind_Ok in H as (robot8 & Hgroups & H).
  apply bind_Ok in H as (chains & _ & H).
  apply bind_Ok in H as (robot9 & Hchains & H).
  apply bind_Ok in H as (robot10 & Hlights & H).
  apply bind_Ok in H as (poses & _ & H).
  apply bind_Ok in H as (robot11 & Hposes & H).
  injection H as <- _ _.
  assert (H1 : all_links (any_name link_shaped) robot1).
  { injection Hdate as <-. injection Hname as <-.
    eexists _, []. split; [reflexivity|]. split; [reflexivity|].
    intros n l [=]. }
  assert (H2 : all_links (any_name link_shaped) robot2).
  { apply (for_each_invariant
             (fun st => all_links (any_name link_shaped) (fst st)))
      in Hlinks; [exact Hlinks| |exact H1].
    intros [r s] x [r' s'] _ Hr Hstep. eapply link_step_shaped; eauto. }
  assert (H3 : all_links (any_name link_shaped) robot3).
  { revert Hgeo. apply for_each_invariant; [|exact H2].
    intros r x r' _ Hr Hstep. eapply geometry_step_shaped; eauto. }
  assert (H4 : all_links (any_name link_masked) robot4)
    by (eapply bitmask_loop_all; eauto).
  assert (H5 : all_links (any_name link_masked) robot5).
  { revert Hdev. apply for_each_invariant; [|exact H4].
    intros r x r' _ Hr Hstep. eapply device_step_masked; eauto. }
  assert (H6 : all_links (any_name link_masked) robot6).
  { eapply all_links_setitem; [|exact Hmats|exact H5]. discriminate. }
  assert (H7 : all_links (any_name link_masked) robot7).
  { revert Hmat. apply for_each_invariant; [|exact H6].
    intros r x r' _ Hr Hstep. eapply material_step_masked; eauto. }
  assert (H8 : all_links (any_name link_masked) robot8).
  { revert Hgroups. apply for_each_invariant; [|exact H7].
    intros r x r' _ Hr Hstep. eapply group_step_masked; eauto. }
  assert (H9 : all_links (any_name link_masked) robot9).
  { revert Hchains. apply for_each_invariant; [|exact H8].
    intros r x r' _ Hr Hstep. eapply chain_entry_masked; eauto. }
  assert (H10 : all_links (any_name link_masked) robot10).
  { revert Hlights. apply for_each_invariant; [|exact H9].
    intros r x r' _ Hr Hstep. eapply light_step_masked; eauto. }
  eapply all_links_setitem; [|exact Hposes|exact H10]. discriminate.
Qed.

(** C3: in the dictionary that buildModelDictionary has built when it
    reaches its return statement, every link has a 'collision_bitmask' equal
    to the bitwise OR of the 'bitmask' values of the link's collision
    entries; entries without 'bitmask' are passed over, and a link without
    collision bitmasks has 0. *)
Theorem build_robot_collision_bitmask (h : Helpers) (sc sc' : Scene)
    (root : BObject) (robot : value) (objectlist : list BObject) :
  build_robot h sc root = Ok (robot, objectlist, sc') ->
  exists links,
    py_item robot "links" = Ok (VDict links) /\
    forall linkname link,
      dict_get linkname links = Some link ->
      exists l collision,
        link = VDict l /\
        dict_get "collision" l = Some (VDict collision) /\
        dict_get "collision_bitmask" l =
          Some (VInt (or_all (bitmasks collision))) /\
        forall name, In name (dict_keys collision) ->
          exists entry,
            dict_get name collision = Some entry /\ entry_ready entry.
Proof.
  intros H. apply build_robot_masked in H as (r & links & -> & Hlinks & Hall).
  exists links. split.
  - unfold py_item; simpl. unfold dict_item. now rewrite Hlinks.
  - intros n link Hn. exact (Hall n link Hn).
Qed.

(** The link 'arm' of the sample scene: 5 | 8 | 5 = 13. *)
Lemma build_robot_collision_bitmask_witness :
  build_robot sample_helpers sample_scene base =
  Ok (sample_robot, scene_objects sample_scene, sample_scene) /\
  exists links l,
    py_item sample_robot "links" = Ok (VDict links) /\
    dict_get "arm" links = Some (VDict l) /\
    dict_get "collision_bitmask" l = Some (VInt 13).
Proof.
  assert (H : build_robot sample_helpers sample_scene base =
              Ok (sample_robot, scene_objects sample_scene, sample_scene))
    by (vm_compute; reflexivity).
  split; [exact H|].
  destruct (build_robot_collision_bitmask sample_helpers sample_scene
              sample_scene base sample_robot (scene_objects sample_scene) H)
    as (links & Hlinks & Hall).
  cbv in Hlinks. injection Hlinks as <-.
  destruct (Hall "arm" _ eq_refl) as (l & c & Hl & Hc & Hm & _).
  injection Hl as <-. cbv in Hc. injection Hc as <-.
  eexists _, _. split; [reflexivity|]. split; [reflexivity|]. exact Hm.
Defined.

(** ** The scene while the dictionary is built *)

(** The functions of the module write nothing to the scene while the
    dictionary is built: the scene at the end is the scene as the calls of
    [deriveJointType] have left it.  Whether these calls, made with
    [adjust=True] for the links without 'joint/type', change the properties
    of an object is decided in Phobos' joints module. *)
Lemma build_robot_scene (h : Helpers) (sc sc' : Scene) (root : BObject)
    (robot : value) (objectlist : list BObject) :
  (forall s obj adjust jt crot s',
     deriveJointType h s obj adjust = Ok (jt, crot, s') -> s' = s) ->
  build_robot h sc root = Ok (robot, objectlist, sc') ->
  sc' = sc.
Proof.
  intros Hjoint H. unfold build_robot in H.
  apply bind_Ok in H as (robot0 & _ & H).
  destruct (negb _); [discriminate|].
  apply bind_Ok in H as (robot1 & _ & H).
  apply bind_Ok in H as (objs & _ & H).
  apply bind_Ok in H as ([robot2 sc2] & Hlinks & H).
  assert (Hsc : sc2 = sc).
  { apply (for_each_invariant (fun st : value * Scene => snd st = sc))
      in Hlinks; [exact Hlinks| |reflexivity].
    intros [r s] link [r' s'] _ Hs Hstep. simpl in Hs; subst s; simpl.
    unfold link_step in Hstep.
    apply bind_Ok in Hstep as ([[[ld jd] md] s1] & Hkin & Hstep).
    assert (Hs1 : s1 = sc).
    { unfold deriveKinematics in Hkin.
      apply bind_Ok in Hkin as (lk & _ & Hkin).
      destruct (parent link); [|now injection Hkin as _ _ _ <-].
      apply bind_Ok in Hkin as ([j s2] & Hj & Hkin).
      apply bind_Ok in Hkin as (m & _ & Hkin).
      injection Hkin as _ _ _ <-.
      unfold deriveJoint in Hj.
      apply bind_Ok in Hj as (s3 & Hadj & Hj).
      assert (Hs3 : s3 = sc).
      { destruct (negb _); [|now injection Hadj as <-].
        apply bind_Ok in Hadj as ([[jt crot] s4] & Hcall & Hadj).
        injection Hadj as <-. eapply Hjoint; exact Hcall. }
      subst s3.
      apply bind_Ok in Hj as (p & _ & Hj).
      apply bind_Ok in Hj as (par & _ & Hj).
      apply bind_Ok in Hj as (pn & _ & Hj).
      apply bind_Ok in Hj as (cn & _ & Hj).
      apply bind_Ok in Hj as ([axis minmax] & _ & Hj).
      apply bind_Ok in Hj as (p1 & _ & Hj).
      apply bind_Ok in Hj as (limits & _ & Hj).
      destruct (move_limit _ _ _) as [l1 q1].
      destruct (move_limit _ _ _) as [l2 q2].
      now injection Hj as _ <-. }
    subst s1.
    repeat (apply bind_Ok in Hstep as (? & _ & Hstep)).
    now injection Hstep as _ <-. }
  subst sc2.
  repeat (apply bind_Ok in H as (? & _ & H)).
  now injection H as _ _ <-.
Qed.

(** With a [deriveJointType] that records the joint type in the object, the
    properties of the sample link 'arm' are not the same after the
    dictionary is built. *)
Example build_robot_adjusting :
  dict_get "joint/type" (custom_props sample_scene arm) = None /\
  match build_robot adjusting_helpers sample_scene base with
  | Ok (_, _, sc') =>
      dict_get "joint/type" (custom_props sc' arm) = Some (VStr "fixed")
  | Raise _ => False
  end.
Proof. split; vm_compute; reflexivity. Qed.

(** ** initObjectProperties: what becomes of the custom properties *)

Lemma dict_has_set {V : Type} (d : list (string * V)) (k k' : string) (v : V) :
  dict_has k' d = true -> dict_has k' (dict_set k v d) = true.
Proof.
  unfold dict_has. destruct (String.eqb_spec k' k) as [->|Hne].
  - now rewrite dict_get_set_eq.
  - now rewrite dict_get_set_neq.
Qed.

Lemma set_category_has (props props' : dict) (category specifier : string)
    (v : value) (k : string) :
  set_category props category specifier v = Ok props' ->
  dict_has k props = true -> dict_has k props' = true.
Proof.
  unfold set_category. intros H Hk.
  apply dict_update_Ok in H as (old & new & _ & _ & ->).
  apply dict_has_set. destruct (negb _); [now apply dict_has_set | exact Hk].
Qed.

(** A turn of the loop over the properties, for a phobostype: the property
    is dropped, stored under a plain key, or stored in a category. *)
Lemma init_step_cases (pt : string) (ig : ignore_spec) (props props' : dict)
    (key : string) (v : value) :
  init_step pt ig props (key, v) = Ok props' ->
  props' = props \/
  (str_contains (pt ++ "/")%string key = true /\
   props' = dict_set (str_replace (pt ++ "/")%string "" key)
              (match v with VArray l => VList l | _ => v end) props) \/
  (exists category specifier,
     set_category props category specifier
       (match v with VArray l => VList l | _ => v end) = Ok props' /\
     (str_contains (pt ++ "/")%string key = true \/
      ignored category ig = false)).
Proof.
  unfold init_step. intros H.
  destruct (str_contains "/" key); [|injection H as <-; auto].
  destruct (str_contains (pt ++ "/")%string key) eqn:Ept.
  - destruct (tl (str_split "/" key)) as [|a [|b [|? ?]]];
      try (injection H as <-; auto; fail).
    right; right. exists a, b. auto.
  - destruct (Nat.eqb _ 1); [|injection H as <-; auto].
    destruct (str_split "/" key) as [|a [|b [|? ?]]];
      try (injection H as <-; auto; fail).
    destruct (ignored a ig) eqn:Eig; simpl in H; [injection H as <-; auto|].
    right; right. exists a, b. auto.
Qed.

Lemma initObjectProperties_Ok (h : Helpers) (sc : Scene) (obj : entity)
    (phobostype : option string) (ig : ignore_spec) (props : dict) :
  initObjectProperties h sc obj phobostype ig = Ok props ->
  exists name kvs,
    getObjectName h sc obj (Some "material") = Ok name /\
    items sc obj = Ok kvs /\
    match phobostype with
    | Some (String c pt) =>
        for_each kvs (init_step (String c pt) ig) [("name", VStr name)]
    | _ =>
        for_each kvs (fun props kv => Ok (dict_set (fst kv) (snd kv) props))
          [("name", VStr name)]
    end = Ok props.
Proof.
  unfold initObjectProperties. intros H.
  apply bind_Ok in H as (name & Hname & H). simpl in H.
  apply bind_Ok in H as (kvs & Hitems & H). eauto.
Qed.

(** X1: the dictionary that initObjectProperties returns always has a
    'name'; for a phobostype it is the name that getObjectName gives, unless
    a property key contains '<phobostype>/'. *)
Theorem initObjectProperties_name (h : Helpers) (sc : Scene) (obj : entity)
    (phobostype : option string) (ig : ignore_spec) (props kvs : dict)
    (name : string) :
  getObjectName h sc obj (Some "material") = Ok name ->
  items sc obj = Ok kvs ->
  initObjectProperties h sc obj phobostype ig = Ok props ->
  dict_has "name" props = true /\
  forall c pt,
    phobostype = Some (String c pt) ->
    (forall k, In k (dict_keys kvs) ->
       str_contains (String c pt ++ "/")%string k = false) ->
    dict_get "name" props = Some (VStr name).
Proof.
  intros Hname Hitems H.
  apply initObjectProperties_Ok in H as (name' & kvs' & Hname' & Hitems' & H).
  rewrite Hname in Hname'; injection Hname' as <-.
  rewrite Hitems in Hitems'; injection Hitems' as <-.
  split.
  - destruct phobostype as [[|c pt]|];
      (apply (for_each_invariant (fun p => dict_has "name" p = true)) in H;
       [exact H| |reflexivity]).
    + intros s x s' _ Hs [= <-]. now apply dict_has_set.
    + intros s [k v] s' _ Hs Hstep.
      apply init_step_cases in Hstep as [->|[[_ ->]|(a & b & Hset & _)]];
        [exact Hs | now apply dict_has_set |].
      eapply set_category_has; eauto.
    + intros s x s' _ Hs [= <-]. now apply dict_has_set.
  - intros c pt -> Hkeys.
    apply (for_each_invariant
             (fun p => dict_get "name" p = Some (VStr name))) in H;
      [exact H| |reflexivity].
    intros s [k v] s' Hin Hs Hstep.
    assert (Hk : str_contains (String c pt ++ "/")%string k = false).
    { apply Hkeys. unfold dict_keys. change k with (fst (k, v)).
      now apply in_map. }
    apply init_step_cases in Hstep as [->|[[Hc _]|(a & b & Hset & Hor)]];
      [exact Hs | congruence |].
    rewrite (set_category_other _ _ _ _ _ "name" Hset); [exact Hs|].
    discriminate.
Qed.

(** The sample object 'col3', whose only property is 'collision/bitmask',
    read as a visual: the property goes into the category '$collision'. *)
Lemma initObjectProperties_name_witness :
  getObjectName sample_helpers sample_scene (EObject col3) (Some "material")
    = Ok "col3" /\
  items sample_scene (EObject col3) = Ok [("collision/bitmask", VInt 5)] /\
  initObjectProperties sample_helpers sample_scene (EObject col3)
    (Some "visual") (IgnoreStr "geometry") =
    Ok [("name", VStr "col3"); ("$collision", VDict [("bitmask", VInt 5)])] /\
  dict_get "name"
    [("name", VStr "col3"); ("$collision", VDict [("bitmask", VInt 5)])] =
    Some (VStr "col3").
Proof.
  split; [reflexivity|]. split; [reflexivity|]. split; [reflexivity|].
  destruct (initObjectProperties_name sample_helpers sample_scene
              (EObject col3) (Some "visual") (IgnoreStr "geometry")
              [("name", VStr "col3");
               ("$collision", VDict [("bitmask", VInt 5)])]
              [("collision/bitmask", VInt 5)] "col3"
              eq_refl eq_refl eq_refl) as [_ H].
  apply (H "v"%char "isual" eq_refl).
  intros k [<-|[]]. reflexivity.
Defined.

Lemma in_keys {V : Type} (kvs : list (string * V)) (k : string) (v : V) :
  In (k, v) kvs -> In k (dict_keys kvs).
Proof.
  intros H. unfold dict_keys. change k with (fst (k, v)). now apply in_map.
Qed.

(** X2: for a phobostype, initObjectProperties leaves out every custom
    property whose key has no '/': of an object with such keys only, nothing
    but the name is returned. *)
Theorem initObjectProperties_plain_keys (h : Helpers) (sc : Scene)
    (obj : entity) (c : ascii) (pt : string) (ig : ignore_spec)
    (kvs : dict) (name : string) :
  getObjectName h sc obj (Some "material") = Ok name ->
  items sc obj = Ok kvs ->
  keys_without "/" kvs ->
  initObjectProperties h sc obj (Some (String c pt)) ig =
  Ok [("name", VStr name)].
Proof.
  intros Hname Hitems Hkeys. unfold initObjectProperties.
  rewrite Hname, Hitems. simpl bind. clear Hitems.
  generalize [("name", VStr name)].
  induction kvs as [|[k v] kvs IH]; intros props; [reflexivity|].
  simpl for_each. unfold init_step at 1.
  rewrite (Hkeys k (or_introl eq_refl)). simpl bind.
  apply IH. intros k' Hk'. apply Hkeys. now right.
Qed.

(** The property 'modelname' of the sample root is not part of its link. *)
Lemma initObjectProperties_plain_keys_witness :
  getObjectName sample_helpers workshop (EObject base) (Some "material")
    = Ok "base" /\
  items workshop (EObject base) = Ok [("modelname", VStr "robbie")] /\
  keys_without "/" [("modelname", VStr "robbie")] /\
  initObjectProperties sample_helpers workshop (EObject base) (Some "link")
    (IgnoreList ["joint"; "motor"]) = Ok [("name", VStr "base")].
Proof.
  assert (Hkeys : keys_without "/" [("modelname", VStr "robbie")])
    by (intros k [<-|[]]; reflexivity).
  split; [reflexivity|]. split; [reflexivity|]. split; [exact Hkeys|].
  exact (initObjectProperties_plain_keys sample_helpers workshop (EObject base)
           "l"%char "ink" (IgnoreList ["joint"; "motor"])
           [("modelname", VStr "robbie")] "base" eq_refl eq_refl Hkeys).
Defined.

(** X3: deriveVisual and deriveCollision pass the string 'geometry' for
    [ignoretypes], so that a category is ignored when it is a substring of
    'geometry': unless a property key contains '<phobostype>/', the result
    has no category '$c' for such a c, 'geometry' itself and also 'try' or
    'geo'. *)
Theorem initObjectProperties_geometry_substring (h : Helpers) (sc : Scene)
    (obj : entity) (c : ascii) (pt : string) (kvs props : dict)
    (category : string) :
  items sc obj = Ok kvs ->
  keys_without (String c pt ++ "/")%string kvs ->
  str_contains category "geometry" = true ->
  initObjectProperties h sc obj (Some (String c pt)) (IgnoreStr "geometry")
    = Ok props ->
  dict_get ("$" ++ category)%string props = None.
Proof.
  intros Hitems Hkeys Hsub H.
  apply initObjectProperties_Ok in H as (name & kvs' & _ & Hitems' & H).
  rewrite Hitems in Hitems'; injection Hitems' as <-.
  apply (for_each_invariant
           (fun p => dict_get ("$" ++ category)%string p = None)) in H;
    [exact H| |reflexivity].
  intros s [k v] s' Hin Hs Hstep.
  apply init_step_cases in Hstep as [->|[[Hc _]|(a & b & Hset & Hor)]];
    [exact Hs | |].
  - rewrite (Hkeys k (in_keys _ _ _ Hin)) in Hc. discriminate.
  - destruct Hor as [Hc|Hig].
    + rewrite (Hkeys k (in_keys _ _ _ Hin)) in Hc. discriminate.
    + rewrite (set_category_other _ _ _ _ _ _ Hset); [exact Hs|].
      intros [= E]. subst a. unfold ignored in Hig. congruence.
Qed.

(** The properties 'try/level' and 'geo/size' of the sample visual 'pane'
    are ignored, 'try' and 'geo' being parts of 'geometry'; 'mesh/file' is
    kept. *)
Lemma initObjectProperties_geometry_substring_witness :
  items workshop (EObject pane) =
    Ok [("try/level", VInt 1); ("geo/size", VInt 2);
        ("mesh/file", VStr "pane")] /\
  keys_without "visual/"
    [("try/level", VInt 1); ("geo/size", VInt 2); ("mesh/file", VStr "pane")] /\
  str_contains "try" "geometry" = true /\
  initObjectProperties sample_helpers workshop (EObject pane) (Some "visual")
    (IgnoreStr "geometry") =
    Ok [("name", VStr "pane"); ("$mesh", VDict [("file", VStr "pane")])] /\
  dict_get "$try"
    [("name", VStr "pane"); ("$mesh", VDict [("file", VStr "pane")])] = None.
Proof.
  assert (Hkeys : keys_without "visual/"
            [("try/level", VInt 1); ("geo/size", VInt 2);
             ("mesh/file", VStr "pane")])
    by (intros k [<-|[<-|[<-|[]]]]; reflexivity).
  split; [reflexivity|]. split; [exact Hkeys|]. split; [reflexivity|].
  split; [reflexivity|].
  exact (initObjectProperties_geometry_substring sample_helpers workshop
           (EObject pane) "v"%char "isual" _ _ "try" eq_refl Hkeys eq_refl
           eq_refl).
Defined.

(** With the list ['geometry'] in the place of the string, the same
    properties are kept. *)
Example initObjectProperties_geometry_list :
  initObjectProperties sample_helpers workshop (EObject pane) (Some "visual")
    (IgnoreList ["geometry"]) =
  Ok [("name", VStr "pane"); ("$try", VDict [("level", VInt 1)]);
      ("$geo", VDict [("size", VInt 2)]);
      ("$mesh", VDict [("file", VStr "pane")])].
Proof. reflexivity. Qed.

(** ** deriveJoint and deriveMotor: limits and value ranges *)

Lemma dict_keys_set_new {V : Type} (d : list (string * V)) (k : string) (v : V) :
  dict_keys (dict_set k v d) =
  if dict_has k d then dict_keys d else dict_keys d ++ [k].
Proof.
  unfold dict_has, dict_keys. induction d as [|[k' v'] d IH]; simpl; [reflexivity|].
  destruct (String.eqb_spec k k') as [->|Hne]; simpl; [reflexivity|].
  rewrite IH. now destruct (dict_get k d).
Qed.

Lemma dict_set_nodup {V : Type} (d : list (string * V)) (k : string) (v : V) :
  NoDup (dict_keys d) -> NoDup (dict_keys (dict_set k v d)).
Proof.
  intros Hd. rewrite dict_keys_set_new.
  destruct (dict_has k d) eqn:E; [exact Hd|].
  apply NoDup_app; [exact Hd | repeat constructor; intros [] |].
  intros x Hx [<-|[]]. apply dict_has_keys in Hx. congruence.
Qed.

Lemma dict_get_del_eq {V : Type} (d : list (string * V)) (k : string) :
  NoDup (dict_keys d) -> dict_get k (dict_del k d) = None.
Proof.
  unfold dict_keys. induction d as [|[k' v'] d IH]; simpl; [reflexivity|].
  intros Hd. inversion Hd as [|? ? Hnotin Hd']; subst.
  destruct (String.eqb_spec k k') as [->|Hne]; simpl.
  - destruct (dict_get k' d) as [v|] eqn:E; [|reflexivity].
    exfalso. apply Hnotin. apply (dict_get_keys _ _ _ E).
  - apply String.eqb_neq in Hne. rewrite Hne. now apply IH.
Qed.

Lemma dict_get_del_neq {V : Type} (d : list (string * V)) (k k' : string) :
  k' <> k -> dict_get k' (dict_del k d) = dict_get k' d.
Proof.
  intros Hne. induction d as [|[k0 v0] d IH]; simpl; [reflexivity|].
  destruct (String.eqb_spec k k0) as [->|Hk]; simpl.
  - apply String.eqb_neq in Hne. now rewrite Hne.
  - destruct (String.eqb k' k0); auto.
Qed.

Lemma dict_del_keys_incl {V : Type} (d : list (string * V)) (k k' : string) :
  In k' (dict_keys (dict_del k d)) -> In k' (dict_keys d).
Proof.
  unfold dict_keys. induction d as [|[k0 v0] d IH]; simpl; [tauto|].
  destruct (String.eqb k k0); simpl; [tauto|].
  intros [->|H]; auto.
Qed.

Lemma dict_del_nodup {V : Type} (d : list (string * V)) (k : string) :
  NoDup (dict_keys d) -> NoDup (dict_keys (dict_del k d)).
Proof.
  induction d as [|[k0 v0] d IH]; simpl; [constructor|].
  intros Hd. inversion Hd as [|? ? Hn Hd']; subst.
  destruct (String.eqb k k0); [exact Hd'|].
  change (NoDup (k0 :: dict_keys (dict_del k d))).
  constructor; [|now apply IH].
  intros Hin. apply Hn. eapply dict_del_keys_incl; exact Hin.
Qed.

Lemma set_category_nodup (props props' : dict) (category specifier : string)
    (v : value) :
  set_category props category specifier v = Ok props' ->
  NoDup (dict_keys props) -> NoDup (dict_keys props').
Proof.
  unfold set_category. intros H Hd.
  apply dict_update_Ok in H as (old & new & _ & _ & ->).
  apply dict_set_nodup. destruct (negb _); [now apply dict_set_nodup | exact Hd].
Qed.

(** The keys of the dictionary that initObjectProperties builds are
    pairwise distinct. *)
Lemma initObjectProperties_nodup (h : Helpers) (sc : Scene) (obj : entity)
    (phobostype : option string) (ig : ignore_spec) (props : dict) :
  initObjectProperties h sc obj phobostype ig = Ok props ->
  NoDup (dict_keys props).
Proof.
  intros H. apply initObjectProperties_Ok in H as (name & kvs & _ & _ & H).
  assert (H0 : NoDup (dict_keys [("name", VStr name)]))
    by (repeat constructor; intros []).
  destruct phobostype as [[|c pt]|];
    (apply (for_each_invariant (fun p => NoDup (dict_keys p))) in H;
     [exact H| |exact H0]).
  - intros s x s' _ Hs [= <-]. now apply dict_set_nodup.
  - intros s [k v] s' _ Hs Hstep.
    apply init_step_cases in Hstep as [->|[[_ ->]|(a & b & Hset & _)]];
      [exact Hs | now apply dict_set_nodup |].
    eapply set_category_nodup; eauto.
  - intros s x s' _ Hs [= <-]. now apply dict_set_nodup.
Qed.

Lemma move_limit_spec (key name : string) (limits props limits' props' : dict) :
  NoDup (dict_keys props) ->
  move_limit key name (limits, props) = (limits', props') ->
  NoDup (dict_keys props') /\
  dict_get key props' = None /\
  (forall k, k <> key -> dict_get k props' = dict_get k props) /\
  (forall k, k <> name -> dict_get k limits' = dict_get k limits) /\
  (forall v, dict_get key props = Some v -> dict_get name limits' = Some v) /\
  (limits <> [] -> limits' <> []) /\
  (dict_get key props <> None -> limits' <> []).
Proof.
  intros Hd. unfold move_limit.
  destruct (dict_get key props) as [v|] eqn:E; intros [= <- <-].
  - repeat split.
    + now apply dict_del_nodup.
    + now apply dict_get_del_eq.
    + intros k Hk. now apply dict_get_del_neq.
    + intros k Hk. now apply dict_get_set_neq.
    + intros v' [= <-]. apply dict_get_set_eq.
    + intros _ Heq. apply (f_equal (dict_get name)) in Heq.
      rewrite dict_get_set_eq in Heq. discriminate.
    + intros _ Heq. apply (f_equal (dict_get name)) in Heq.
      rewrite dict_get_set_eq in Heq. discriminate.
  - repeat split; auto; try discriminate.
Qed.

(** X4: the joint that deriveJoint returns has no 'maxvelocity' and no
    'maxeffort': where the properties of the object give them, they are
    moved into the joint's 'limits' as 'velocity' and 'effort'. *)
Theorem deriveJoint_limits (h : Helpers) (sc sc' : Scene) (obj : BObject)
    (joint props : dict) :
  deriveJoint h sc obj = Ok (joint, sc') ->
  initObjectProperties h sc' (EObject obj) (Some "joint")
    (IgnoreList ["link"; "motor"]) = Ok props ->
  dict_get "maxvelocity" joint = None /\
  dict_get "maxeffort" joint = None /\
  (forall v, dict_get "maxvelocity" props = Some v ->
     exists limits, dict_get "limits" joint = Some (VDict limits) /\
                    dict_get "velocity" limits = Some v) /\
  (forall v, dict_get "maxeffort" props = Some v ->
     exists limits, dict_get "limits" joint = Some (VDict limits) /\
                    dict_get "effort" limits = Some v).
Proof.
  unfold deriveJoint. intros H Hprops.
  apply bind_Ok in H as (sc1 & _ & H).
  apply bind_Ok in H as (props0 & Hinit & H).
  apply bind_Ok in H as (par & _ & H).
  apply bind_Ok in H as (parent_name & _ & H).
  apply bind_Ok in H as (child_name & _ & H).
  apply bind_Ok in H as ([axis minmax] & _ & H).
  apply bind_Ok in H as (props3 & Haxis & H).
  apply bind_Ok in H as (limits0 & _ & H).
  assert (H3 : NoDup (dict_keys props3) /\
               dict_get "maxvelocity" props3 = dict_get "maxvelocity" props0 /\
               dict_get "maxeffort" props3 = dict_get "maxeffort" props0).
  { pose proof (initObjectProperties_nodup _ _ _ _ _ _ Hinit) as Hnd.
    destruct (py_truthy axis).
    - apply bind_Ok in Haxis as (l & _ & [= <-]).
      rewrite !dict_get_set_neq by discriminate.
      split; [|auto]. now do 3 apply dict_set_nodup.
    - injection Haxis as <-. rewrite !dict_get_set_neq by discriminate.
      split; [|auto]. now do 2 apply dict_set_nodup. }
  destruct H3 as (Hnd3 & Hv3 & He3).
  destruct (move_limit "maxvelocity" "velocity" (limits0, props3))
    as [limits1 props4] eqn:Emv.
  destruct (move_limit_spec _ _ _ _ _ _ Hnd3 Emv)
    as (Hnd4 & Hv4 & Hk4 & Hl4 & Hmoved4 & Hne4 & Hne4').
  destruct (move_limit "maxeffort" "effort" (limits1, props4))
    as [limits2 props5] eqn:Eme.
  destruct (move_limit_spec _ _ _ _ _ _ Hnd4 Eme)
    as (Hnd5 & He5 & Hk5 & Hl5 & Hmoved5 & Hne5 & Hne5').
  injection H as <- <-.
  rewrite Hprops in Hinit. injection Hinit as <-.
  assert (Hv5 : dict_get "maxvelocity" props5 = None)
    by (rewrite Hk5 by discriminate; exact Hv4).
  assert (Hlimits : limits2 <> [] ->
            dict_get "limits"
              match limits2 with
              | [] => props5
              | _ :: _ => dict_set "limits" (VDict limits2) props5
              end = Some (VDict limits2)).
  { destruct limits2; [congruence|]. intros _. apply dict_get_set_eq. }
  repeat split.
  - destruct limits2; [exact Hv5|]. now rewrite dict_get_set_neq.
  - destruct limits2; [exact He5|]. now rewrite dict_get_set_neq.
  - intros v Hv. exists limits2. rewrite <- Hv3 in Hv. split.
    + apply Hlimits, Hne5, Hne4'. congruence.
    + rewrite Hl5 by discriminate. now apply Hmoved4.
  - intros v Hv. exists limits2. rewrite <- He3 in Hv.
    rewrite <- (Hk4 "maxeffort") in Hv by discriminate. split.
    + apply Hlimits, Hne5'. congruence.
    + now apply Hmoved5.
Qed.

(** The joint of the sample link 'arm', with 'joint/maxvelocity' 2 and
    'joint/maxeffort' 10. *)
Lemma deriveJoint_limits_witness :
  deriveJoint sample_helpers workshop arm =
    Ok ([("name", VStr "arm"); ("parent", VStr "base"); ("child", VStr "arm");
         ("limits", VDict [("velocity", VFloat 2%float);
                           ("effort", VFloat 10%float)])], workshop) /\
  initObjectProperties sample_helpers workshop (EObject arm) (Some "joint")
    (IgnoreList ["link"; "motor"]) =
    Ok [("name", VStr "arm"); ("maxvelocity", VFloat 2%float);
        ("maxeffort", VFloat 10%float)] /\
  dict_get "maxvelocity"
    [("name", VStr "arm"); ("parent", VStr "base"); ("child", VStr "arm");
     ("limits", VDict [("velocity", VFloat 2%float);
                       ("effort", VFloat 10%float)])] = None.
Proof.
  split; [reflexivity|]. split; [reflexivity|].
  exact (proj1 (deriveJoint_limits sample_helpers workshop workshop arm _ _
                  eq_refl eq_refl)).
Defined.

(** X5: a motor that deriveMotor returns has a 'type'.  A 'PID' motor on a
    joint with limits has the joint's 'lower' and 'upper' limit as
    'minValue' and 'maxValue'; a 'DC' motor has 0 and its 'maxSpeed'. *)
Theorem deriveMotor_value_range (h : Helpers) (sc : Scene) (obj : BObject)
    (joint motor : dict) :
  deriveMotor h sc obj joint = Ok (Some motor) ->
  exists type_,
    dict_get "type" motor = Some type_ /\
    (py_eq_str type_ "PID" = true ->
     forall limits, dict_get "limits" joint = Some limits ->
       exists lower upper,
         py_item limits "lower" = Ok lower /\
         py_item limits "upper" = Ok upper /\
         dict_get "minValue" motor = Some lower /\
         dict_get "maxValue" motor = Some upper) /\
    (py_eq_str type_ "PID" = false -> py_eq_str type_ "DC" = true ->
     exists speed,
       dict_get "maxSpeed" motor = Some speed /\
       dict_get "minValue" motor = Some (VInt 0) /\
       dict_get "maxValue" motor = Some speed).
Proof.
  unfold deriveMotor. intros H.
  apply bind_Ok in H as (props & _ & H).
  destruct (1 <? List.length props)%nat; [|discriminate].
  apply try_except_Ok in H as [H|(e & _ & [=])].
  apply bind_Ok in H as (type_ & Htype & H).
  unfold dict_item in Htype.
  destruct (dict_get "type" _) as [t|] eqn:Et; [|discriminate].
  injection Htype as <-.
  rewrite dict_get_set_neq in Et by discriminate.
  exists t.
  destruct (py_eq_str t "PID") eqn:Epid.
  - destruct (dict_has "limits" joint) eqn:Ehas.
    + apply bind_Ok in H as (limits & Hlim & H).
      apply bind_Ok in H as (lower & Hlo & H).
      apply bind_Ok in H as (limits' & Hlim' & H).
      apply bind_Ok in H as (upper & Hup & H).
      injection H as <-.
      rewrite Hlim in Hlim'. injection Hlim' as <-.
      unfold dict_item in Hlim.
      destruct (dict_get "limits" joint) as [l|] eqn:El; [|discriminate].
      injection Hlim as <-.
      split; [now rewrite !dict_get_set_neq by discriminate|].
      split; [|discriminate].
      intros _ limits [= <-]. exists lower, upper.
      split; [exact Hlo|]. split; [exact Hup|].
      split; [|apply dict_get_set_eq].
      rewrite dict_get_set_neq by discriminate. apply dict_get_set_eq.
    + injection H as <-.
      split; [now rewrite !dict_get_set_neq by discriminate|].
      split; [|discriminate].
      intros _ limits Hl. unfold dict_has in Ehas. now rewrite Hl in Ehas.
  - destruct (py_eq_str t "DC") eqn:Edc.
    + apply bind_Ok in H as (speed & Hspeed & H). injection H as <-.
      unfold dict_item in Hspeed.
      destruct (dict_get "maxSpeed" _) as [s|] eqn:Es; [|discriminate].
      injection Hspeed as <-.
      split; [now rewrite !dict_get_set_neq by discriminate|].
      split; [discriminate|]. intros _ _. exists s.
      split; [now rewrite dict_get_set_neq by discriminate|].
      split; [|apply dict_get_set_eq].
      rewrite dict_get_set_neq by discriminate. apply dict_get_set_eq.
    + injection H as <-.
      split; [now rewrite !dict_get_set_neq by discriminate|].
      split; discriminate.
Qed.

(** The DC motor of the sample link 'wheel'. *)
Lemma deriveMotor_value_range_witness :
  deriveMotor sample_helpers workshop wheel [] =
    Ok (Some [("name", VStr "wheel"); ("type", VStr "DC");
              ("maxSpeed", VFloat 3%float); ("joint", VStr "axle");
              ("minValue", VInt 0); ("maxValue", VFloat 3%float)]) /\
  exists type_,
    dict_get "type"
      [("name", VStr "wheel"); ("type", VStr "DC");
       ("maxSpeed", VFloat 3%float); ("joint", VStr "axle");
       ("minValue", VInt 0); ("maxValue", VFloat 3%float)] = Some type_ /\
    py_eq_str type_ "DC" = true.
Proof.
  split; [reflexivity|].
  destruct (deriveMotor_value_range sample_helpers workshop wheel [] _ eq_refl)
    as (type_ & Htype & _).
  exists type_. split; [exact Htype|].
  injection Htype as <-. reflexivity.
Defined.

(** X6: deriveMotor returns None, and no exception, for an object without
    motor properties, for a motor without 'type', for a 'PID' motor on a
    joint whose limits have no 'lower' or no 'upper', and for a 'DC' motor
    without 'maxSpeed'. *)
Theorem deriveMotor_dropped (h : Helpers) (sc : Scene) (obj : BObject)
    (joint props : dict) :
  initObjectProperties h sc (EObject obj) (Some "motor")
    (IgnoreList ["link"; "joint"]) = Ok props ->
  motor_given_up props joint ->
  deriveMotor h sc obj joint = Ok None.
Proof.
  intros Hprops Hup. unfold deriveMotor. rewrite Hprops. simpl bind.
  destruct (1 <? List.length props)%nat eqn:Elen; [|reflexivity].
  destruct Hup as [Hlen|[Hno|[[Hpid (limits & Hl & Hmiss)]|[Hdc Hspeed]]]].
  - apply Nat.ltb_lt in Elen. lia.
  - unfold dict_item. rewrite dict_get_set_neq by discriminate.
    now rewrite Hno.
  - unfold dict_item at 1. rewrite dict_get_set_neq by discriminate.
    rewrite Hpid. simpl. unfold dict_has. rewrite Hl. unfold dict_item.
    rewrite Hl. simpl. unfold py_item; simpl. unfold dict_item.
    destruct Hmiss as [Hm|Hm].
    + now rewrite Hm.
    + destruct (dict_get "lower" limits); [|reflexivity]. simpl.
      now rewrite Hm.
  - unfold dict_item at 1. rewrite dict_get_set_neq by discriminate.
    rewrite Hdc. simpl. unfold dict_item.
    rewrite !dict_get_set_neq by discriminate. now rewrite Hspeed.
Qed.

(** The PID motor of the sample link 'arm' on the joint that deriveJoint
    gives it, whose limits are a velocity and an effort. *)
Lemma deriveMotor_dropped_witness :
  initObjectProperties sample_helpers workshop (EObject arm) (Some "motor")
    (IgnoreList ["link"; "joint"]) =
    Ok [("name", VStr "arm"); ("type", VStr "PID"); ("p", VFloat 5%float)] /\
  motor_given_up
    [("name", VStr "arm"); ("type", VStr "PID"); ("p", VFloat 5%float)]
    [("name", VStr "arm"); ("parent", VStr "base"); ("child", VStr "arm");
     ("limits", VDict [("velocity", VFloat 2%float);
                       ("effort", VFloat 10%float)])] /\
  deriveMotor sample_helpers workshop arm
    [("name", VStr "arm"); ("parent", VStr "base"); ("child", VStr "arm");
     ("limits", VDict [("velocity", VFloat 2%float);
                       ("effort", VFloat 10%float)])] = Ok None.
Proof.
  assert (Hup : motor_given_up
            [("name", VStr "arm"); ("type", VStr "PID"); ("p", VFloat 5%float)]
            [("name", VStr "arm"); ("parent", VStr "base");
             ("child", VStr "arm");
             ("limits", VDict [("velocity", VFloat 2%float);
                               ("effort", VFloat 10%float)])]).
  { right; right; left. split; [reflexivity|].
    eexists. split; [reflexivity|]. now left. }
  split; [reflexivity|]. split; [exact Hup|].
  exact (deriveMotor_dropped sample_helpers workshop arm _ _ eq_refl Hup).
Defined.

(** ** deriveDictEntry and deriveInertial *)

(** X7: deriveDictEntry returns a dictionary or, after a KeyError, the pair
    (None, None); it never returns None, so that the test [props is not
    None] of its callers always holds. *)
Theorem deriveDictEntry_kinds (h : Helpers) (sc : Scene) (obj : BObject)
    (props : value) :
  deriveDictEntry h sc obj = Ok props ->
  (exists d, props = VDict d) \/ props = VTuple [VNone; VNone].
Proof.
  unfold deriveDictEntry. intros H.
  apply try_except_Ok in H as [H|(e & _ & [= <-])]; [|now right].
  left.
  repeat (destruct (String.eqb (phobostype obj) _);
          [apply bind_Ok in H as (d & _ & [= <-]); eauto|]).
  discriminate.
Qed.

Lemma deriveDictEntry_kinds_witness :
  deriveDictEntry sample_helpers workshop inertial_hand =
    Ok (VTuple [VNone; VNone]) /\
  ((exists d, VTuple [VNone; VNone] = VDict d) \/
   VTuple [VNone; VNone] = VTuple [VNone; VNone]).
Proof.
  split; [reflexivity|].
  exact (deriveDictEntry_kinds sample_helpers workshop inertial_hand _ eq_refl).
Defined.

(** X8: for an object whose phobostype is none of 'inertial', 'visual',
    'collision', 'approxsphere', 'sensor', 'controller' and 'light',
    deriveDictEntry raises UnboundLocalError: no branch binds [props]. *)
Theorem deriveDictEntry_other_type (h : Helpers) (sc : Scene) (obj : BObject) :
  ~ In (phobostype obj) entry_types ->
  deriveDictEntry h sc obj = Raise (UnboundLocalError "props").
Proof.
  intros Hnot. unfold deriveDictEntry.
  repeat match goal with
         | |- context [String.eqb (phobostype obj) ?t] =>
             destruct (String.eqb_spec (phobostype obj) t) as [E|_];
             [exfalso; apply Hnot; rewrite E; unfold entry_types; simpl; tauto|]
         end.
  reflexivity.
Qed.

(** The sample object 'marker' has the phobostype 'frame'. *)
Lemma deriveDictEntry_other_type_witness :
  ~ In (phobostype marker) entry_types /\
  deriveDictEntry sample_helpers workshop marker =
  Raise (UnboundLocalError "props").
Proof.
  assert (Hnot : ~ In (phobostype marker) entry_types).
  { unfold entry_types; simpl. intros H.
    repeat (destruct H as [H|H]; [discriminate|]). exact H. }
  split; [exact Hnot|].
  exact (deriveDictEntry_other_type sample_helpers workshop marker Hnot).
Defined.

(** X9: an inertial object without the property 'inertial/inertia' makes
    deriveDictEntry return the pair (None, None): the KeyError of
    deriveInertial is caught. *)
Theorem deriveDictEntry_no_inertia (h : Helpers) (sc : Scene) (obj : BObject)
    (props : dict) :
  phobostype obj = "inertial" ->
  initObjectProperties h sc (EObject obj) (Some "inertial") (IgnoreList [])
    = Ok props ->
  dict_get "inertial/inertia" (custom_props sc obj) = None ->
  deriveInertial h sc obj = Raise KeyError /\
  deriveDictEntry h sc obj = Ok (VTuple [VNone; VNone]).
Proof.
  intros Ht Hprops Hno.
  assert (E : deriveInertial h sc obj = Raise KeyError).
  { unfold deriveInertial. rewrite Hprops. simpl bind.
    unfold dict_item. now rewrite Hno. }
  split; [exact E|].
  unfold deriveDictEntry. rewrite Ht. simpl String.eqb. cbv iota.
  now rewrite E.
Qed.

Lemma deriveDictEntry_no_inertia_witness :
  phobostype inertial_hand = "inertial" /\
  initObjectProperties sample_helpers workshop (EObject inertial_hand)
    (Some "inertial") (IgnoreList []) = Ok [("name", VStr "inertial_hand")] /\
  dict_get "inertial/inertia" (custom_props workshop inertial_hand) = None /\
  deriveDictEntry sample_helpers workshop inertial_hand =
  Ok (VTuple [VNone; VNone]).
Proof.
  split; [reflexivity|]. split; [reflexivity|]. split; [reflexivity|].
  exact (proj2 (deriveDictEntry_no_inertia sample_helpers workshop
                  inertial_hand _ eq_refl eq_refl eq_refl)).
Defined.

Lemma map_result_floats (h : Helpers) (elems floats : list value) :
  map_result (py_float h) elems = Ok floats ->
  List.length floats = List.length elems /\ Forall is_float floats.
Proof.
  revert floats. induction elems as [|x elems IH]; intros floats H; simpl in H.
  - injection H as <-. split; [reflexivity | constructor].
  - apply bind_Ok in H as (y & Hy & H).
    apply bind_Ok in H as (ys & Hys & H). injection H as <-.
    destruct (IH ys Hys) as [Hlen Hall]. split; [simpl; now rewrite Hlen|].
    constructor; [|exact Hall].
    unfold py_float in Hy. unfold is_float.
    destruct x; try discriminate;
      try (apply bind_Ok in Hy as (f' & _ & [= <-]); eauto).
    injection Hy as <-; eauto.
Qed.

(** X10: the 'inertia' that deriveInertial returns is a list of floats,
    one for each element of the property 'inertial/inertia', whatever
    numbers, booleans or numerals the property holds. *)
Theorem deriveInertial_floats (h : Helpers) (sc : Scene) (obj : BObject)
    (props : dict) (inertia : value) (elems : list value) :
  deriveInertial h sc obj = Ok props ->
  dict_get "inertial/inertia" (custom_props sc obj) = Some inertia ->
  py_iter inertia = Ok elems ->
  exists floats,
    dict_get "inertia" props = Some (VList floats) /\
    List.length floats = List.length elems /\
    Forall is_float floats.
Proof.
  unfold deriveInertial. intros H Hin Hiter.
  apply bind_Ok in H as (props0 & _ & H).
  unfold dict_item in H. rewrite Hin in H. simpl bind in H.
  rewrite Hiter in H. simpl bind in H.
  apply bind_Ok in H as (floats & Hfloats & H).
  apply bind_Ok in H as (pose & _ & [= <-]).
  exists floats. split.
  - rewrite dict_get_set_neq by discriminate. apply dict_get_set_eq.
  - eapply map_result_floats; exact Hfloats.
Qed.

(** The inertia [1, 0.5, True] of the sample object 'inertial_arm'. *)
Lemma deriveInertial_floats_witness :
  deriveInertial sample_helpers workshop inertial_arm =
    Ok [("name", VStr "inertial_arm"); ("inertia", VList [VFloat 1%float; VFloat 0.5%float; VFloat 1%float]);
        ("mass", VFloat 3%float); ("pose", VDict [])] /\
  exists floats,
    dict_get "inertia"
      [("name", VStr "inertial_arm"); ("inertia", VList [VFloat 1%float; VFloat 0.5%float; VFloat 1%float]);
       ("mass", VFloat 3%float); ("pose", VDict [])] = Some (VList floats) /\
    List.length floats = 3%nat.
Proof.
  split; [reflexivity|].
  destruct (deriveInertial_floats sample_helpers workshop inertial_arm _
              (VArray [VInt 1; VFloat 0.5%float; VBool true])
              [VInt 1; VFloat 0.5%float; VBool true]
              eq_refl eq_refl eq_refl) as (floats & Hget & Hlen & _).
  exists floats. split; [exact Hget | exact Hlen].
Defined.

(** ** deriveVisual: the levels of detail *)

Lemma seq_index_nth_error {A : Type} (l : list A) (i : nat) (a : A) :
  seq_index l (Z.of_nat i) = Ok a -> nth_error l i = Some a.
Proof.
  unfold seq_index.
  destruct (Z.of_nat i <? 0) eqn:E; [apply Z.ltb_lt in E; lia|].
  destruct (_ || _); [discriminate|].
  rewrite Nat2Z.id. destruct (nth_error l i); [now intros [= <-] | discriminate].
Qed.

(** The loop over the levels adds an entry for each of them. *)
Lemma lod_loop (h : Helpers) (sc : Scene) (maxd : list value)
    (todo : list (nat * LodLevel)) :
  forall acc entries,
    for_each todo (lod_entry h sc (VList maxd)) acc = Ok entries ->
    exists built,
      entries = acc ++ built /\ Forall2 (lod_entry_of maxd) todo built.
Proof.
  induction todo as [|[i lod] todo IH]; intros acc entries H; simpl in H.
  - injection H as <-. exists []. split; [now rewrite app_nil_r | constructor].
  - apply bind_Ok in H as (acc1 & Hstep & H).
    unfold lod_entry in Hstep.
    apply bind_Ok in Hstep as (filename & _ & Hstep).
    apply bind_Ok in Hstep as (w & _ & Hstep).
    apply bind_Ok in Hstep as (end_ & Hend & Hstep).
    injection Hstep as <-.
    simpl in Hend. apply seq_index_nth_error in Hend.
    apply IH in H as (built & -> & Hall).
    eexists (_ :: built). split; [now rewrite <- app_assoc|].
    constructor; [|exact Hall].
    eexists _, end_. split; [reflexivity|]. repeat split. exact Hend.
Qed.

Lemma Forall2_nth {A B : Type} (P : A -> B -> Prop) (l : list A) (l' : list B) :
  Forall2 P l l' ->
  List.length l' = List.length l /\
  forall i a, nth_error l i = Some a ->
    exists b, nth_error l' i = Some b /\ P a b.
Proof.
  induction 1 as [|a b l l' Hab Hall [IHlen IH]].
  - split; [reflexivity|]. intros i a Hi. destruct i; discriminate.
  - split; [simpl; now rewrite IHlen|].
    intros [|i] x Hi; simpl in *.
    + injection Hi as <-. eauto.
    + now apply IH.
Qed.

Lemma nth_error_enumerate {A : Type} (xs : list A) (first i : nat) (a : A) :
  nth_error xs i = Some a ->
  nth_error (combine (seq first (List.length xs)) xs) i = Some ((first + i)%nat, a).
Proof.
  revert first i. induction xs as [|x xs IH]; intros first [|i] H;
    try discriminate; simpl in *.
  - injection H as <-. now rewrite Nat.add_0_r.
  - rewrite (IH (S first) i H). f_equal. f_equal. lia.
Qed.

Lemma nth_error_ends (levels : list LodLevel) (lod0 : LodLevel)
    (rest : list LodLevel) (i : nat) (lod : LodLevel) :
  levels = lod0 :: rest ->
  nth_error levels i = Some lod ->
  nth_error (map (fun l => VFloat (distance l)) rest ++ [VFloat 100%float]) i
  = Some (VFloat (lod_end levels i)).
Proof.
  intros -> Hi. unfold lod_end. simpl nth_error at 2.
  assert (Hlt : (i < List.length (lod0 :: rest))%nat)
    by (apply nth_error_Some; congruence).
  simpl in Hlt.
  destruct (nth_error rest i) as [next|] eqn:E.
  - rewrite nth_error_app1 by (rewrite length_map; apply nth_error_Some; congruence).
    now rewrite nth_error_map, E.
  - apply nth_error_None in E.
    rewrite nth_error_app2 by (rewrite length_map; exact E).
    rewrite length_map. replace (i - List.length rest)%nat with 0%nat by lia.
    reflexivity.
Qed.

(** X11: for an object with levels of detail and no property
    'lodmaxdistances', deriveVisual returns under 'lod' one entry for each
    level, in order; the range of a level starts at its distance and ends
    where the next level starts, the last one at 100.0. *)
Theorem deriveVisual_lod_ranges (h : Helpers) (sc : Scene) (obj : BObject)
    (visual : dict) :
  deriveVisual h sc obj = Ok visual ->
  lod_levels obj <> [] ->
  dict_get "lodmaxdistances" (custom_props sc obj) = None ->
  exists entries,
    dict_get "lod" visual = Some (VList entries) /\
    List.length entries = List.length (lod_levels obj) /\
    forall i lod, nth_error (lod_levels obj) i = Some lod ->
      exists e,
        nth_error entries i = Some (VDict e) /\
        dict_get "start" e = Some (VFloat (distance lod)) /\
        dict_get "end" e = Some (VFloat (lod_end (lod_levels obj) i)).
Proof.
  unfold deriveVisual. intros H Hne Hno.
  apply bind_Ok in H as (visual0 & _ & H).
  apply bind_Ok in H as (geometry & _ & H).
  apply bind_Ok in H as (pose & _ & H).
  destruct (lod_levels obj) as [|lod0 rest] eqn:Elev; [contradiction|].
  rewrite Hno in H.
  apply bind_Ok in H as (lodlist & Hloop & H). injection H as <-.
  apply lod_loop in Hloop as (built & -> & Hall). simpl app.
  apply Forall2_nth in Hall as [Hlen Hnth].
  unfold enumerate in Hlen. rewrite length_combine, length_seq, Nat.min_id in Hlen.
  exists built. split; [apply dict_get_set_eq|]. split; [exact Hlen|].
  intros i lod Hi.
  destruct (Hnth i _ (nth_error_enumerate _ 0 i lod Hi))
    as (entry & Hentry & e & end_ & -> & Hstart & Hend & Hmax).
  exists e. split; [exact Hentry|]. split; [exact Hstart|].
  simpl in Hmax. rewrite (nth_error_ends _ lod0 rest i lod eq_refl Hi) in Hmax.
  injection Hmax as <-. exact Hend.
Qed.

(** The three levels of the sample object 'lens', at 0, 5 and 20. *)
Lemma deriveVisual_lod_ranges_witness :
  deriveVisual sample_helpers workshop lens = Ok lens_visual /\
  lod_levels lens <> [] /\
  dict_get "lodmaxdistances" (custom_props workshop lens) = None /\
  exists entries e,
    dict_get "lod" lens_visual = Some (VList entries) /\
    nth_error entries 1 = Some (VDict e) /\
    dict_get "start" e = Some (VFloat 5%float) /\
    dict_get "end" e = Some (VFloat 20%float).
Proof.
  assert (H : deriveVisual sample_helpers workshop lens = Ok lens_visual)
    by (vm_compute; reflexivity).
  assert (Hne : lod_levels lens <> []) by discriminate.
  split; [exact H|]. split; [exact Hne|]. split; [reflexivity|].
  destruct (deriveVisual_lod_ranges sample_helpers workshop lens lens_visual
              H Hne eq_refl) as (entries & Hlod & _ & Hnth).
  destruct (Hnth 1%nat _ eq_refl) as (e & He & Hstart & Hend).
  exists entries, e. repeat split; assumption.
Defined.

Lemma seq_index_out {A : Type} (l : list A) (i : nat) :
  (List.length l <= i)%nat -> seq_index l (Z.of_nat i) = Raise IndexError.
Proof.
  intros Hi. unfold seq_index.
  destruct (Z.of_nat i <? 0) eqn:E; [apply Z.ltb_lt in E; lia|].
  destruct (Z.leb_spec (Z.of_nat (List.length l)) (Z.of_nat i)); [|lia].
  now rewrite orb_true_r.
Qed.

Lemma seq_index_in {A : Type} (l : list A) (i : nat) :
  (i < List.length l)%nat -> exists a, seq_index l (Z.of_nat i) = Ok a.
Proof.
  intros Hi. unfold seq_index.
  destruct (Z.of_nat i <? 0) eqn:E; [apply Z.ltb_lt in E; lia|].
  destruct (Z.leb_spec (Z.of_nat (List.length l)) (Z.of_nat i)); [lia|].
  simpl. rewrite Nat2Z.id, ?E. simpl.
  destruct (nth_error l i) eqn:En; [now eexists|].
  apply nth_error_None in En. lia.
Qed.

Lemma lod_entry_step (h : Helpers) (sc : Scene) (maxdlist : value)
    (maxd : list value) (w : World) (acc : list value) (i : nat)
    (lod : LodLevel) (n : string) :
  maxdlist = VList maxd \/ maxdlist = VArray maxd ->
  seq_index (worlds sc) 0 = Ok w ->
  lod_data_name lod = Some n ->
  lod_entry h sc maxdlist acc (i, lod) =
  (end_ <- seq_index maxd (Z.of_nat i) ;;
   Ok (acc ++
       [VDict [("start", VFloat (distance lod)); ("end", end_);
               ("filename",
                VStr (os_path_join h "meshes" (n ++ mesh_extension w)))]])).
Proof.
  intros [-> | ->] Hw Hn; unfold lod_entry; rewrite Hn; simpl; now rewrite Hw.
Qed.

Lemma lod_loop_short (h : Helpers) (sc : Scene) (maxdlist : value)
    (maxd : list value) (w : World) (levels : list LodLevel) :
  maxdlist = VList maxd \/ maxdlist = VArray maxd ->
  seq_index (worlds sc) 0 = Ok w ->
  (forall lod, In lod levels -> lod_data_name lod <> None) ->
  forall first acc,
    (0 < List.length levels)%nat ->
    (List.length maxd < first + List.length levels)%nat ->
    for_each (combine (seq first (List.length levels)) levels)
      (lod_entry h sc maxdlist) acc = Raise IndexError.
Proof.
  intros Hm Hw. induction levels as [|lod levels IH];
    intros Hnames first acc Hpos Hlen.
  - simpl in Hpos. lia.
  - destruct (lod_data_name lod) as [n|] eqn:En;
      [|exfalso; apply (Hnames lod); [now left | exact En]].
    cbn [List.length seq combine for_each].
    rewrite (lod_entry_step h sc maxdlist maxd w acc first lod n Hm Hw En).
    destruct (Nat.lt_ge_cases first (List.length maxd)) as [Hin|Hout].
    + destruct (seq_index_in maxd first Hin) as (a & ->). cbn [bind].
      destruct levels as [|lod' levels']; [simpl in Hlen; lia|].
      apply IH; [|simpl; lia|simpl in *; lia].
      intros l Hl. apply Hnames. now right.
    + now rewrite (seq_index_out maxd first Hout).
Qed.

(** X12: a property 'lodmaxdistances' that holds fewer distances than the
    object has levels of detail makes deriveVisual raise IndexError (where
    the helpers return, every level has a mesh and there is a world to take
    the export format from). *)
Theorem deriveVisual_short_distances (h : Helpers) (sc : Scene)
    (obj : BObject) (props : dict) (geometry pose : value) (w : World)
    (maxdlist : value) (maxd : list value) :
  initObjectProperties h sc (EObject obj) (Some "visual")
    (IgnoreStr "geometry") = Ok props ->
  deriveGeometry h sc obj = Ok geometry ->
  deriveObjectPose h sc obj = Ok pose ->
  seq_index (worlds sc) 0 = Ok w ->
  (forall lod, In lod (lod_levels obj) -> lod_data_name lod <> None) ->
  dict_get "lodmaxdistances" (custom_props sc obj) = Some maxdlist ->
  maxdlist = VList maxd \/ maxdlist = VArray maxd ->
  (List.length maxd < List.length (lod_levels obj))%nat ->
  deriveVisual h sc obj = Raise IndexError.
Proof.
  intros Hprops Hgeo Hpose Hw Hnames Hmax Hm Hlen. unfold deriveVisual.
  rewrite Hprops, Hgeo, Hpose. simpl bind.
  destruct (lod_levels obj) as [|lod0 rest] eqn:E; [simpl in Hlen; lia|].
  rewrite Hmax. unfold enumerate.
  rewrite (lod_loop_short h sc maxdlist maxd w (lod0 :: rest) Hm Hw Hnames 0 []);
    [reflexivity | simpl; lia | exact Hlen].
Qed.

Lemma deriveVisual_short_distances_witness :
  deriveVisual sample_helpers workshop visor = Raise IndexError.
Proof.
  eapply (deriveVisual_short_distances sample_helpers workshop visor
            _ _ _ _ _ [VFloat 4%float]).
  - reflexivity.
  - reflexivity.
  - reflexivity.
  - reflexivity.
  - intros lod [<- | [<- | []]]; discriminate.
  - reflexivity.
  - now right.
  - simpl. lia.
Defined.

(** ** deriveLight *)

Lemma ascii_lower_not_upper (c : ascii) : ascii_lower c <> "S"%char.
Proof.
  destruct c as [[] [] [] [] [] [] [] []]; vm_compute; discriminate.
Qed.

(** No lower-cased string is 'SPOT'. *)
Lemma str_lower_not_SPOT (s : string) : String.eqb (str_lower s) "SPOT" = false.
Proof.
  apply String.eqb_neq. destruct s as [|c s]; simpl; [discriminate|].
  intros [= Hc _]. exact (ascii_lower_not_upper c Hc).
Qed.

(** X13: the 'type' of the light that deriveLight returns is the type of
    the lamp in lower case, which is never 'SPOT': the 'size' of the result
    is never the size of the lamp's spot, it is what the properties of the
    object give, if anything. *)
Theorem deriveLight_size (h : Helpers) (sc : Scene) (obj : BObject)
    (props light : dict) :
  initObjectProperties h sc (EObject obj) (Some "light") (IgnoreList [])
    = Ok props ->
  deriveLight h sc obj = Ok light ->
  (exists lamp, data obj = LampData lamp /\
     dict_get "type" light = Some (VStr (str_lower (lamp_type lamp)))) /\
  dict_get "size" light = dict_get "size" props.
Proof.
  intros Hprops H. unfold deriveLight in H. rewrite Hprops in H. simpl bind in H.
  apply bind_Ok in H as (lamp & Hlamp & H).
  unfold lamp_data in Hlamp.
  destruct (data obj) as [| | lamp0 |] eqn:Edata; try discriminate.
  injection Hlamp as ->.
  apply bind_Ok in H as (light1 & H1 & H).
  apply bind_Ok in H as (type_ & Htype & H).
  unfold dict_item in Htype. rewrite dict_get_set_eq in Htype.
  injection Htype as <-. simpl py_eq_str in H.
  rewrite str_lower_not_SPOT in H. simpl bind in H.
  apply bind_Ok in H as (light2 & H2 & H).
  apply bind_Ok in H as (light3 & H3 & H).
  assert (G1 : dict_get "size" light1 = dict_get "size" props).
  { destruct (use_specular lamp).
    - apply bind_Ok in H1 as (d & _ & H1). injection H1 as <-.
      rewrite dict_get_set_neq by discriminate.
      destruct (use_diffuse lamp); [now rewrite dict_get_set_neq by discriminate|reflexivity].
    - injection H1 as <-.
      destruct (use_diffuse lamp); [now rewrite dict_get_set_neq by discriminate|reflexivity]. }
  set (base := dict_set "rotation" _ _) in *.
  assert (Gb : forall k, k <> "type" -> k <> "position" -> k <> "rotation" ->
                 dict_get k base = dict_get k light1).
  { intros k K1 K2 K3. unfold base.
    now rewrite !dict_get_set_neq by congruence. }
  assert (Gt : dict_get "type" base = Some (VStr (str_lower (lamp_type lamp)))).
  { unfold base. rewrite !dict_get_set_neq by discriminate.
    apply dict_get_set_eq. }
  assert (G2 : forall k, k <> "attenuation_linear" ->
                 dict_get k light2 = dict_get k base).
  { intros k K. apply try_except_Ok in H2 as [H2 | (e & _ & H2)].
    - apply bind_Ok in H2 as (a & _ & H2). injection H2 as <-.
      now rewrite dict_get_set_neq by congruence.
    - now injection H2 as <-. }
  assert (G3 : forall k, k <> "attenuation_quadratic" ->
                 dict_get k light3 = dict_get k light2).
  { intros k K. apply try_except_Ok in H3 as [H3 | (e & _ & H3)].
    - apply bind_Ok in H3 as (a & _ & H3). injection H3 as <-.
      now rewrite dict_get_set_neq by congruence.
    - now injection H3 as <-. }
  assert (G4 : forall k, k <> "attenuation_constant" -> k <> "parent" ->
                 dict_get k light = dict_get k light3).
  { intros k K1 K2.
    destruct (parent obj) as [p|].
    - apply bind_Ok in H as (n & _ & H). injection H as <-.
      rewrite dict_get_set_neq by congruence.
      match goal with |- context [if ?b then _ else _] => destruct b end;
        [now rewrite dict_get_set_neq by congruence|reflexivity].
    - injection H as <-.
      match goal with |- context [if ?b then _ else _] => destruct b end;
        [now rewrite dict_get_set_neq by congruence|reflexivity]. }
  split.
  - exists lamp. split; [reflexivity|].
    rewrite G4, G3, G2 by discriminate. exact Gt.
  - rewrite G4, G3, G2, Gb by discriminate. exact G1.
Qed.

(** The sample spot light has a size that the result does not show. *)
Lemma deriveLight_size_witness :
  spot_size spot = Some 0.75%float /\
  exists light,
    deriveLight sample_helpers workshop headlight = Ok light /\
    dict_get "type" light = Some (VStr "spot") /\
    dict_get "size" light = None.
Proof.
  split; [reflexivity|].
  destruct (deriveLight sample_helpers workshop headlight) as [light|e] eqn:E;
    [|vm_compute in E; discriminate].
  destruct (deriveLight_size sample_helpers workshop headlight
              [("name", VStr "headlight")] light eq_refl E)
    as [(lamp & Hlamp & Htype) Hsize].
  exists light. split; [reflexivity|].
  injection Hlamp as <-. split; [exact Htype | exact Hsize].
Defined.

(** X14: for a lamp with specular and without diffuse light, deriveLight
    raises KeyError, unless the properties of the object give a
    'color_diffuse': the specular colour is copied from the diffuse one. *)
Theorem deriveLight_specular_only (h : Helpers) (sc : Scene) (obj : BObject)
    (props : dict) (lamp : Lamp) :
  initObjectProperties h sc (EObject obj) (Some "light") (IgnoreList [])
    = Ok props ->
  data obj = LampData lamp ->
  use_diffuse lamp = false ->
  use_specular lamp = true ->
  dict_get "color_diffuse" props = None ->
  deriveLight h sc obj = Raise KeyError.
Proof.
  intros Hprops Hdata Hd Hs Hno. unfold deriveLight, lamp_data.
  rewrite Hprops, Hdata. simpl bind. rewrite Hd, Hs.
  unfold dict_item. now rewrite Hno.
Qed.

Lemma deriveLight_specular_only_witness :
  deriveLight sample_helpers workshop gleam = Raise KeyError.
Proof.
  eapply (deriveLight_specular_only sample_helpers workshop gleam);
    reflexivity.
Defined.

(** ** deriveGroupEntry *)

Lemma group_loop (h : Helpers) (sc : Scene) (group : Group)
    (objs : list BObject) :
  forall acc links,
    for_each objs
      (fun links obj =>
         if String.eqb (phobostype obj) "link" then
           n <- getObjectName h sc (EObject obj) None ;;
           Ok (links ++ [VDict [("type", VStr "link"); ("name", VStr n)]])
         else
           _ <- getObjectName h sc (EGroup group) None ;;
           _ <- getObjectName h sc (EObject obj) None ;;
           Ok links)
      acc = Ok links ->
    exists built,
      links = acc ++ built /\
      Forall2 (link_skeleton h sc) (filter is_link objs) built.
Proof.
  induction objs as [|obj objs IH]; intros acc links H; simpl in H.
  - injection H as <-. exists []. split; [now rewrite app_nil_r | constructor].
  - apply bind_Ok in H as (acc1 & Hstep & H).
    apply IH in H as (built & -> & Hall).
    simpl filter. unfold is_link at 1.
    destruct (String.eqb (phobostype obj) "link").
    + apply bind_Ok in Hstep as (n & Hn & Hstep). injection Hstep as <-.
      eexists (_ :: built). split; [now rewrite <- app_assoc|].
      constructor; [|exact Hall]. exists n. split; [exact Hn | reflexivity].
    + apply bind_Ok in Hstep as (gn & _ & Hstep).
      apply bind_Ok in Hstep as (on & _ & Hstep). injection Hstep as <-.
      exists built. split; [reflexivity | exact Hall].
Qed.

(** X15: deriveGroupEntry returns one entry for each object of the group
    whose phobostype is 'link', in the order of the group, with the type
    'link' and the name of the object; the other objects of the group are
    left out. *)
Theorem deriveGroupEntry_links (h : Helpers) (sc : Scene) (group : Group)
    (links : list value) :
  deriveGroupEntry h sc group = Ok links ->
  Forall2 (link_skeleton h sc) (filter is_link (group_objects group)) links.
Proof.
  unfold deriveGroupEntry. intros H.
  apply group_loop in H as (built & -> & Hall). exact Hall.
Qed.

(** The group of the sample scene holds two links and a collision object. *)
Lemma deriveGroupEntry_links_witness :
  exists links,
    deriveGroupEntry sample_helpers workshop arm_group = Ok links /\
    map obj_name (group_objects arm_group) = ["arm"; "col1"; "hand"] /\
    Forall2 (link_skeleton sample_helpers workshop) [arm; hand] links.
Proof.
  destruct (deriveGroupEntry sample_helpers workshop arm_group)
    as [links|e] eqn:E; [|vm_compute in E; discriminate].
  exists links. split; [reflexivity|]. split; [reflexivity|].
  exact (deriveGroupEntry_links sample_helpers workshop arm_group links E).
Defined.

(** ** storePose: what it leaves alone *)

Lemma only_bones_refl (sc : Scene) : only_bones_changed sc sc.
Proof. now destruct sc. Qed.

Lemma only_bones_trans (sc1 sc2 sc3 : Scene) :
  only_bones_changed sc1 sc2 -> only_bones_changed sc2 sc3 ->
  only_bones_changed sc1 sc3.
Proof.
  unfold only_bones_changed. intros H12 H23. rewrite H23 at 1. now rewrite H12.
Qed.

Lemma only_bones_with (sc : Scene) (b : list (string * list (string * Bone))) :
  only_bones_changed sc (with_pose_bones sc b).
Proof. reflexivity. Qed.

Lemma store_link_bones (h : Helpers) (st st' : dict * Scene) (link : BObject) :
  store_link h st link = Ok st' -> only_bones_changed (snd st) (snd st').
Proof.
  destruct st as [new_pose sc]. unfold store_link.
  destruct (select link && String.eqb (phobostype link) "link");
    [|intros [= <-]; apply only_bones_refl].
  intros H.
  apply bind_Ok in H as (bones & _ & H).
  apply bind_Ok in H as (bone & _ & H).
  destruct (rotation_euler (set_rotation_mode h bone "XYZ")) as [[x y] z].
  apply bind_Ok in H as (joint_name & _ & H). injection H as <-.
  apply only_bones_with.
Qed.

Lemma store_root_bones (h : Helpers) (robot_name : string)
    (st st' : dict * Scene) (root : BObject) :
  store_root h robot_name st root = Ok st' ->
  only_bones_changed (snd st) (snd st').
Proof.
  unfold store_root. intros H.
  apply bind_Ok in H as (modelname & _ & H).
  destruct (py_eq_str modelname robot_name);
    [|injection H as <-; apply only_bones_refl].
  apply bind_Ok in H as (links & _ & H). revert H.
  apply (for_each_invariant (fun s => only_bones_changed (snd st) (snd s)));
    [|apply only_bones_refl].
  intros s link s' _ Hs Hstep.
  exact (only_bones_trans _ _ _ Hs (store_link_bones h s s' link Hstep)).
Qed.

(** X16: storePose puts the scene back into the mode it found it in, and
    changes, besides the pose bones of the links, nothing but the poses file
    of the robot: objects, properties and every other text block are what
    they were. *)
Theorem storePose_frame (h : Helpers) (sc sc' : Scene)
    (robot_name pose_name : string) :
  storePose h sc robot_name pose_name = Ok sc' ->
  mode sc' = mode sc /\
  object_props sc' = object_props sc /\
  scene_objects sc' = scene_objects sc /\
  forall file_name,
    file_name <> poses_file robot_name ->
    readTextFile sc' file_name = readTextFile sc file_name.
Proof.
  unfold storePose. fold (poses_file robot_name). intros H.
  apply bind_Ok in H as (poses & _ & H).
  apply bind_Ok in H as (roots & _ & H).
  apply bind_Ok in H as ([new_pose posed] & Hloop & H).
  apply bind_Ok in H as (poses' & _ & H).
  apply bind_Ok in H as (text & _ & H). injection H as <-.
  assert (Hb : only_bones_changed (mode_set sc "POSE") posed).
  { revert Hloop.
    apply (for_each_invariant
             (fun s => only_bones_changed (mode_set sc "POSE") (snd s)));
      [|apply only_bones_refl].
    intros s root s' _ Hs Hstep.
    exact (only_bones_trans _ _ _ Hs (store_root_bones h _ s s' root Hstep)). }
  unfold only_bones_changed in Hb. rewrite Hb. simpl.
  repeat split. intros file_name Hne. unfold readTextFile. simpl.
  now rewrite dict_get_set_neq.
Qed.

(** The pose 'stand' of the robot 'robbie' is stored from its three links:
    their bones are set to 'XYZ', the poses file is written, and the mode
    and the notes are as before. *)
Lemma storePose_frame_witness :
  exists sc',
    storePose sorting_helpers studio "robbie" "stand" = Ok sc' /\
    mode studio = "OBJECT" /\ mode sc' = "OBJECT" /\
    readTextFile studio "notes" = "remember the oil" /\
    readTextFile sc' "notes" = "remember the oil" /\
    readTextFile studio (poses_file "robbie") = old_text /\
    readTextFile sc' (poses_file "robbie") = new_text /\
    the_bone studio arm =
      Ok {| rotation_mode := "QUATERNION";
            rotation_euler := (0%float, 0.75%float, 0%float) |} /\
    the_bone sc' arm =
      Ok {| rotation_mode := "XYZ";
            rotation_euler := (0%float, 0.75%float, 0%float) |}.
Proof.
  destruct (storePose sorting_helpers studio "robbie" "stand")
    as [sc'|e] eqn:E; [|vm_compute in E; discriminate].
  destruct (storePose_frame sorting_helpers studio sc' "robbie" "stand" E)
    as (Hmode & _ & _ & Htexts).
  exists sc'. split; [reflexivity|]. split; [reflexivity|].
  split; [exact Hmode|]. split; [reflexivity|].
  split; [rewrite Htexts; [reflexivity | discriminate]|].
  split; [reflexivity|].
  vm_compute in E. injection E as <-. repeat split.
Defined.

(** ** storePose: roots without 'modelname' *)

(** X17: storePose reads the 'modelname' of every root of the scene: a root
    without this property makes it raise KeyError, also when the root
    belongs to another robot (here after roots of other names). *)
Theorem storePose_unnamed_root (h : Helpers) (sc : Scene)
    (robot_name pose_name : string) (poses : value)
    (pre rest : list BObject) (root : BObject) :
  load_poses h sc (poses_file robot_name) = Ok poses ->
  getRoots h (mode_set sc "POSE") = Ok (pre ++ root :: rest) ->
  (forall o, In o pre ->
     exists m, dict_get "modelname" (custom_props sc o) = Some m /\
               py_eq_str m robot_name = false) ->
  dict_get "modelname" (custom_props sc root) = None ->
  storePose h sc robot_name pose_name = Raise KeyError.
Proof.
  intros Hload Hroots Hpre Hroot. unfold storePose.
  fold (poses_file robot_name). rewrite Hload. simpl bind. rewrite Hroots.
  simpl bind.
  assert (Hloop : forall st,
            custom_props (snd st) = custom_props sc ->
            for_each (pre ++ root :: rest) (store_root h robot_name) st =
            Raise KeyError).
  { clear Hroots. induction pre as [|o pre IH]; intros st Hst; simpl.
    - unfold store_root at 1. rewrite Hst. unfold dict_item. now rewrite Hroot.
    - unfold store_root at 1. rewrite Hst. unfold dict_item.
      destruct (Hpre o (or_introl eq_refl)) as (m & -> & Hm). simpl bind.
      rewrite Hm. simpl bind. apply IH; [|exact Hst].
      intros o' Ho'. apply Hpre. now right. }
  rewrite (Hloop ([], mode_set sc "POSE")); reflexivity.
Qed.

(** The robot 'robbie' of the scene is named, the link 'stray' is not. *)
Lemma storePose_unnamed_root_witness :
  storePose sample_helpers yard "anna" "stand" = Raise KeyError.
Proof.
  apply (storePose_unnamed_root sample_helpers yard "anna" "stand"
           (VDict []) [base] [] stray).
  - reflexivity.
  - reflexivity.
  - intros o [<- | []]. exists (VStr "robbie"). split; reflexivity.
  - reflexivity.
Defined.

(** ** deriveStoredPoses *)

Lemma stored_pose_entries (poses : value) (names : list value) (posedict : dict) :
  for_each names (stored_pose poses) [] = Ok posedict ->
  forall k e, dict_get k posedict = Some e -> pose_entry k e.
Proof.
  apply (for_each_invariant
           (fun d : dict => forall k e, dict_get k d = Some e -> pose_entry k e));
    [|intros k e; discriminate].
  intros d pose d' _ Hd Hstep k e Hk. unfold stored_pose in Hstep.
  apply bind_Ok in Hstep as (joints & _ & Hstep).
  apply bind_Ok in Hstep as (key & Hkey & Hstep). injection Hstep as <-.
  destruct pose; try discriminate. injection Hkey as ->.
  apply dict_get_set_cases in Hk as [[-> ->] | [Hne Hk]].
  - now exists joints.
  - now apply Hd.
Qed.

(** X18: what deriveStoredPoses returns is keyed by robot name, the name of
    a poses file without its prefix; the entry of a robot is a dictionary of
    its poses, each of them a dictionary with the pose's name as 'name' and
    its 'joints'. *)
Theorem deriveStoredPoses_entries (h : Helpers) (sc : Scene) (stored : dict) :
  deriveStoredPoses h sc = Ok stored ->
  forall robot_name v,
    dict_get robot_name stored = Some v ->
    (exists file_name,
       In file_name (dict_keys (texts sc)) /\
       is_poses_file file_name = true /\
       robot_name = str_drop (String.length "robot_poses_") file_name) /\
    exists posedict,
      v = VDict posedict /\
      forall k e, dict_get k posedict = Some e -> pose_entry k e.
Proof.
  unfold deriveStoredPoses.
  set (good := fun (blocks : list (string * string)) (robot_name : string)
                   (v : value) =>
         (exists file_name,
            In file_name (dict_keys blocks) /\
            is_poses_file file_name = true /\
            robot_name = str_drop (String.length "robot_poses_") file_name) /\
         exists posedict,
           v = VDict posedict /\
           forall k e, dict_get k posedict = Some e -> pose_entry k e).
  assert (Hgen : forall blocks all acc,
            incl blocks all ->
            (forall r v, dict_get r acc = Some v -> good all r v) ->
            stored_poses_from h sc blocks acc = Ok stored ->
            forall r v, dict_get r stored = Some v -> good all r v).
  { induction blocks as [|[file_name content] blocks IH];
      intros all acc Hincl Hacc Hrun; simpl in Hrun.
    - now injection Hrun as <-.
    - assert (Hrest : incl blocks all)
        by (intros b Hb; apply Hincl; now right).
      assert (Hfile : In file_name (dict_keys all)).
      { unfold dict_keys. apply in_map_iff. exists (file_name, content).
        split; [reflexivity | apply Hincl; now left]. }
      destruct (str_startswith file_name "robot_poses_") eqn:Hpre;
        [|exact (IH all acc Hrest Hacc Hrun)].
      assert (Hset : forall posedict,
                (forall k e, dict_get k posedict = Some e -> pose_entry k e) ->
                forall r v,
                  dict_get r (dict_set (str_drop (String.length "robot_poses_")
                                          file_name) (VDict posedict) acc)
                  = Some v -> good all r v).
      { intros posedict Hp r v Hr.
        apply dict_get_set_cases in Hr as [[-> ->] | [Hne Hr]];
          [|now apply Hacc].
        split; [exists file_name; repeat split; assumption|].
        exists posedict. split; [reflexivity | exact Hp]. }
      destruct (String.eqb (readTextFile sc file_name) "").
      + injection Hrun as <-. apply Hset. intros k e; discriminate.
      + apply bind_Ok in Hrun as (poses & _ & Hrun).
        apply bind_Ok in Hrun as (names & _ & Hrun).
        apply bind_Ok in Hrun as (posedict & Hloop & Hrun).
        refine (IH all _ Hrest _ Hrun).
        apply Hset. exact (stored_pose_entries poses names posedict Hloop). }
  intros Hrun. apply (Hgen (texts sc) (texts sc) []);
    [apply incl_refl | intros r v; discriminate | exact Hrun].
Qed.

(** The pose 'stand' of the robot 'robbie' in the second sample scene. *)
Lemma deriveStoredPoses_entries_witness :
  exists stored posedict,
    deriveStoredPoses sample_helpers workshop = Ok stored /\
    dict_get "robbie" stored = Some (VDict posedict) /\
    dict_get "stand" posedict =
      Some (VDict [("name", VStr "stand"); ("joints", VDict [])]) /\
    pose_entry "stand"
      (VDict [("name", VStr "stand"); ("joints", VDict [])]).
Proof.
  destruct (deriveStoredPoses sample_helpers workshop) as [stored|e] eqn:E;
    [|vm_compute in E; discriminate].
  destruct (dict_get "robbie" stored) as [v|] eqn:Ev;
    [|vm_compute in E; injection E as <-; discriminate].
  destruct (deriveStoredPoses_entries sample_helpers workshop stored E
              "robbie" v Ev) as (_ & posedict & -> & Hp).
  assert (Hs : dict_get "stand" posedict =
               Some (VDict [("name", VStr "stand"); ("joints", VDict [])])).
  { vm_compute in E. injection E as <-. vm_compute in Ev.
    now injection Ev as <-. }
  exists stored, posedict. split; [reflexivity|]. split; [exact Ev|].
  split; [exact Hs | exact (Hp _ _ Hs)].
Defined.

(** X19: where no poses file of the scene is empty, deriveStoredPoses has an
    entry for the robot of every poses file. *)
Theorem deriveStoredPoses_complete (h : Helpers) (sc : Scene) (stored : dict) :
  (forall file_name,
     In file_name (dict_keys (texts sc)) ->
     is_poses_file file_name = true ->
     readTextFile sc file_name <> "") ->
  deriveStoredPoses h sc = Ok stored ->
  forall file_name,
    In file_name (dict_keys (texts sc)) ->
    is_poses_file file_name = true ->
    In (str_drop (String.length "robot_poses_") file_name) (dict_keys stored).
Proof.
  unfold deriveStoredPoses. intros Hfull.
  assert (Hgen : forall blocks acc,
            incl (dict_keys blocks) (dict_keys (texts sc)) ->
            stored_poses_from h sc blocks acc = Ok stored ->
            incl (dict_keys acc) (dict_keys stored) /\
            forall file_name,
              In file_name (dict_keys blocks) ->
              is_poses_file file_name = true ->
              In (str_drop (String.length "robot_poses_") file_name)
                 (dict_keys stored)).
  { induction blocks as [|[file_name content] blocks IH];
      intros acc Hincl Hrun; simpl in Hrun.
    - injection Hrun as <-. split; [apply incl_refl | intros f []].
    - assert (Hrest : incl (dict_keys blocks) (dict_keys (texts sc)))
        by (intros b Hb; apply Hincl; now right).
      destruct (str_startswith file_name "robot_poses_") eqn:Hpre.
      + destruct (String.eqb_spec (readTextFile sc file_name) "") as [He|_].
        * exfalso.
          apply (Hfull file_name);
            [apply Hincl; now left | exact Hpre | exact He].
        * apply bind_Ok in Hrun as (poses & _ & Hrun).
          apply bind_Ok in Hrun as (names & _ & Hrun).
          apply bind_Ok in Hrun as (posedict & _ & Hrun).
          destruct (IH _ Hrest Hrun) as [Hacc Hall].
          split.
          -- intros k Hk. apply Hacc. now apply dict_keys_set_incl.
          -- intros f [<- | Hf] Hp; [|now apply Hall].
             apply Hacc. apply dict_keys_set_In.
      + destruct (IH _ Hrest Hrun) as [Hacc Hall].
        split; [exact Hacc|].
        intros f [<- | Hf] Hp; [|now apply Hall].
        simpl in Hp. unfold is_poses_file in Hp. congruence. }
  intros Hrun. apply (Hgen (texts sc) []); [apply incl_refl | exact Hrun].
Qed.

Lemma deriveStoredPoses_complete_witness :
  exists stored,
    deriveStoredPoses sample_helpers workshop = Ok stored /\
    In "robbie" (dict_keys stored).
Proof.
  destruct (deriveStoredPoses sample_helpers workshop) as [stored|e] eqn:E;
    [|vm_compute in E; discriminate].
  exists stored. split; [reflexivity|].
  apply (deriveStoredPoses_complete sample_helpers workshop stored)
    with (file_name := "robot_poses_robbie").
  - intros f [<- | [<- | []]] Hp; vm_compute; discriminate.
  - exact E.
  - right; now left.
  - reflexivity.
Defined.

(** ** loadPose *)

Lemma with_bone_frame (sc : Scene) (obj : BObject) (bone : Bone) :
  only_bones_changed sc (with_bone sc obj bone) /\
  forall n, n <> obj_name obj ->
    dict_get n (pose_bones (with_bone sc obj bone)) = dict_get n (pose_bones sc).
Proof.
  unfold with_bone. destruct (dict_get (obj_name obj) (pose_bones sc)).
  - split; [apply only_bones_with|]. intros n Hn. simpl.
    now apply dict_get_set_neq.
  - split; [apply only_bones_refl | reflexivity].
Qed.

Lemma the_bone_with_bone (sc : Scene) (obj : BObject) (bone bone' : Bone) :
  the_bone sc obj = Ok bone ->
  the_bone (with_bone sc obj bone') obj = Ok bone'.
Proof.
  unfold the_bone, with_bone. intros H.
  destruct (dict_get (obj_name obj) (pose_bones sc)) as [bones|];
    [|discriminate].
  simpl. rewrite dict_get_set_eq. simpl. unfold dict_item.
  now rewrite dict_get_set_eq.
Qed.

Lemma load_link_frame (h : Helpers) (poses : value) (pose_name : string)
    (sc sc' : Scene) (obj : BObject) :
  load_link h poses pose_name sc obj = Ok sc' ->
  only_bones_changed sc sc' /\
  forall n, n <> obj_name obj ->
    dict_get n (pose_bones sc') = dict_get n (pose_bones sc).
Proof.
  unfold load_link. intros H.
  apply bind_Ok in H as (joint_name & _ & H).
  apply bind_Ok in H as (pose & _ & H).
  apply bind_Ok in H as ([|] & _ & H);
    [|injection H as <-; split; [apply only_bones_refl | reflexivity]].
  apply bind_Ok in H as (bone & _ & H).
  apply bind_Ok in H as (pose' & _ & H).
  apply bind_Ok in H as (joint_name' & _ & H).
  apply bind_Ok in H as (angle & _ & H).
  apply bind_Ok in H as (bone' & _ & H).
  apply bind_Ok in H as (y & _ & H).
  destruct (rotation_euler bone') as [[x y0] z]. injection H as <-.
  destruct (with_bone_frame sc obj (set_rotation_mode h bone "XYZ"))
    as [F1 G1].
  destruct (with_bone_frame
              (with_bone sc obj (set_rotation_mode h bone "XYZ")) obj
              {| rotation_mode := rotation_mode bone';
                 rotation_euler := (x, y, z) |}) as [F2 G2].
  split; [exact (only_bones_trans _ _ _ F1 F2)|].
  intros n Hn. now rewrite G2, G1.
Qed.

Lemma load_loop_frame (h : Helpers) (poses : value) (pose_name : string)
    (objs : list BObject) :
  forall sc sc',
    for_each objs (load_link h poses pose_name) sc = Ok sc' ->
    only_bones_changed sc sc' /\
    forall n, ~ In n (map obj_name objs) ->
      dict_get n (pose_bones sc') = dict_get n (pose_bones sc).
Proof.
  induction objs as [|obj objs IH]; intros sc sc' H; simpl in H.
  - injection H as <-. split; [apply only_bones_refl | reflexivity].
  - apply bind_Ok in H as (sc1 & Hstep & H).
    apply load_link_frame in Hstep as [F1 G1].
    apply IH in H as [F2 G2].
    split; [exact (only_bones_trans _ _ _ F1 F2)|].
    intros n Hn. simpl in Hn.
    rewrite G2, G1; [reflexivity | |]; intros Hc; apply Hn; auto.
Qed.

(** X20: loadPose puts the scene back into the mode it found it in and
    changes nothing but pose bones: the objects, the properties and the text
    blocks, and so the poses that are stored, are what they were. *)
Theorem loadPose_frame (h : Helpers)
    (getObjectsByPhobostypes : Scene -> list string -> result (list BObject))
    (sc sc' : Scene) (robot_name pose_name : string) :
  loadPose h getObjectsByPhobostypes sc robot_name pose_name = Ok sc' ->
  only_bones_changed sc sc' /\
  mode sc' = mode sc /\
  forall r, get_poses h sc' r = get_poses h sc r.
Proof.
  unfold loadPose. intros H.
  assert (Hb : only_bones_changed sc sc').
  { destruct (String.eqb _ ""); [injection H as <-; apply only_bones_refl|].
    apply bind_Ok in H as (poses & _ & H).
    apply bind_Ok in H as ([|] & _ & H);
      [|injection H as <-; apply only_bones_refl].
    apply bind_Ok in H as (objs & _ & H).
    apply bind_Ok in H as (sc1 & Hloop & H). injection H as <-.
    apply load_loop_frame in Hloop as [F _].
    unfold only_bones_changed in *. rewrite F. simpl. now destruct sc. }
  split; [exact Hb|]. unfold only_bones_changed in Hb. rewrite Hb.
  split; reflexivity.
Qed.

(** The stored poses of the sample robot are the same after the pose is
    loaded. *)
Lemma loadPose_frame_witness :
  exists sc',
    loadPose posing_helpers sample_by_types posed_scene "robbie" "stand"
      = Ok sc' /\
    mode sc' = "OBJECT" /\
    get_poses posing_helpers sc' "robbie" = Ok ["stand"].
Proof.
  destruct (loadPose posing_helpers sample_by_types posed_scene "robbie" "stand")
    as [sc'|e] eqn:E; [|vm_compute in E; discriminate].
  exists sc'. split; [reflexivity|].
  destruct (loadPose_frame posing_helpers sample_by_types posed_scene sc'
              "robbie" "stand" E) as (_ & Hmode & Hposes).
  split; [exact Hmode|]. now rewrite Hposes.
Defined.

Lemma load_link_applies (h : Helpers) (poses pose : dict) (pose_name : string)
    (sc0 sc sc' : Scene) (obj : BObject) (jn : string) (angle : value) :
  (forall s e t, only_bones_changed sc s ->
     getObjectName h s e t = getObjectName h sc0 e t) ->
  dict_get pose_name poses = Some (VDict pose) ->
  getObjectName h sc0 (EObject obj) (Some "joint") = Ok jn ->
  dict_get jn pose = Some angle ->
  load_link h (VDict poses) pose_name sc obj = Ok sc' ->
  exists bone y,
    the_bone sc obj = Ok bone /\ float_property angle = Ok y /\
    the_bone sc' obj = Ok (with_angle (set_rotation_mode h bone "XYZ") y).
Proof.
  intros Hname Hpose Hjn Hangle H. unfold load_link in H.
  rewrite (Hname sc _ _ (only_bones_refl sc)), Hjn in H. simpl bind in H.
  unfold py_item in H. simpl py_getitem in H. unfold dict_item in H.
  rewrite Hpose in H. simpl bind in H.
  unfold dict_has in H. rewrite Hangle in H. simpl in H.
  apply bind_Ok in H as (bone & Hbone & H).
  rewrite (Hname _ _ _ (proj1 (with_bone_frame sc obj _))), Hjn in H.
  simpl bind in H. unfold dict_item in H. rewrite Hangle in H. simpl bind in H.
  rewrite (the_bone_with_bone sc obj bone _ Hbone) in H. simpl bind in H.
  apply bind_Ok in H as (y & Hy & H).
  exists bone, y. split; [exact Hbone|]. split; [exact Hy|].
  unfold with_angle.
  destruct (rotation_euler (set_rotation_mode h bone "XYZ")) as [[x y0] z].
  injection H as <-.
  apply (the_bone_with_bone _ obj (set_rotation_mode h bone "XYZ")).
  exact (the_bone_with_bone sc obj bone _ Hbone).
Qed.

Lemma name_stable_bones (h : Helpers) (sc s s' : Scene) :
  name_stable h ->
  only_bones_changed (mode_set sc "POSE") s ->
  only_bones_changed s s' ->
  forall e t, getObjectName h s' e t = getObjectName h sc e t.
Proof.
  intros Hstable Hs Hs' e t.
  pose proof (only_bones_trans _ _ _ Hs Hs') as H.
  unfold only_bones_changed in H. rewrite H. apply Hstable.
Qed.

(** X21: loadPose turns the bone of a link whose joint has an angle in the
    stored pose to that angle: its rotation mode is set to 'XYZ' and the
    second of its Euler angles to the angle, the other two as they are
    (where the links have different names and getObjectName does not look at
    mode or pose). *)
Theorem loadPose_applies (h : Helpers)
    (getObjectsByPhobostypes : Scene -> list string -> result (list BObject))
    (sc sc' : Scene) (robot_name pose_name : string) (poses pose : dict)
    (objs : list BObject) (obj : BObject) (jn : string) (angle : value) :
  name_stable h ->
  loadPose h getObjectsByPhobostypes sc robot_name pose_name = Ok sc' ->
  readTextFile sc (poses_file robot_name) <> "" ->
  yaml_load h (readTextFile sc (poses_file robot_name)) = Ok (VDict poses) ->
  dict_get pose_name poses = Some (VDict pose) ->
  getObjectsByPhobostypes (mode_set sc "POSE") ["link"] = Ok objs ->
  NoDup (map obj_name objs) ->
  In obj objs ->
  getObjectName h sc (EObject obj) (Some "joint") = Ok jn ->
  dict_get jn pose = Some angle ->
  exists bone y,
    the_bone sc obj = Ok bone /\ float_property angle = Ok y /\
    the_bone sc' obj = Ok (with_angle (set_rotation_mode h bone "XYZ") y).
Proof.
  intros Hstable H Hfile Hload Hpose Hobjs Hdup Hin Hjn Hangle.
  unfold loadPose in H. fold (poses_file robot_name) in H.
  apply String.eqb_neq in Hfile. rewrite Hfile, Hload in H. simpl bind in H.
  unfold dict_has in H. rewrite Hpose in H. simpl in H.
  rewrite Hobjs in H. simpl bind in H.
  apply bind_Ok in H as (sc2 & Hloop & H). injection H as <-.
  apply in_split in Hin as (pre & post & ->).
  rewrite map_app in Hdup. simpl in Hdup.
  pose proof (NoDup_remove_2 _ _ _ Hdup) as Hfresh.
  assert (Hsplit : exists s1 s2,
            for_each pre (load_link h (VDict poses) pose_name)
              (mode_set sc "POSE") = Ok s1 /\
            load_link h (VDict poses) pose_name s1 obj = Ok s2 /\
            for_each post (load_link h (VDict poses) pose_name) s2 = Ok sc2).
  { clear - Hloop. revert Hloop. generalize (mode_set sc "POSE").
    induction pre as [|o pre IH]; intros s Hloop; simpl in Hloop.
    - apply bind_Ok in Hloop as (s2 & Hstep & Hloop). simpl. eauto.
    - apply bind_Ok in Hloop as (s1 & Hstep & Hloop).
      destruct (IH _ Hloop) as (s1' & s2 & H1 & H2 & H3).
      exists s1', s2. simpl. rewrite Hstep. simpl. auto. }
  destruct Hsplit as (s1 & s2 & Hpre & Hstep & Hpost).
  apply load_loop_frame in Hpre as [Fpre Gpre].
  apply load_loop_frame in Hpost as [_ Gpost].
  destruct (load_link_applies h poses pose pose_name sc s1 s2 obj jn angle)
    as (bone & y & Hbone & Hy & Hbone'); try assumption.
  { intros s e t Hs. exact (name_stable_bones h sc s1 s Hstable Fpre Hs e t). }
  exists bone, y.
  assert (Hsame : forall a b : Scene,
            dict_get (obj_name obj) (pose_bones a) =
            dict_get (obj_name obj) (pose_bones b) ->
            the_bone a obj = the_bone b obj).
  { intros a b Hab. unfold the_bone. now rewrite Hab. }
  split; [|split; [exact Hy|]].
  - rewrite <- Hbone. apply Hsame. symmetry. apply Gpre.
    intros Hc. apply Hfresh. apply in_or_app. now left.
  - rewrite <- Hbone'. apply Hsame. simpl. apply Gpost.
    intros Hc. apply Hfresh. apply in_or_app. now right.
Qed.

(** The pose 'stand' of the sample robot turns the arm to 0.5. *)
Lemma loadPose_applies_witness :
  exists sc',
    loadPose posing_helpers sample_by_types posed_scene "robbie" "stand"
      = Ok sc' /\
    the_bone posed_scene arm =
      Ok {| rotation_mode := "QUATERNION"; rotation_euler := zero3 |} /\
    the_bone sc' arm =
      Ok {| rotation_mode := "XYZ";
            rotation_euler := (0%float, 0.5%float, 0%float) |}.
Proof.
  destruct (loadPose posing_helpers sample_by_types posed_scene "robbie" "stand")
    as [sc'|e] eqn:E; [|vm_compute in E; discriminate].
  exists sc'. split; [reflexivity|]. split; [reflexivity|].
  destruct (loadPose_applies posing_helpers sample_by_types posed_scene sc'
              "robbie" "stand" [("stand", VDict [("arm", VFloat 0.5%float)])]
              [("arm", VFloat 0.5%float)] [base; arm; hand] arm "arm"
              (VFloat 0.5%float))
    as (bone & y & Hbone & Hy & Hbone').
  - intros sc m b e t. reflexivity.
  - exact E.
  - vm_compute. discriminate.
  - reflexivity.
  - reflexivity.
  - reflexivity.
  - repeat constructor; simpl; intuition discriminate.
  - right; now left.
  - reflexivity.
  - reflexivity.
  - rewrite Hbone'. injection Hy as <-.
    vm_compute in Hbone. injection Hbone as <-. reflexivity.
Defined.

(** ** deriveMaterial: the textures *)






(** ** deriveMaterial: incomplete textures *)

Lemma first_texture_path_raises (mat : Material) (e : exn) :
  texture_slots mat <> [] ->
  first_texture_path mat = Raise e -> e = AttributeError.
Proof.
  unfold first_texture_path. intros Hne.
  destruct (texture_slots mat) as [|slot0 slots]; [contradiction|].
  unfold seq_index. simpl.
  destruct slot0 as [slot|]; simpl; [|now intros [= <-]].
  destruct (texture slot) as [tex|]; simpl; [|now intros [= <-]].
  destruct (image tex) as [img|]; simpl; [discriminate | now intros [= <-]].
Qed.

Lemma texture_step_returns (h : Helpers) (sc : Scene) (mat : Material)
    (material : dict) (tex : option TextureSlot) (name : string) :
  texture_slots mat <> [] ->
  getObjectName h sc (EMaterial mat) (Some "material") = Ok name ->
  exists material', texture_step h sc mat material tex = Ok material'.
Proof.
  intros Hne Hname. unfold texture_step. destruct tex as [tex|]; [|eauto].
  rewrite Hname. simpl bind.
  destruct (first_texture_path mat) as [p|e] eqn:Ep.
  - destruct (use_map_color_diffuse tex), (use_map_normal tex),
      (use_map_displacement tex); simpl; eauto.
  - apply (first_texture_path_raises mat e Hne) in Ep as ->.
    destruct (use_map_color_diffuse tex), (use_map_normal tex),
      (use_map_displacement tex); simpl; eauto.
Qed.

(** X23: texture slots without texture or image do not make deriveMaterial
    fail: it returns a material whenever initObjectProperties does and the
    hardness of the material is in the range of the floats. *)
Theorem deriveMaterial_returns (h : Helpers) (sc : Scene) (mat : Material)
    (props : dict) (hardness : float) :
  initObjectProperties h sc (EMaterial mat) (Some "material") (IgnoreList [])
    = Ok props ->
  float_of_Z (specular_hardness mat) = Ok hardness ->
  exists material, deriveMaterial h sc mat = Ok material.
Proof.
  intros Hprops Hhard.
  destruct (initObjectProperties_Ok h sc _ _ _ _ Hprops)
    as (name & kvs & Hname & _).
  unfold deriveMaterial. rewrite Hprops, Hhard. simpl bind.
  match goal with
  | |- exists m, for_each _ _ ?b = Ok m => generalize b
  end.
  destruct (texture_slots mat) as [|slot0 slots] eqn:Eslots;
    [simpl; eauto|].
  assert (Hne : texture_slots mat <> []) by (rewrite Eslots; discriminate).
  clear Eslots. generalize (slot0 :: slots). intros todo.
  induction todo as [|tex todo IH]; intros material; simpl; [eauto|].
  destruct (texture_step_returns h sc mat material tex name Hne Hname)
    as (m1 & ->).
  simpl. apply IH.
Qed.

(** The first texture of the sample material 'blank' has no image. *)
Lemma deriveMaterial_returns_witness :
  first_texture_path blank = Raise AttributeError /\
  exists material,
    deriveMaterial sample_helpers workshop blank = Ok material /\
    dict_get "diffuseTexture" material = None.
Proof.
  split; [reflexivity|].
  destruct (deriveMaterial_returns sample_helpers workshop blank
              [("name", VStr "blank")] 50%float eq_refl eq_refl)
    as (material & H).
  exists material. split; [exact H|].
  vm_compute in H. injection H as <-. reflexivity.
Defined.

(** ** buildModelDictionary: the sections of the dictionary *)

(** A store below one key of a dictionary leaves the other keys alone. *)
Lemma py_store_keeps (c c' new : value) (k k' : string) (ks : list string) :
  py_store c (k' :: ks) new = Ok c' -> k <> k' ->
  py_item c' k = py_item c k.
Proof.
  intros H Hne.
  apply py_store_cons in H as (d & inner & inner' & -> & _ & _ & ->).
  unfold py_item, py_getitem, dict_item. now rewrite dict_get_set_neq.
Qed.

Lemma py_setitem_keeps (c c' v : value) (k k' : string) :
  py_setitem c k' v = Ok c' -> k <> k' -> py_item c' k = py_item c k.
Proof.
  intros H Hne. apply py_setitem_Ok in H as (d & -> & ->).
  unfold py_item, py_getitem, dict_item. now rewrite dict_get_set_neq.
Qed.

Lemma add_named_keeps (robot robot' : value) (section : string)
    (entry : option dict) (k : string) :
  add_named robot section entry = Ok robot' -> k <> section ->
  py_item robot' k = py_item robot k.
Proof.
  unfold add_named. intros H Hne.
  destruct entry as [[|kv d]|]; try (now injection H as <-).
  apply bind_Ok in H as (target & _ & H).
  apply bind_Ok in H as (name & _ & H).
  apply bind_Ok in H as (key & _ & H).
  apply bind_Ok in H as (target' & _ & H).
  exact (py_store_keeps _ _ _ _ _ _ H Hne).
Qed.

Lemma link_step_keeps (h : Helpers) (st st' : value * Scene) (link : BObject)
    (k : string) :
  link_step h st link = Ok st' ->
  k <> "links" -> k <> "joints" -> k <> "motors" ->
  py_item (fst st') k = py_item (fst st) k.
Proof.
  destruct st as [robot sc]. unfold link_step. intros H K1 K2 K3.
  apply bind_Ok in H as ([[[linkdict jointdict] motordict] sc1] & _ & H).
  apply bind_Ok in H as (links & _ & H).
  apply bind_Ok in H as (name & _ & H).
  apply bind_Ok in H as (linkname & _ & H).
  apply bind_Ok in H as (links' & _ & H).
  apply bind_Ok in H as (robot1 & H1 & H).
  apply bind_Ok in H as (robot2 & H2 & H).
  apply bind_Ok in H as (robot3 & H3 & H).
  apply bind_Ok in H as (robot4 & H4 & H).
  injection H as <-. simpl.
  assert (E3 : py_item robot3 k = py_item robot k).
  { rewrite (add_named_keeps _ _ _ _ k H3 K3), (add_named_keeps _ _ _ _ k H2 K2).
    exact (py_store_keeps _ _ _ _ _ _ H1 K1). }
  apply try_except_Ok in H4 as [H4 | (e & _ & [= <-])]; [|exact E3].
  apply bind_Ok in H4 as (inertial & _ & H4).
  apply bind_Ok in H4 as (props & _ & H4).
  assert (Hupd : (linkdict' <- py_path robot3 ["links"; linkname] ;;
                  linkdict'0 <- py_setitem linkdict' "inertial" props ;;
                  py_store robot3 ["links"; linkname] linkdict'0) = Ok robot4
                 -> py_item robot4 k = py_item robot k).
  { intros Hupd.
    apply bind_Ok in Hupd as (old & _ & Hupd).
    apply bind_Ok in Hupd as (new & _ & Hupd).
    now rewrite (py_store_keeps _ _ _ _ _ _ Hupd K1). }
  destruct props; try (now apply Hupd). now injection H4 as <-.
Qed.

Lemma geometry_step_keeps (h : Helpers) (sc : Scene) (robot robot' : value)
    (obj : BObject) (k : string) :
  geometry_step h sc robot obj = Ok robot' -> k <> "links" ->
  py_item robot' k = py_item robot k.
Proof.
  unfold geometry_step. intros H K.
  destruct (_ || _).
  - apply bind_Ok in H as (props & _ & H).
    apply bind_Ok in H as (par & _ & H).
    apply bind_Ok in H as (parentname & _ & H).
    apply bind_Ok in H as (par' & _ & H).
    apply bind_Ok in H as (p & _ & H).
    apply bind_Ok in H as (entries & _ & H).
    apply bind_Ok in H as (name & _ & H).
    apply bind_Ok in H as (entries' & _ & H).
    exact (py_store_keeps _ _ _ _ _ _ H K).
  - destruct (String.eqb _ _); [|now injection H as <-].
    apply bind_Ok in H as (props & _ & H).
    apply bind_Ok in H as (par & _ & H).
    apply bind_Ok in H as (parentname & _ & H).
    apply bind_Ok in H as (spheres & _ & H).
    destruct spheres; try discriminate.
    exact (py_store_keeps _ _ _ _ _ _ H K).
Qed.

Lemma bitmask_step_keeps (robot robot' linkname : value) (k : string) :
  bitmask_step robot linkname = Ok robot' -> k <> "links" ->
  py_item robot' k = py_item robot k.
Proof.
  unfold bitmask_step. intros H K.
  apply bind_Ok in H as (links & _ & H).
  apply bind_Ok in H as (link & _ & H).
  apply bind_Ok in H as (collision & _ & H).
  apply bind_Ok in H as (collnames & _ & H).
  apply bind_Ok in H as (bitmask & _ & H).
  apply bind_Ok in H as (link' & _ & H).
  apply bind_Ok in H as (key & _ & H).
  exact (py_store_keeps _ _ _ _ _ _ H K).
Qed.

Lemma device_step_keeps (h : Helpers) (sc : Scene) (robot robot' : value)
    (obj : BObject) (k : string) :
  device_step h sc robot obj = Ok robot' ->
  k <> "sensors" -> k <> "controllers" ->
  py_item robot' k = py_item robot k.
Proof.
  unfold device_step. intros H K1 K2.
  destruct (_ || _) eqn:E; [|now injection H as <-].
  apply bind_Ok in H as (props & _ & H).
  apply bind_Ok in H as (target & _ & H).
  apply bind_Ok in H as (name & _ & H).
  apply bind_Ok in H as (target' & _ & H).
  apply (py_store_keeps _ _ _ _ _ _ H).
  apply orb_true_iff in E as [E|E]; apply String.eqb_eq in E; rewrite E;
    assumption.
Qed.

Lemma material_step_keeps (h : Helpers) (sc : Scene) (robot robot' : value)
    (obj : BObject) (k : string) :
  material_step h sc robot obj = Ok robot' ->
  k <> "materials" -> k <> "links" ->
  py_item robot' k = py_item robot k.
Proof.
  unfold material_step. intros H K1 K2.
  destruct (String.eqb _ _); [|now injection H as <-].
  apply bind_Ok in H as (mats & _ & H).
  destruct mats as [|mat mats]; [now injection H as <-|].
  apply bind_Ok in H as (matname & _ & H).
  apply bind_Ok in H as (materials & _ & H).
  apply bind_Ok in H as (known & _ & H).
  apply bind_Ok in H as (robot1 & H1 & H).
  apply bind_Ok in H as (links & _ & H).
  apply bind_Ok in H as (parentname & _ & H).
  apply bind_Ok in H as (visuals & _ & H).
  apply bind_Ok in H as (name & _ & H).
  apply bind_Ok in H as (visual & _ & H).
  apply bind_Ok in H as (visual' & _ & H).
  rewrite (py_store_keeps _ _ _ _ _ _ H K2).
  destruct (negb known); [|now injection H1 as <-].
  apply bind_Ok in H1 as (m & _ & H1).
  apply bind_Ok in H1 as (derived & _ & H1).
  apply bind_Ok in H1 as (materials' & _ & H1).
  apply bind_Ok in H1 as (materials'' & _ & H1).
  exact (py_store_keeps _ _ _ _ _ _ H1 K1).
Qed.

Lemma group_step_keeps (h : Helpers) (sc : Scene) (robot robot' : value)
    (group : Group) (k : string) :
  group_step h sc robot group = Ok robot' -> k <> "groups" ->
  py_item robot' k = py_item robot k.
Proof.
  unfold group_step. intros H K.
  destruct (group_objects group); [now injection H as <-|].
  apply bind_Ok in H as (name & _ & H).
  destruct (negb _); [|now injection H as <-].
  apply bind_Ok in H as (entry & _ & H).
  apply bind_Ok in H as (target & _ & H).
  apply bind_Ok in H as (name' & _ & H).
  apply bind_Ok in H as (target' & _ & H).
  exact (py_store_keeps _ _ _ _ _ _ H K).
Qed.

Lemma chain_entry_keeps (robot robot' chain : value) (k : string) :
  chain_entry robot chain = Ok robot' -> k <> "chains" ->
  py_item robot' k = py_item robot k.
Proof.
  unfold chain_entry. intros H K.
  apply bind_Ok in H as (target & _ & H).
  apply bind_Ok in H as (name & _ & H).
  apply bind_Ok in H as (key & _ & H).
  apply bind_Ok in H as (target' & _ & H).
  exact (py_store_keeps _ _ _ _ _ _ H K).
Qed.

Lemma light_step_keeps (h : Helpers) (sc : Scene) (robot robot' : value)
    (obj : BObject) (k : string) :
  light_step h sc robot obj = Ok robot' -> k <> "lights" ->
  py_item robot' k = py_item robot k.
Proof.
  unfold light_step. intros H K.
  destruct (String.eqb _ _); [|now injection H as <-].
  apply bind_Ok in H as (light & _ & H).
  apply bind_Ok in H as (target & _ & H).
  apply bind_Ok in H as (name & _ & H).
  apply bind_Ok in H as (target' & _ & H).
  exact (py_store_keeps _ _ _ _ _ _ H K).
Qed.

(** A loop whose turns keep an entry keeps it. *)
Lemma for_each_keeps {A : Type} (xs : list A) (body : value -> A -> result value)
    (k : string) :
  (forall r x r', body r x = Ok r' -> py_item r' k = py_item r k) ->
  forall robot robot',
    for_each xs body robot = Ok robot' -> py_item robot' k = py_item robot k.
Proof.
  intros Hbody robot robot' H. revert H.
  apply (for_each_invariant (fun r => py_item r k = py_item robot k));
    [|reflexivity].
  intros r x r' _ Hr Hstep. now rewrite (Hbody r x r' Hstep).
Qed.

(** A loop whose turns establish a property of the elements met so far. *)
Lemma for_each_prefix {A S : Type} (P : list A -> S -> Prop) (xs : list A)
    (body : S -> A -> result S) :
  (forall seen x s s', P seen s -> body s x = Ok s' -> P (seen ++ [x]) s') ->
  forall s s', P [] s -> for_each xs body s = Ok s' -> P xs s'.
Proof.
  intros Hstep.
  assert (Hgen : forall todo seen s s',
            P seen s -> for_each todo body s = Ok s' -> P (seen ++ todo) s').
  { induction todo as [|x todo IH]; intros seen s s' Hs H; simpl in H.
    - injection H as <-. now rewrite app_nil_r.
    - apply bind_Ok in H as (s1 & H1 & H).
      replace (seen ++ x :: todo) with ((seen ++ [x]) ++ todo)
        by (now rewrite <- app_assoc).
      apply (IH _ s1); [|exact H]. exact (Hstep seen x s s1 Hs H1). }
  intros s s' Hs H. exact (Hgen xs [] s s' Hs H).
Qed.

(** The stages of [build_robot], with the dictionary after each of them. *)
Lemma build_robot_stages (h : Helpers) (sc sc' : Scene) (root : BObject)
    (robot : value) (objectlist : list BObject) :
  build_robot h sc root = Ok (robot, objectlist, sc') ->
  phobostype root = "link" /\
  getChildren h sc root (Some true) (Some false) = Ok objectlist /\
  exists robot0 robot1 robot2 robot3 links linknames robot4 robot5 materials
         robot6 robot7 robot8 chains robot9 robot10 poses,
    py_setitem empty_robot "date" (VStr (clock sc)) = Ok robot0 /\
    py_setitem robot0 "modelname"
      (match dict_get "modelname" (custom_props sc root) with
       | Some modelname => modelname
       | None => VStr "unnamed_robot"
       end) = Ok robot1 /\
    for_each (filter (fun link => String.eqb (phobostype link) "link")
                objectlist) (link_step h) (robot1, sc) = Ok (robot2, sc') /\
    for_each objectlist (geometry_step h sc') robot2 = Ok robot3 /\
    py_item robot3 "links" = Ok links /\
    py_iter links = Ok linknames /\
    for_each linknames bitmask_step robot3 = Ok robot4 /\
    for_each objectlist (device_step h sc') robot4 = Ok robot5 /\
    collectMaterials h sc' objectlist = Ok materials /\
    py_setitem robot5 "materials" (VDict materials) = Ok robot6 /\
    for_each objectlist (material_step h sc') robot6 = Ok robot7 /\
    for_each (groups sc') (group_step h sc') robot7 = Ok robot8 /\
    for_each objectlist (gather_chains h sc') [] = Ok chains /\
    for_each chains chain_entry robot8 = Ok robot9 /\
    for_each objectlist (light_step h sc') robot9 = Ok robot10 /\
    deriveStoredPoses h sc' = Ok poses /\
    py_setitem robot10 "poses" (VDict poses) = Ok robot.
Proof.
  unfold build_robot. intros H.
  apply bind_Ok in H as (robot0 & Hdate & H).
  destruct (String.eqb_spec (phobostype root) "link") as [Hroot|];
    [|discriminate]. simpl negb in H. cbv iota in H.
  apply bind_Ok in H as (robot1 & Hname & H).
  apply bind_Ok in H as (objs & Hobjs & H).
  apply bind_Ok in H as ([robot2 sc2] & Hlinks & H).
  apply bind_Ok in H as (robot3 & Hgeo & H).
  apply bind_Ok in H as (links & Hitem & H).
  apply bind_Ok in H as (linknames & Hiter & H).
  apply bind_Ok in H as (robot4 & Hmask & H).
  apply bind_Ok in H as (robot5 & Hdev & H).
  apply bind_Ok in H as (materials & Hcollect & H).
  apply bind_Ok in H as (robot6 & Hmats & H).
  apply bind_Ok in H as (robot7 & Hmat & H).
  apply bind_Ok in H as (robot8 & Hgroups & H).
  apply bind_Ok in H as (chains & Hgather & H).
  apply bind_Ok in H as (robot9 & Hchains & H).
  apply bind_Ok in H as (robot10 & Hlights & H).
  apply bind_Ok in H as (poses & Hstored & H).
  apply bind_Ok in H as (robot11 & Hposes & H).
  injection H as <- <- <-.
  split; [exact Hroot|]. split; [exact Hobjs|].
  exists robot0, robot1, robot2, robot3, links, linknames, robot4, robot5,
    materials, robot6, robot7, robot8, chains, robot9, robot10, poses.
  repeat (split; [assumption|]). exact Hposes.
Qed.

(** What the stages before the sensors and controllers keep. *)
Lemma links_stages_keep (h : Helpers) (sc sc' : Scene)
    (links : list BObject) (objectlist : list BObject)
    (linknames : list value) (robot1 robot2 robot3 robot4 : value)
    (k : string) :
  for_each links (link_step h) (robot1, sc) = Ok (robot2, sc') ->
  for_each objectlist (geometry_step h sc') robot2 = Ok robot3 ->
  for_each linknames bitmask_step robot3 = Ok robot4 ->
  k <> "links" -> k <> "joints" -> k <> "motors" ->
  py_item robot4 k = py_item robot1 k.
Proof.
  intros Hlinks Hgeo Hmask K1 K2 K3.
  rewrite (for_each_keeps _ _ k
             (fun r x r' Hs => bitmask_step_keeps r r' x k Hs K1) _ _ Hmask).
  rewrite (for_each_keeps _ _ k
             (fun r x r' Hs => geometry_step_keeps h sc' r r' x k Hs K1)
             _ _ Hgeo).
  revert Hlinks.
  apply (for_each_invariant
           (fun st : value * Scene => py_item (fst st) k = py_item robot1 k));
    [|reflexivity].
  intros st x st' _ Hst Hstep.
  now rewrite (link_step_keeps h st st' x k Hstep K1 K2 K3).
Qed.

(** X24: the dictionary that buildModelDictionary has built when it reaches
    its return statement has the time of the call as 'date' and, as
    'modelname', the property 'modelname' of the root or 'unnamed_robot';
    the root is a link, and the objects returned with the dictionary are the
    selected, visible children of the root. *)
Theorem build_robot_header (h : Helpers) (sc sc' : Scene) (root : BObject)
    (robot : value) (objectlist : list BObject) :
  build_robot h sc root = Ok (robot, objectlist, sc') ->
  phobostype root = "link" /\
  getChildren h sc root (Some true) (Some false) = Ok objectlist /\
  py_item robot "date" = Ok (VStr (clock sc)) /\
  py_item robot "modelname" =
    Ok (match dict_get "modelname" (custom_props sc root) with
        | Some modelname => modelname
        | None => VStr "unnamed_robot"
        end).
Proof.
  intros H.
  destruct (build_robot_stages h sc sc' root robot objectlist H)
    as (Hroot & Hobjs & robot0 & robot1 & robot2 & robot3 & links & linknames
        & robot4 & robot5 & materials & robot6 & robot7 & robot8 & chains
        & robot9 & robot10 & poses & Hdate & Hname & Hlinks & Hgeo & Hitem
        & Hiter & Hmask & Hdev & Hcollect & Hmats & Hmat & Hgroups & Hgather
        & Hchains & Hlights & Hstored & Hposes).
  split; [exact Hroot|]. split; [exact Hobjs|].
  assert (Hkeep : forall k,
            In k ["date"; "modelname"] -> py_item robot k = py_item robot1 k).
  { intros k Hk.
    assert (Hne : k <> "links" /\ k <> "joints" /\ k <> "motors" /\
                  k <> "sensors" /\ k <> "controllers" /\ k <> "materials" /\
                  k <> "groups" /\ k <> "chains" /\ k <> "lights" /\
                  k <> "poses").
    { destruct Hk as [<- | [<- | []]]; repeat split; discriminate. }
    destruct Hne as (K1 & K2 & K3 & K4 & K5 & K6 & K7 & K8 & K9 & K10).
    rewrite (py_setitem_keeps _ _ _ _ _ Hposes K10).
    rewrite (for_each_keeps _ _ k
               (fun r x r' Hs => light_step_keeps h sc' r r' x k Hs K9)
               _ _ Hlights).
    rewrite (for_each_keeps _ _ k
               (fun r x r' Hs => chain_entry_keeps r r' x k Hs K8)
               _ _ Hchains).
    rewrite (for_each_keeps _ _ k
               (fun r x r' Hs => group_step_keeps h sc' r r' x k Hs K7)
               _ _ Hgroups).
    rewrite (for_each_keeps _ _ k
               (fun r x r' Hs => material_step_keeps h sc' r r' x k Hs K6 K1)
               _ _ Hmat).
    rewrite (py_setitem_keeps _ _ _ _ _ Hmats K6).
    rewrite (for_each_keeps _ _ k
               (fun r x r' Hs => device_step_keeps h sc' r r' x k Hs K4 K5)
               _ _ Hdev).
    exact (links_stages_keep h sc sc' _ _ _ _ _ _ _ k Hlinks Hgeo Hmask
             K1 K2 K3). }
  injection Hdate as <-. injection Hname as <-.
  split; (rewrite Hkeep; [reflexivity | simpl; auto]).
Qed.

(** The robot of the first sample scene is named 'robbie'. *)
Lemma build_robot_header_witness :
  py_item sample_robot "modelname" = Ok (VStr "robbie") /\
  py_item sample_robot "date" = Ok (VStr "20141212_10:00").
Proof.
  assert (H : build_robot sample_helpers sample_scene base =
              Ok (sample_robot, scene_objects sample_scene, sample_scene))
    by (vm_compute; reflexivity).
  destruct (build_robot_header sample_helpers sample_scene sample_scene base
              sample_robot _ H) as (_ & _ & Hdate & Hname).
  split; [exact Hname | exact Hdate].
Defined.

(** ** buildModelDictionary: lights, groups, sensors, controllers, chains *)

(** [robot[section][name] = v] *)
Lemma section_store (robot robot' target target' v : value)
    (section name : string) :
  py_item robot section = Ok target ->
  py_setitem target name v = Ok target' ->
  py_store robot [section] target' = Ok robot' ->
  exists entries,
    target = VDict entries /\
    py_item robot' section = Ok (VDict (dict_set name v entries)).
Proof.
  intros Hitem Hset Hstore.
  apply py_setitem_Ok in Hset as (entries & -> & ->).
  apply py_store_cons in Hstore as (d & inner & inner' & -> & _ & Hnil & ->).
  apply py_store_nil in Hnil as ->.
  exists entries. split; [reflexivity|].
  unfold py_item, py_getitem, dict_item. now rewrite dict_get_set_eq.
Qed.

(** The sections of the dictionary are empty at first. *)
Lemma robot1_sections (robot0 robot1 date modelname : value) (k : string) :
  py_setitem empty_robot "date" date = Ok robot0 ->
  py_setitem robot0 "modelname" modelname = Ok robot1 ->
  In k ["joints"; "motors"; "sensors"; "controllers"; "groups"; "chains";
        "lights"] ->
  py_item robot1 k = Ok (VDict []).
Proof.
  intros [= <-] [= <-] Hk. simpl in Hk.
  repeat (destruct Hk as [<- | Hk]; [reflexivity|]). contradiction.
Qed.

(** X25: the 'lights' of the dictionary that buildModelDictionary has built
    hold, under the name of the object, what deriveLight returns for it, for
    the objects of the list that are lights and for nothing else. *)
Theorem build_robot_lights (h : Helpers) (sc sc' : Scene) (root : BObject)
    (robot : value) (objectlist : list BObject) :
  build_robot h sc root = Ok (robot, objectlist, sc') ->
  exists lights,
    py_item robot "lights" = Ok (VDict lights) /\
    (forall name entry,
       dict_get name lights = Some entry ->
       light_entry h sc' objectlist name entry) /\
    (forall obj,
       In obj objectlist -> phobostype obj = "light" ->
       exists name,
         getObjectName h sc' (EObject obj) None = Ok name /\
         In name (dict_keys lights)).
Proof.
  intros H.
  destruct (build_robot_stages h sc sc' root robot objectlist H)
    as (Hroot & Hobjs & robot0 & robot1 & robot2 & robot3 & links & linknames
        & robot4 & robot5 & materials & robot6 & robot7 & robot8 & chains
        & robot9 & robot10 & poses & Hdate & Hname & Hlinks & Hgeo & Hitem
        & Hiter & Hmask & Hdev & Hcollect & Hmats & Hmat & Hgroups & Hgather
        & Hchains & Hlights & Hstored & Hposes).
  assert (H9 : py_item robot9 "lights" = Ok (VDict [])).
  { rewrite (for_each_keeps _ _ "lights"
               (fun r x r' Hs => chain_entry_keeps r r' x "lights" Hs ltac:(discriminate))
               _ _ Hchains).
    rewrite (for_each_keeps _ _ "lights"
               (fun r x r' Hs => group_step_keeps h sc' r r' x "lights" Hs
                                   ltac:(discriminate)) _ _ Hgroups).
    rewrite (for_each_keeps _ _ "lights"
               (fun r x r' Hs => material_step_keeps h sc' r r' x "lights" Hs
                                   ltac:(discriminate) ltac:(discriminate))
               _ _ Hmat).
    rewrite (py_setitem_keeps _ _ _ "lights" _ Hmats) by discriminate.
    rewrite (for_each_keeps _ _ "lights"
               (fun r x r' Hs => device_step_keeps h sc' r r' x "lights" Hs
                                   ltac:(discriminate) ltac:(discriminate))
               _ _ Hdev).
    rewrite (links_stages_keep h sc sc' _ _ _ _ _ _ _ "lights" Hlinks Hgeo
               Hmask) by discriminate.
    apply (robot1_sections robot0 robot1 _ _ _ Hdate Hname). simpl; auto 10. }
  rewrite (py_setitem_keeps _ _ _ "lights" _ Hposes) by discriminate.
  revert Hlights.
  apply (for_each_prefix
           (fun (seen : list BObject) (r : value) =>
              exists lights,
                py_item r "lights" = Ok (VDict lights) /\
                (forall name entry,
                   dict_get name lights = Some entry ->
                   light_entry h sc' seen name entry) /\
                (forall obj,
                   In obj seen -> phobostype obj = "light" ->
                   exists name,
                     getObjectName h sc' (EObject obj) None = Ok name /\
                     In name (dict_keys lights)))).
  - intros seen obj r r' (lights & Hl & Hin & Hall) Hstep.
    unfold light_step in Hstep.
    destruct (String.eqb_spec (phobostype obj) "light") as [Hlight|Hother].
    + apply bind_Ok in Hstep as (light & Hderive & Hstep).
      apply bind_Ok in Hstep as (target & Htarget & Hstep).
      apply bind_Ok in Hstep as (name & Hn & Hstep).
      apply bind_Ok in Hstep as (target' & Hset & Hstep).
      destruct (section_store _ _ _ _ _ _ _ Htarget Hset Hstep)
        as (entries & -> & Hl').
      rewrite Hl in Htarget. injection Htarget as <-.
      eexists. split; [exact Hl'|]. split.
      * intros n e He. apply dict_get_set_cases in He as [[-> ->] | [_ He]].
        -- exists obj, light. split; [apply in_or_app; right; now left|].
           auto.
        -- destruct (Hin n e He) as (o & l & Ho & R).
           exists o, l. split; [apply in_or_app; now left | exact R].
      * intros o Ho Hp. apply in_app_or in Ho as [Ho | [<- | []]].
        -- destruct (Hall o Ho Hp) as (n & Hon & Hk).
           exists n. split; [exact Hon | now apply dict_keys_set_incl].
        -- exists name. split; [exact Hn | apply dict_keys_set_In].
    + injection Hstep as <-. exists lights. split; [exact Hl|]. split.
      * intros n e He. destruct (Hin n e He) as (o & l & Ho & R).
        exists o, l. split; [apply in_or_app; now left | exact R].
      * intros o Ho Hp. apply in_app_or in Ho as [Ho | [<- | []]];
          [now apply Hall | contradiction].
  - exists []. split; [exact H9|]. split; [intros n e [=] | intros o []].
Qed.

(** The light of the second sample scene. *)
Lemma build_robot_lights_witness :
  exists lights entry,
    py_item workshop_robot "lights" = Ok (VDict lights) /\
    dict_get "headlight" lights = Some entry /\
    light_entry sample_helpers workshop (scene_objects workshop) "headlight"
      entry.
Proof.
  assert (H : build_robot sample_helpers workshop base =
              Ok (workshop_robot, scene_objects workshop, workshop))
    by (vm_compute; reflexivity).
  destruct (build_robot_lights sample_helpers workshop workshop base
              workshop_robot _ H) as (lights & Hl & Hin & _).
  vm_compute in Hl. injection Hl as <-.
  eexists _, _. split; [reflexivity|]. split; [reflexivity|].
  apply Hin. reflexivity.
Defined.

(** X26: the 'groups' of the dictionary that buildModelDictionary has built
    hold, under the name of the group, what deriveGroupEntry returns for it,
    for the groups of the scene that have objects and are not named
    'RigidBodyWorld', and for nothing else. *)
Theorem build_robot_groups (h : Helpers) (sc sc' : Scene) (root : BObject)
    (robot : value) (objectlist : list BObject) :
  build_robot h sc root = Ok (robot, objectlist, sc') ->
  exists entries,
    py_item robot "groups" = Ok (VDict entries) /\
    (forall name entry,
       dict_get name entries = Some entry -> group_entry h sc' name entry) /\
    (forall group name,
       In group (groups sc') -> group_listed h sc' group name ->
       In name (dict_keys entries)).
Proof.
  intros H.
  destruct (build_robot_stages h sc sc' root robot objectlist H)
    as (Hroot & Hobjs & robot0 & robot1 & robot2 & robot3 & links & linknames
        & robot4 & robot5 & materials & robot6 & robot7 & robot8 & chains
        & robot9 & robot10 & poses & Hdate & Hname & Hlinks & Hgeo & Hitem
        & Hiter & Hmask & Hdev & Hcollect & Hmats & Hmat & Hgroups & Hgather
        & Hchains & Hlights & Hstored & Hposes).
  assert (H7 : py_item robot7 "groups" = Ok (VDict [])).
  { rewrite (for_each_keeps _ _ "groups"
               (fun r x r' Hs => material_step_keeps h sc' r r' x "groups" Hs
                                   ltac:(discriminate) ltac:(discriminate))
               _ _ Hmat).
    rewrite (py_setitem_keeps _ _ _ "groups" _ Hmats) by discriminate.
    rewrite (for_each_keeps _ _ "groups"
               (fun r x r' Hs => device_step_keeps h sc' r r' x "groups" Hs
                                   ltac:(discriminate) ltac:(discriminate))
               _ _ Hdev).
    rewrite (links_stages_keep h sc sc' _ _ _ _ _ _ _ "groups" Hlinks Hgeo
               Hmask) by discriminate.
    apply (robot1_sections robot0 robot1 _ _ _ Hdate Hname). simpl; auto 10. }
  rewrite (py_setitem_keeps _ _ _ "groups" _ Hposes) by discriminate.
  rewrite (for_each_keeps _ _ "groups"
             (fun r x r' Hs => light_step_keeps h sc' r r' x "groups" Hs
                                 ltac:(discriminate)) _ _ Hlights).
  rewrite (for_each_keeps _ _ "groups"
             (fun r x r' Hs => chain_entry_keeps r r' x "groups" Hs
                                 ltac:(discriminate)) _ _ Hchains).
  refine (for_each_prefix
            (fun (seen : list Group) (r : value) =>
               incl seen (groups sc') ->
               exists entries,
                 py_item r "groups" = Ok (VDict entries) /\
                 (forall name entry,
                    dict_get name entries = Some entry ->
                    group_entry h sc' name entry) /\
                 (forall group name,
                    In group seen -> group_listed h sc' group name ->
                    In name (dict_keys entries)))
            (groups sc') (group_step h sc') _ robot7 robot8 _ Hgroups
            (incl_refl _)).
  - intros seen group r r' Hseen Hstep Hincl'.
    assert (Hg : In group (groups sc'))
        by (apply Hincl'; apply in_or_app; right; now left).
      destruct Hseen as (entries & He & Hin & Hall).
      { intros g Hg'. apply Hincl'. apply in_or_app. now left. }
      unfold group_step in Hstep.
      destruct (group_objects group) as [|o os] eqn:Eobjs.
      + injection Hstep as <-. exists entries. split; [exact He|].
        split; [exact Hin|].
        intros g n Hgs Hlisted. apply in_app_or in Hgs as [Hgs | [<- | []]];
          [now apply (Hall g)|].
        destruct Hlisted as (Hne & _). rewrite Eobjs in Hne. contradiction.
      + apply bind_Ok in Hstep as (name & Hn & Hstep).
        destruct (String.eqb_spec name "RigidBodyWorld") as [Hrb|Hrb];
          simpl negb in Hstep; cbv iota in Hstep.
        * injection Hstep as <-. exists entries. split; [exact He|].
          split; [exact Hin|].
          intros g n Hgs Hlisted.
          apply in_app_or in Hgs as [Hgs | [<- | []]];
            [now apply (Hall g)|].
          destruct Hlisted as (_ & Hn' & Hne). congruence.
        * apply bind_Ok in Hstep as (entry & Hentry & Hstep).
          apply bind_Ok in Hstep as (target & Htarget & Hstep).
          apply bind_Ok in Hstep as (name' & Hn' & Hstep).
          apply bind_Ok in Hstep as (target' & Hset & Hstep).
          rewrite Hn in Hn'. injection Hn' as <-.
          destruct (section_store _ _ _ _ _ _ _ Htarget Hset Hstep)
            as (entries0 & -> & He').
          rewrite He in Htarget. injection Htarget as <-.
          eexists. split; [exact He'|]. split.
          -- intros n e Hget.
             apply dict_get_set_cases in Hget as [[-> ->] | [_ Hget]];
               [|now apply Hin].
             exists group, entry. rewrite Eobjs.
             repeat split; try assumption. discriminate.
          -- intros g n Hgs Hlisted.
             apply in_app_or in Hgs as [Hgs | [<- | []]].
             ++ apply dict_keys_set_incl. now apply (Hall g).
             ++ destruct Hlisted as (_ & Hn' & _).
                rewrite Hn in Hn'. injection Hn' as <-.
                apply dict_keys_set_In.
  - intros _. exists []. split; [exact H7|].
    split; [intros n e [=] | intros g n []].
Qed.

(** The group of the second sample scene. *)
Lemma build_robot_groups_witness :
  exists entries,
    py_item workshop_robot "groups" = Ok (VDict entries) /\
    In "arm_parts" (dict_keys entries) /\
    group_listed sample_helpers workshop arm_group "arm_parts".
Proof.
  assert (H : build_robot sample_helpers workshop base =
              Ok (workshop_robot, scene_objects workshop, workshop))
    by (vm_compute; reflexivity).
  assert (Hlisted : group_listed sample_helpers workshop arm_group "arm_parts")
    by (repeat split; discriminate).
  destruct (build_robot_groups sample_helpers workshop workshop base
              workshop_robot _ H) as (entries & He & _ & Hall).
  exists entries. split; [exact He|]. split; [|exact Hlisted].
  apply (Hall arm_group); [now left | exact Hlisted].
Defined.

(** X27: the 'sensors' and the 'controllers' of the dictionary that
    buildModelDictionary has built hold, under the name of the object, what
    deriveDictEntry returns for it, for the objects of the list with the
    phobostype 'sensor' or 'controller', and for nothing else. *)
Theorem build_robot_devices (h : Helpers) (sc sc' : Scene) (root : BObject)
    (robot : value) (objectlist : list BObject) (type_ : string) :
  build_robot h sc root = Ok (robot, objectlist, sc') ->
  In type_ ["sensor"; "controller"] ->
  exists entries,
    py_item robot (type_ ++ "s") = Ok (VDict entries) /\
    (forall name entry,
       dict_get name entries = Some entry ->
       device_entry h sc' objectlist type_ name entry) /\
    (forall obj,
       In obj objectlist -> phobostype obj = type_ ->
       exists name,
         getObjectName h sc' (EObject obj) None = Ok name /\
         In name (dict_keys entries)).
Proof.
  intros H Htype.
  destruct (build_robot_stages h sc sc' root robot objectlist H)
    as (Hroot & Hobjs & robot0 & robot1 & robot2 & robot3 & links & linknames
        & robot4 & robot5 & materials & robot6 & robot7 & robot8 & chains
        & robot9 & robot10 & poses & Hdate & Hname & Hlinks & Hgeo & Hitem
        & Hiter & Hmask & Hdev & Hcollect & Hmats & Hmat & Hgroups & Hgather
        & Hchains & Hlights & Hstored & Hposes).
  set (k := (type_ ++ "s")%string).
  assert (Hk : k <> "links" /\ k <> "joints" /\ k <> "motors" /\
               k <> "materials" /\ k <> "groups" /\ k <> "chains" /\
               k <> "lights" /\ k <> "poses" /\
               In k ["joints"; "motors"; "sensors"; "controllers"; "groups";
                     "chains"; "lights"]).
  { unfold k. destruct Htype as [<- | [<- | []]]; simpl;
      repeat split; try discriminate; auto 10. }
  destruct Hk as (K1 & K2 & K3 & K4 & K5 & K6 & K7 & K8 & Hsec).
  assert (H4 : py_item robot4 k = Ok (VDict [])).
  { rewrite (links_stages_keep h sc sc' _ _ _ _ _ _ _ k Hlinks Hgeo Hmask
               K1 K2 K3).
    exact (robot1_sections robot0 robot1 _ _ _ Hdate Hname Hsec). }
  rewrite (py_setitem_keeps _ _ _ k _ Hposes K8).
  rewrite (for_each_keeps _ _ k
             (fun r x r' Hs => light_step_keeps h sc' r r' x k Hs K7)
             _ _ Hlights).
  rewrite (for_each_keeps _ _ k
             (fun r x r' Hs => chain_entry_keeps r r' x k Hs K6) _ _ Hchains).
  rewrite (for_each_keeps _ _ k
             (fun r x r' Hs => group_step_keeps h sc' r r' x k Hs K5)
             _ _ Hgroups).
  rewrite (for_each_keeps _ _ k
             (fun r x r' Hs => material_step_keeps h sc' r r' x k Hs K4 K1)
             _ _ Hmat).
  rewrite (py_setitem_keeps _ _ _ k _ Hmats K4).
  revert Hdev.
  apply (for_each_prefix
           (fun (seen : list BObject) (r : value) =>
              exists entries,
                py_item r k = Ok (VDict entries) /\
                (forall name entry,
                   dict_get name entries = Some entry ->
                   device_entry h sc' seen type_ name entry) /\
                (forall obj,
                   In obj seen -> phobostype obj = type_ ->
                   exists name,
                     getObjectName h sc' (EObject obj) None = Ok name /\
                     In name (dict_keys entries)))).
  - intros seen obj r r' (entries & He & Hin & Hall) Hstep.
    assert (Hold : forall name entry,
              dict_get name entries = Some entry ->
              device_entry h sc' (seen ++ [obj]) type_ name entry).
    { intros n e Hget. destruct (Hin n e Hget) as (o & Ho & R).
      exists o. split; [apply in_or_app; now left | exact R]. }
    unfold device_step in Hstep.
    destruct (String.eqb_spec (phobostype obj) type_) as [Hsame|Hother].
    + assert (Hdevice : String.eqb (phobostype obj) "sensor"
                        || String.eqb (phobostype obj) "controller" = true).
      { rewrite Hsame. destruct Htype as [<- | [<- | []]]; reflexivity. }
      rewrite Hdevice in Hstep. rewrite Hsame in Hstep. fold k in Hstep.
      apply bind_Ok in Hstep as (props & Hprops & Hstep).
      apply bind_Ok in Hstep as (target & Htarget & Hstep).
      apply bind_Ok in Hstep as (name & Hn & Hstep).
      apply bind_Ok in Hstep as (target' & Hset & Hstep).
      destruct (section_store _ _ _ _ _ _ _ Htarget Hset Hstep)
        as (entries0 & -> & He').
      rewrite He in Htarget. injection Htarget as <-.
      eexists. split; [exact He'|]. split.
      * intros n e Hget.
        apply dict_get_set_cases in Hget as [[-> ->] | [_ Hget]];
          [|now apply Hold].
        exists obj. split; [apply in_or_app; right; now left|]. auto.
      * intros o Ho Hp. apply in_app_or in Ho as [Ho | [<- | []]].
        -- destruct (Hall o Ho Hp) as (n & Hon & Hkeys).
           exists n. split; [exact Hon | now apply dict_keys_set_incl].
        -- exists name. split; [exact Hn | apply dict_keys_set_In].
    + assert (Hkeep : py_item r' k = py_item r k).
      { destruct (String.eqb (phobostype obj) "sensor"
                  || String.eqb (phobostype obj) "controller") eqn:Hdevice;
          [|now injection Hstep as <-].
        apply bind_Ok in Hstep as (props & _ & Hstep).
        apply bind_Ok in Hstep as (target & _ & Hstep).
        apply bind_Ok in Hstep as (name & _ & Hstep).
        apply bind_Ok in Hstep as (target' & _ & Hstep).
        apply (py_store_keeps _ _ _ _ _ _ Hstep). unfold k.
        intros Heq. apply Hother.
        apply orb_true_iff in Hdevice as [E|E]; apply String.eqb_eq in E;
          rewrite E in *; destruct Htype as [<- | [<- | []]];
          try reflexivity; discriminate. }
      exists entries. rewrite Hkeep. split; [exact He|].
      split; [exact Hold|].
      intros o Ho Hp. apply in_app_or in Ho as [Ho | [<- | []]];
        [now apply Hall | contradiction].
  - exists []. split; [exact H4|]. split; [intros n e [=] | intros o []].
Qed.

(** The sensor of the second sample scene. *)
Lemma build_robot_devices_witness :
  exists entries entry,
    py_item workshop_robot "sensors" = Ok (VDict entries) /\
    dict_get "camera" entries = Some entry /\
    device_entry sample_helpers workshop (scene_objects workshop) "sensor"
      "camera" entry.
Proof.
  assert (H : build_robot sample_helpers workshop base =
              Ok (workshop_robot, scene_objects workshop, workshop))
    by (vm_compute; reflexivity).
  destruct (build_robot_devices sample_helpers workshop workshop base
              workshop_robot _ "sensor" H) as (entries & He & Hin & _);
    [now left|].
  vm_compute in He. injection He as <-.
  eexists _, _. split; [reflexivity|]. split; [reflexivity|].
  apply Hin. reflexivity.
Defined.

(** The chains gathered from the links that end a chain. *)
Lemma gather_chains_found (h : Helpers) (sc : Scene)
    (objectlist : list BObject) (chains : list value) :
  for_each objectlist (gather_chains h sc) [] = Ok chains ->
  forall chain, In chain chains ->
    exists obj found,
      In obj objectlist /\ phobostype obj = "link" /\
      dict_has "endChain" (custom_props sc obj) = true /\
      deriveChainEntry h sc obj = Ok found /\ In chain found.
Proof.
  apply (for_each_prefix
           (fun (seen : list BObject) (acc : list value) =>
              forall chain, In chain acc ->
                exists obj found,
                  In obj seen /\ phobostype obj = "link" /\
                  dict_has "endChain" (custom_props sc obj) = true /\
                  deriveChainEntry h sc obj = Ok found /\ In chain found));
    [|intros chain []].
  intros seen obj acc acc' Hacc Hstep chain Hchain.
  assert (Hold : In chain acc ->
            exists o found,
              In o (seen ++ [obj]) /\ phobostype o = "link" /\
              dict_has "endChain" (custom_props sc o) = true /\
              deriveChainEntry h sc o = Ok found /\ In chain found).
  { intros Hc. destruct (Hacc chain Hc) as (o & found & Ho & R).
    exists o, found. split; [apply in_or_app; now left | exact R]. }
  unfold gather_chains in Hstep.
  destruct (String.eqb_spec (phobostype obj) "link") as [Hlink|_];
    [|injection Hstep as <-; now apply Hold].
  destruct (dict_has "endChain" (custom_props sc obj)) eqn:Hend;
    simpl andb in Hstep; cbv iota in Hstep;
    [|injection Hstep as <-; now apply Hold].
  apply bind_Ok in Hstep as (found & Hfound & Hstep). injection Hstep as <-.
  apply in_app_or in Hchain as [Hc | Hc]; [now apply Hold|].
  exists obj, found. split; [apply in_or_app; right; now left|]. auto.
Qed.

(** The chains that deriveChainEntry returns are named after the elements
    of 'endChain'. *)
Lemma deriveChainEntry_names (h : Helpers) (sc : Scene) (obj : BObject)
    (found : list value) :
  deriveChainEntry h sc obj = Ok found ->
  exists chainlist names,
    dict_get "endChain" (custom_props sc obj) = Some chainlist /\
    py_iter chainlist = Ok names /\
    forall chain, In chain found ->
      exists c cn,
        chain = VDict c /\ dict_get "name" c = Some cn /\ In cn names.
Proof.
  unfold deriveChainEntry. intros H.
  destruct (dict_get "endChain" (custom_props sc obj)) as [chainlist|];
    [|discriminate].
  simpl bind in H. apply bind_Ok in H as (names & Hnames & H).
  exists chainlist, names. split; [reflexivity|]. split; [exact Hnames|].
  revert H.
  apply (for_each_invariant
           (fun acc : list value =>
              forall chain, In chain acc ->
                exists c cn,
                  chain = VDict c /\ dict_get "name" c = Some cn /\
                  In cn names)); [|intros chain []].
  intros acc cn acc' Hcn Hacc Hstep chain Hchain.
  unfold chain_step in Hstep.
  apply bind_Ok in Hstep as (end_ & _ & Hstep).
  apply bind_Ok in Hstep as ([closed|] & Hclose & Hstep);
    injection Hstep as <-; [|now apply Hacc].
  apply in_app_or in Hchain as [Hchain | [<- | []]]; [now apply Hacc|].
  apply (close_chain_name h sc cn (ancestors obj) obj (VStr "") (VStr end_)
           [] closed eq_refl) in Hclose as [Hname _].
  exists closed, cn. auto.
Qed.

(** X28: where the chain names are strings, every entry of the 'chains' of
    the dictionary that buildModelDictionary has built is stored under its
    own 'name' and is a chain that deriveChainEntry returns for a link of
    the object list with the property 'endChain'. *)
Theorem build_robot_chains (h : Helpers) (sc sc' : Scene) (root : BObject)
    (robot : value) (objectlist : list BObject) :
  build_robot h sc root = Ok (robot, objectlist, sc') ->
  chain_names_are_strings sc' objectlist ->
  exists entries,
    py_item robot "chains" = Ok (VDict entries) /\
    forall name chain,
      dict_get name entries = Some chain ->
      chain_of h sc' objectlist name chain.
Proof.
  intros H Hstrings.
  destruct (build_robot_stages h sc sc' root robot objectlist H)
    as (Hroot & Hobjs & robot0 & robot1 & robot2 & robot3 & links & linknames
        & robot4 & robot5 & materials & robot6 & robot7 & robot8 & chains
        & robot9 & robot10 & poses & Hdate & Hname & Hlinks & Hgeo & Hitem
        & Hiter & Hmask & Hdev & Hcollect & Hmats & Hmat & Hgroups & Hgather
        & Hchains & Hlights & Hstored & Hposes).
  assert (H8 : py_item robot8 "chains" = Ok (VDict [])).
  { rewrite (for_each_keeps _ _ "chains"
               (fun r x r' Hs => group_step_keeps h sc' r r' x "chains" Hs
                                   ltac:(discriminate)) _ _ Hgroups).
    rewrite (for_each_keeps _ _ "chains"
               (fun r x r' Hs => material_step_keeps h sc' r r' x "chains" Hs
                                   ltac:(discriminate) ltac:(discriminate))
               _ _ Hmat).
    rewrite (py_setitem_keeps _ _ _ "chains" _ Hmats) by discriminate.
    rewrite (for_each_keeps _ _ "chains"
               (fun r x r' Hs => device_step_keeps h sc' r r' x "chains" Hs
                                   ltac:(discriminate) ltac:(discriminate))
               _ _ Hdev).
    rewrite (links_stages_keep h sc sc' _ _ _ _ _ _ _ "chains" Hlinks Hgeo
               Hmask) by discriminate.
    apply (robot1_sections robot0 robot1 _ _ _ Hdate Hname). simpl; auto 10. }
  rewrite (py_setitem_keeps _ _ _ "chains" _ Hposes) by discriminate.
  rewrite (for_each_keeps _ _ "chains"
             (fun r x r' Hs => light_step_keeps h sc' r r' x "chains" Hs
                                 ltac:(discriminate)) _ _ Hlights).
  pose proof (gather_chains_found h sc' objectlist chains Hgather) as Hfound.
  revert Hchains.
  apply (for_each_invariant
           (fun r => exists entries,
              py_item r "chains" = Ok (VDict entries) /\
              forall name chain,
                dict_get name entries = Some chain ->
                chain_of h sc' objectlist name chain)).
  - intros r chain r' Hchain (entries & He & Hin) Hstep.
    unfold chain_entry in Hstep.
    apply bind_Ok in Hstep as (target & Htarget & Hstep).
    apply bind_Ok in Hstep as (name & Hn & Hstep).
    apply bind_Ok in Hstep as (key & Hkey & Hstep).
    apply bind_Ok in Hstep as (target' & Hset & Hstep).
    destruct (Hfound chain Hchain)
      as (obj & found & Hobj & _ & _ & Hderive & Hin_found).
    destruct (deriveChainEntry_names h sc' obj found Hderive)
      as (chainlist & names & Hend & Hnames & Hnamed).
    destruct (Hnamed chain Hin_found)
      as (closed & cn & -> & Hcn & Hin_names).
    destruct (Hstrings obj chainlist names cn Hobj Hend Hnames Hin_names)
      as (s & ->).
    unfold py_item in Hn. simpl in Hn. unfold dict_item in Hn.
    rewrite Hcn in Hn. injection Hn as <-. injection Hkey as <-.
    destruct (section_store _ _ _ _ _ _ _ Htarget Hset Hstep)
      as (entries0 & -> & He').
    rewrite He in Htarget. injection Htarget as <-.
    eexists. split; [exact He'|].
    intros n c Hget.
    apply dict_get_set_cases in Hget as [[-> ->] | [_ Hget]];
      [|now apply Hin].
    split; [|exact (Hfound _ Hchain)].
    unfold py_item. simpl. unfold dict_item. now rewrite Hcn.
  - exists []. split; [exact H8 | intros n c [=]].
Qed.

(** The chain 'reach' of the first sample scene. *)
Lemma build_robot_chains_witness :
  chain_names_are_strings sample_scene (scene_objects sample_scene) /\
  exists entries chain,
    py_item sample_robot "chains" = Ok (VDict entries) /\
    dict_get "reach" entries = Some chain /\
    chain_of sample_helpers sample_scene (scene_objects sample_scene) "reach"
      chain.
Proof.
  assert (Hstrings : chain_names_are_strings sample_scene
                       (scene_objects sample_scene)).
  { intros obj chainlist names name Hobj.
    simpl in Hobj.
    repeat (destruct Hobj as [<- | Hobj]; [try discriminate|]);
      [|contradiction].
    intros [= <-] [= <-] [<- | [<- | []]]; eauto. }
  split; [exact Hstrings|].
  assert (H : build_robot sample_helpers sample_scene base =
              Ok (sample_robot, scene_objects sample_scene, sample_scene))
    by (vm_compute; reflexivity).
  destruct (build_robot_chains sample_helpers sample_scene sample_scene base
              sample_robot _ H Hstrings) as (entries & He & Hin).
  vm_compute in He. injection He as <-.
  eexists _, _. split; [reflexivity|]. split; [reflexivity|].
  apply Hin. reflexivity.
Defined.

(** ** deriveApproxsphere *)

(** The loop of initObjectProperties without phobostype: every property is
    copied. *)
Lemma copy_loop (kvs : dict) :
  forall props props',
    for_each kvs (fun props kv => Ok (dict_set (fst kv) (snd kv) props)) props
      = Ok props' ->
    (forall k, ~ In k (dict_keys kvs) -> dict_get k props' = dict_get k props) /\
    (NoDup (dict_keys kvs) ->
     forall k v, dict_get k kvs = Some v -> dict_get k props' = Some v).
Proof.
  induction kvs as [|[k0 v0] kvs IH]; intros props props' H; simpl in H.
  - injection H as <-. split; [reflexivity | intros _ k v [=]].
  - destruct (IH _ _ H) as [Hout Hin]. split.
    + intros k Hk. simpl in Hk. rewrite Hout by tauto.
      apply dict_get_set_neq. intros ->. tauto.
    + intros Hdup k v Hget. simpl in Hdup.
      apply NoDup_cons_iff in Hdup as [Hfresh Hdup]. simpl in Hget.
      destruct (String.eqb_spec k k0) as [->|Hne].
      * injection Hget as <-.
        rewrite (Hout k0 Hfresh). apply dict_get_set_eq.
      * now apply Hin.
Qed.

(** X29: deriveApproxsphere is the one caller of initObjectProperties that
    gives no phobostype, so that every custom property of the object is
    copied into the sphere under its own key, with or without '/', and with
    its value as it is; 'radius' is half of the first dimension of the
    object and 'center' its position. *)
Theorem deriveApproxsphere_properties (h : Helpers) (sc : Scene)
    (obj : BObject) (sphere : dict) :
  deriveApproxsphere h sc obj = Ok sphere ->
  NoDup (dict_keys (custom_props sc obj)) ->
  dict_get "radius" sphere =
    Some (VFloat (fst (fst (dimensions obj)) / 2)%float) /\
  dict_get "center" sphere = Some (float_list (matrix_local_translation obj)) /\
  forall k v,
    dict_get k (custom_props sc obj) = Some v ->
    k <> "radius" -> k <> "center" ->
    dict_get k sphere = Some v.
Proof.
  unfold deriveApproxsphere. intros H Hdup.
  apply bind_Ok in H as (props & Hprops & H).
  destruct (dimensions obj) as [[width d2] d3]. injection H as <-.
  split; [now rewrite dict_get_set_neq, dict_get_set_eq by discriminate|].
  split; [apply dict_get_set_eq|].
  intros k v Hget K1 K2. rewrite !dict_get_set_neq by assumption.
  apply initObjectProperties_Ok in Hprops as (name & kvs & _ & Hitems & Hloop).
  simpl in Hitems. injection Hitems as <-.
  exact (proj2 (copy_loop _ _ _ Hloop) Hdup k v Hget).
Qed.

(** The sphere of the second sample scene keeps its property 'sphere/kind',
    an id_array. *)
Lemma deriveApproxsphere_properties_witness :
  exists sphere,
    deriveApproxsphere sample_helpers workshop ball = Ok sphere /\
    dict_get "radius" sphere = Some (VFloat 1%float) /\
    dict_get "sphere/kind" sphere = Some (VArray [VInt 1]).
Proof.
  destruct (deriveApproxsphere sample_helpers workshop ball) as [sphere|e] eqn:E;
    [|vm_compute in E; discriminate].
  exists sphere. split; [reflexivity|].
  destruct (deriveApproxsphere_properties sample_helpers workshop ball sphere E)
    as (Hradius & _ & Hcopy).
  - vm_compute. repeat constructor; simpl; intuition discriminate.
  - split; [exact Hradius|]. apply Hcopy; [reflexivity | discriminate ..].
Defined.

